(** * Event binning and bounds extension of the vis_augmenter Vega helpers

    A shallow embedding of
    [src/plugins/vis_augmenter/public/vega/helpers.ts]:
    [enableEventsInConfig], [getXAxisId], [isVisLayerColumn],
    [generateVisLayerFilterString], [addMissingRowsToTableBounds],
    [addPointInTimeEventsLayersToTable] and
    [addPointInTimeEventsLayersToSpec].

    Modelling choices.
    - The cells of a row hold numbers, and numbers are integer milliseconds
      ([Z]).  A field that is absent reads as [undefined]; a comparison with
      [undefined] is false and arithmetic on it gives [NaN], for which every
      comparison is false as well.  Both are the [None] of [option Z].
      The prepending loop is given on doubles as well
      ([extendStart_double]), to show what rounding does to it.
    - A row is a plain object: besides its own fields it inherits the
      properties of [Object.prototype], and lodash [get] reads a key that
      is not an own property and has a dot or a bracket as a path.  Where a
      helper would store in a cell a value that is not a number, or give an
      array a named property, the model has no value for the result and the
      call ends as [Unrepresentable]: nothing is stated about such a call.
    - A datatable is a mutable object: tables live in a heap and are passed
      by reference, [cloneDeep] allocates a copy.  The rows of one table are
      distinct objects, so they are kept by value inside the table.
    - A call returns, throws, does not finish within the fuel it was given
      ([OutOfFuel]; only [while] loops consume fuel), or is
      [Unrepresentable].
    - [dimensions] carries the numbers the helpers compute from it with
      [moment.duration(..).asMilliseconds()] and [new Date(..).valueOf()];
      these conversions belong to libraries outside the repository. *)

From Stdlib Require Import Floats.
From stdpp Require Import base numbers strings pretty list gmap sorting.

Local Open Scope Z_scope.

(** ** Data model *)

Record OpenSearchDashboardsDatatableColumn := mkColumn {
  column_id : string;
  column_name : string;
  (* [column.meta?.type] *)
  column_meta_type : option string;
}.

(** A row maps field keys to numbers. *)
Abbreviation Row := (gmap string Z).

Record OpenSearchDashboardsDatatable := mkTable {
  columns : list OpenSearchDashboardsDatatableColumn;
  rows : list Row;
}.

Record PointInTimeEvent := mkEvent {
  timestamp : Z;
}.

Record PointInTimeEventsVisLayer := mkLayer {
  pluginResource_id : string;
  pluginResource_name : string;
  events : list PointInTimeEvent;
}.

(** The fields of [dimensions] the helpers read. *)
Record Dimensions := mkDimensions {
  (* [dimensions.x.label] *)
  x_label : string;
  (* [moment.duration(dimensions.x.params.interval).asMilliseconds()] *)
  x_params_interval : Z;
  (* [new Date(dimensions.x.params.bounds.min).valueOf()] *)
  x_params_bounds_min : Z;
  (* [new Date(dimensions.x.params.bounds.max).valueOf()] *)
  x_params_bounds_max : Z;
}.

(** ** Outcomes, heap and the monad of the helpers *)

Inductive JsError := TypeError.

Inductive outcome (A : Type) :=
  | Returns (a : A)
  | Throws (e : JsError)
  | OutOfFuel
  | Unrepresentable.
Arguments Returns {A} a.
Arguments Throws {A} e.
Arguments OutOfFuel {A}.
Arguments Unrepresentable {A}.

Definition loc := nat.
Abbreviation heap := (gmap loc OpenSearchDashboardsDatatable).

Definition M (A : Type) : Type := heap → outcome A * heap.

Definition retM {A} (a : A) : M A := λ h, (Returns a, h).

Definition bindM {A B} (f : A → M B) (m : M A) : M B := λ h,
  match m h with
  | (Returns a, h') => f a h'
  | (Throws e, h') => (Throws e, h')
  | (OutOfFuel, h') => (OutOfFuel, h')
  | (Unrepresentable, h') => (Unrepresentable, h')
  end.

Global Instance M_ret : MRet M := @retM.
Global Instance M_bind : MBind M := @bindM.

Definition lift {A} (o : outcome A) : M A := λ h, (o, h).
Definition throw {A} (e : JsError) : M A := lift (Throws e).
Definition diverge {A} : M A := lift OutOfFuel.

(** Reading a property of a table; a reference that designates no object
    stands for [undefined], whose properties cannot be read. *)
Definition readTable (l : loc) : M OpenSearchDashboardsDatatable := λ h,
  match h !! l with
  | Some t => (Returns t, h)
  | None => (Throws TypeError, h)
  end.

Definition modifyTable (l : loc)
    (f : OpenSearchDashboardsDatatable → OpenSearchDashboardsDatatable) : M unit := λ h,
  match h !! l with
  | Some t => (Returns (), <[l := f t]> h)
  | None => (Throws TypeError, h)
  end.

(** [table.rows] and [table.columns] *)
Definition getRows (l : loc) : M (list Row) := t ← readTable l; mret (rows t).
Definition getColumns (l : loc) : M (list OpenSearchDashboardsDatatableColumn) :=
  t ← readTable l; mret (columns t).

(** [table.rows.unshift(row)] *)
Definition unshiftRow (l : loc) (row : Row) : M unit :=
  modifyTable l (λ t, mkTable (columns t) (row :: rows t)).

(** [table.rows.push(row)] *)
Definition pushRow (l : loc) (row : Row) : M unit :=
  modifyTable l (λ t, mkTable (columns t) (rows t ++ [row])).

(** [table.columns.push(column)] *)
Definition pushColumn (l : loc) (column : OpenSearchDashboardsDatatableColumn) : M unit :=
  modifyTable l (λ t, mkTable (columns t ++ [column]) (rows t)).

(** [table.rows[i]]; beyond the end it is [undefined], and the helpers only
    read properties of it. *)
Definition getRow (l : loc) (i : nat) : M Row :=
  rs ← getRows l;
  match rs !! i with
  | Some r => mret r
  | None => throw TypeError
  end.

(** [table.rows[i] = row] and [table.rows[i][k] = v], for [i] within the array. *)
Definition setRow (l : loc) (i : nat) (row : Row) : M unit :=
  modifyTable l (λ t, mkTable (columns t) (<[i := row]> (rows t))).

(** lodash [cloneDeep]: a fresh object with the same content; the clone of
    [undefined] is [undefined]. *)
Definition cloneDeep (l : loc) : M loc := λ h,
  match h !! l with
  | Some t => let l' := fresh (dom h) in (Returns l', <[l' := t]> h)
  | None => (Returns l, h)
  end.

(** lodash [isEmpty] on arrays *)
Definition isEmpty {A} (l : list A) : bool :=
  match l with [] => true | _ => false end.

(** The property names a plain object inherits from [Object.prototype]. *)
Definition objectPrototypeKeys : list string :=
  ["constructor"; "__defineGetter__"; "__defineSetter__"; "hasOwnProperty";
   "__lookupGetter__"; "__lookupSetter__"; "isPrototypeOf"; "propertyIsEnumerable";
   "toString"; "valueOf"; "__proto__"; "toLocaleString"].

Definition inheritedKey (key : string) : bool :=
  bool_decide (key ∈ objectPrototypeKeys).

(** A dot (code 46) or an opening bracket (code 91) in a key: lodash may
    read such a key as a path. *)
Fixpoint hasPathSyntax (key : string) : bool :=
  match key with
  | EmptyString => false
  | String c rest =>
      Ascii.eqb c (Ascii.ascii_of_nat 46) || Ascii.eqb c (Ascii.ascii_of_nat 91)
      || hasPathSyntax rest
  end.

(** lodash [get(row, key, dflt)].  A key the row holds names that field
    ([key in Object(row)]).  Otherwise a key without path syntax that is not
    inherited reads as [undefined], and the default is returned.  For an
    inherited key the result is the inherited function or object, and for a
    key with path syntax lodash walks the path through the prototypes of
    the values it meets: the result need not be a number. *)
Definition get (row : Row) (key : string) (dflt : Z) : outcome Z :=
  match row !! key with
  | Some v => Returns v
  | None =>
      if hasPathSyntax key || inheritedKey key then Unrepresentable else Returns dflt
  end.

(** The value of [row[key]]: a number the row holds, [undefined], or the
    function or object that every plain object inherits under that name.
    In a comparison and in arithmetic the last two behave alike: both
    convert to [NaN]. *)
Inductive property :=
  | Number (n : Z)
  | Undefined
  | Inherited (key : string).

Definition readProperty (row : Row) (key : string) : property :=
  match row !! key with
  | Some v => Number v
  | None => if inheritedKey key then Inherited key else Undefined
  end.

(** Comparisons and arithmetic of numbers that may be [undefined] or [NaN]. *)
Definition js_le (a b : option Z) : bool :=
  match a, b with Some x, Some y => x <=? y | _, _ => false end.
Definition js_sub (a b : option Z) : option Z :=
  match a, b with Some x, Some y => Some (x - y) | _, _ => None end.
Definition Math_abs (a : option Z) : option Z := Z.abs <$> a.

(** [Array.prototype.every]: stops at the first element for which the
    callback returns [false]. *)
Fixpoint every {A} (callback : A → M bool) (l : list A) : M bool :=
  match l with
  | [] => mret true
  | a :: l' => b ← callback a; if b : bool then every callback l' else mret false
  end.

(** ** getXAxisId *)

Definition getXAxisId (dimensions : Dimensions)
    (columns : list OpenSearchDashboardsDatatableColumn) : outcome string :=
  match filter (λ column, column_name column = x_label dimensions) columns with
  | column :: _ => Returns (column_id column)
  | [] => Throws TypeError
  end.

(** ** addMissingRowsToTableBounds *)

(** [while (curStartTime > chartStartTime) { curStartTime -= intervalMillis;
    rows.unshift({[xAxisId]: curStartTime}) }] *)
Fixpoint extendStart (fuel : nat) (augmentedTable : loc) (xAxisId : string)
    (intervalMillis chartStartTime curStartTime : Z) : M unit :=
  if curStartTime >? chartStartTime then
    match fuel with
    | O => diverge
    | S fuel' =>
        let curStartTime := curStartTime - intervalMillis in
        unshiftRow augmentedTable {[xAxisId := curStartTime]};;
        extendStart fuel' augmentedTable xAxisId intervalMillis chartStartTime curStartTime
    end
  else mret ().

(** [while (curEndTime < chartEndTime) { curEndTime += intervalMillis;
    rows.push({[xAxisId]: curEndTime}) }] *)
Fixpoint extendEnd (fuel : nat) (augmentedTable : loc) (xAxisId : string)
    (intervalMillis chartEndTime curEndTime : Z) : M unit :=
  if curEndTime <? chartEndTime then
    match fuel with
    | O => diverge
    | S fuel' =>
        let curEndTime := curEndTime + intervalMillis in
        pushRow augmentedTable {[xAxisId := curEndTime]};;
        extendEnd fuel' augmentedTable xAxisId intervalMillis chartEndTime curEndTime
    end
  else mret ().

(** [while (curTime <= chartEndTime) { rows.push({[xAxisId]: curTime});
    curTime += intervalMillis }] *)
Fixpoint createAll (fuel : nat) (augmentedTable : loc) (xAxisId : string)
    (intervalMillis chartEndTime curTime : Z) : M unit :=
  if curTime <=? chartEndTime then
    match fuel with
    | O => diverge
    | S fuel' =>
        pushRow augmentedTable {[xAxisId := curTime]};;
        createAll fuel' augmentedTable xAxisId intervalMillis chartEndTime
          (curTime + intervalMillis)
    end
  else mret ().


Definition addMissingRowsToTableBounds (fuel : nat) (datatable : loc)
    (dimensions : Dimensions) : M loc :=
  augmentedTable ← cloneDeep datatable;
  let intervalMillis := x_params_interval dimensions in
  cols ← getColumns augmentedTable;
  xAxisId ← lift (getXAxisId dimensions cols);
  let chartStartTime := x_params_bounds_min dimensions in
  let chartEndTime := x_params_bounds_max dimensions in
  rs ← getRows augmentedTable;
  (if negb (isEmpty rs) then
     first ← getRow augmentedTable 0;
     let dataStartTime := first !! xAxisId in
     final ← getRow augmentedTable (length rs - 1)%nat;
     let dataEndTime := final !! xAxisId in
     (* an absent key reads as [undefined]; [undefined > n] and
        [undefined < n] are false, so the loop is not entered *)
     match dataStartTime with
     | Some curStartTime =>
         extendStart fuel augmentedTable xAxisId intervalMillis chartStartTime curStartTime
     | None => mret ()
     end;;
     match dataEndTime with
     | Some curEndTime =>
         extendEnd fuel augmentedTable xAxisId intervalMillis chartEndTime curEndTime
     | None => mret ()
     end
   else
     (* if there's no existing rows, create them all *)
     createAll fuel augmentedTable xAxisId intervalMillis chartEndTime chartStartTime);;
  mret augmentedTable.

Section Helpers.

(** Constant imported from the plugin's index module, whose value the
    helpers do not depend on. *)
Variable VIS_LAYER_COLUMN_TYPE : string.

(** ** isVisLayerColumn *)

Definition isVisLayerColumn (column : OpenSearchDashboardsDatatableColumn) : bool :=
  bool_decide (column_meta_type column = Some VIS_LAYER_COLUMN_TYPE).

(** ** addPointInTimeEventsLayersToTable *)

(** [rows[rowIndexToInsert][visLayerColumnId] =
      get(rows[rowIndexToInsert], visLayerColumnId, 0) + 1].
    For the key [__proto__], when the row has no field of that name, [get]
    returns [Object.prototype], adding 1 gives a string, and the inherited
    [__proto__] setter ignores a value that is not an object: nothing is
    written. *)
Definition incrementCell (augmentedTable : loc) (rowIndexToInsert : nat)
    (visLayerColumnId : string) : M unit :=
  row ← getRow augmentedTable rowIndexToInsert;
  if bool_decide (visLayerColumnId = "__proto__") &&
     bool_decide (row !! visLayerColumnId = None)
  then mret ()
  else
    cell ← lift (get row visLayerColumnId 0);
    setRow augmentedTable rowIndexToInsert (<[visLayerColumnId := cell + 1]> row).

(** The [while (rowIndex < rows.length - 1)] loop run for one timestamp.
    [rowIndex] is the variable shared by all iterations of [forEach]; the
    loop returns its value on exit. *)
Fixpoint binTimestamp (fuel : nat) (augmentedTable : loc)
    (xAxisId visLayerColumnId : string) (timestamp : Z) (rowIndex : nat) : M nat :=
  rs ← getRows augmentedTable;
  if Z.of_nat rowIndex <? Z.of_nat (length rs) - 1 then
    match fuel with
    | O => diverge
    | S fuel' =>
        lower ← getRow augmentedTable rowIndex;
        let smallerVal := lower !! xAxisId in
        upper ← getRow augmentedTable (rowIndex + 1)%nat;
        let higherVal := upper !! xAxisId in
        (* timestamp is on the left bounds of the chart *)
        if js_le (Some timestamp) smallerVal then
          incrementCell augmentedTable rowIndex visLayerColumnId;;
          mret rowIndex
        (* timestamp is in between the right 2 buckets *)
        else if js_le (Some timestamp) higherVal then
          let smallerValDiff := Math_abs (js_sub (Some timestamp) smallerVal) in
          let higherValDiff := Math_abs (js_sub (Some timestamp) higherVal) in
          let rowIndexToInsert :=
            if js_le smallerValDiff higherValDiff then rowIndex else (rowIndex + 1)%nat in
          incrementCell augmentedTable rowIndexToInsert visLayerColumnId;;
          mret rowIndex
        (* timestamp is on the right bounds of the chart *)
        else if Z.of_nat rowIndex + 1 =? Z.of_nat (length rs) - 1 then
          incrementCell augmentedTable (rowIndex + 1)%nat visLayerColumnId;;
          mret rowIndex
        (* timestamp is still too small; traverse to next bucket *)
        else
          binTimestamp fuel' augmentedTable xAxisId visLayerColumnId timestamp
            (rowIndex + 1)%nat
    end
  else mret rowIndex.

(** [sortedTimestamps.forEach((timestamp) => { while ... })] *)
Fixpoint forEachTimestamp (fuel : nat) (augmentedTable : loc)
    (xAxisId visLayerColumnId : string) (sortedTimestamps : list Z)
    (rowIndex : nat) : M nat :=
  match sortedTimestamps with
  | [] => mret rowIndex
  | timestamp :: rest =>
      rowIndex ← binTimestamp fuel augmentedTable xAxisId visLayerColumnId
                   timestamp rowIndex;
      forEachTimestamp fuel augmentedTable xAxisId visLayerColumnId rest rowIndex
  end.

(** [.sort((n1, n2) => n1 - n2)] on numbers: ascending order. *)
Definition sortAscending (l : list Z) : list Z := merge_sort Z.le l.

(** The callback given to [visLayers.every]. *)
Definition visLayerCallback (fuel : nat) (augmentedTable : loc) (xAxisId : string)
    (visLayer : PointInTimeEventsVisLayer) : M bool :=
  let visLayerColumnId := pluginResource_id visLayer in
  let visLayerColumnName := pluginResource_name visLayer in
  pushColumn augmentedTable
    (mkColumn visLayerColumnId visLayerColumnName (Some VIS_LAYER_COLUMN_TYPE));;
  rs ← getRows augmentedTable;
  (* special case: no rows *)
  if (length rs =? 0)%nat then mret false
  (* special case: only one row *)
  else if (length rs =? 1)%nat then
    first ← getRow augmentedTable 0;
    setRow augmentedTable 0
      (<[visLayerColumnId := Z.of_nat (length (events visLayer))]> first);;
    mret false
  else
    let rowIndex := 0%nat in
    let sortedTimestamps := sortAscending (timestamp <$> events visLayer) in
    (if (0 <? length sortedTimestamps)%nat then
       forEachTimestamp fuel augmentedTable xAxisId visLayerColumnId
         sortedTimestamps rowIndex;;
       mret ()
     else mret ());;
    mret true.

Definition addPointInTimeEventsLayersToTable (fuel : nat) (datatable : loc)
    (dimensions : Dimensions) (visLayers : list PointInTimeEventsVisLayer) : M loc :=
  augmentedTable ← addMissingRowsToTableBounds fuel datatable dimensions;
  cols ← getColumns augmentedTable;
  xAxisId ← lift (getXAxisId dimensions cols);
  (if negb (isEmpty visLayers) then
     every (visLayerCallback fuel augmentedTable xAxisId) visLayers;;
     mret ()
   else mret ());;
  mret augmentedTable.

End Helpers.

(** ** generateVisLayerFilterString *)

(** [Array.prototype.join]: the elements in order, the separator before
    every element but the first. *)
Fixpoint join_from (sep : string) (acc : string) (k : nat) (l : list string) : string :=
  match l with
  | [] => acc
  | element :: rest =>
      join_from sep ((if (0 <? k)%nat then acc +:+ sep else acc) +:+ element) (S k) rest
  end.

Definition join (sep : string) (l : list string) : string := join_from sep EmptyString 0 l.

Definition generateVisLayerFilterString (visLayerColumnIds : list string) : string :=
  if negb (isEmpty visLayerColumnIds) then
    let filterString :=
      (λ visLayerColumnId, "datum['" +:+ visLayerColumnId +:+ "'] > 0")
        <$> visLayerColumnIds in
    join " || " filterString
  else
    (* if there is no VisLayers to display, then filter out everything *)
    "false".

(** ** JSON values of the chart specification *)

#[local] Unset Elimination Schemes.
Inductive json :=
  | JNull
  | JBool (b : bool)
  | JNum (n : Z)
  | JStr (s : string)
  | JArr (items : list json)
  | JObj (fields : list (string * json)).
#[local] Set Elimination Schemes.

(** Own properties of an object, in insertion order. *)
Fixpoint lookupField (k : string) (fields : list (string * json)) : option json :=
  match fields with
  | [] => None
  | (k', v) :: rest => if String.eqb k k' then Some v else lookupField k rest
  end.

(** [o[k] = v]: an existing property keeps its place, a new one goes last. *)
Fixpoint setField (k : string) (v : json) (fields : list (string * json)) :
    list (string * json) :=
  match fields with
  | [] => [(k, v)]
  | (k', v') :: rest =>
      if String.eqb k k' then (k, v) :: rest else (k', v') :: setField k v rest
  end.

(** [delete o[k]] *)
Definition deleteField (k : string) (fields : list (string * json)) :
    list (string * json) :=
  filter (λ kv, kv.1 ≠ k) fields.

(** [value[k]] for one of the property names the helpers read; [None] is
    [undefined].  Only objects have such a property. *)
Definition prop (k : string) (value : json) : option json :=
  match value with
  | JObj fields => lookupField k fields
  | _ => None
  end.

(** [value[k] = v] on an object. *)
Definition setProp (k : string) (v : json) (value : json) : json :=
  match value with
  | JObj fields => JObj (setField k v fields)
  | _ => value
  end.

Fixpoint chars (s : string) : list json :=
  match s with
  | EmptyString => []
  | String c rest => JStr (String c EmptyString) :: chars rest
  end.

(** The properties copied by [{...value}]. *)
Definition spread (value : option json) : list (string * json) :=
  match value with
  | Some (JObj fields) => fields
  | Some (JArr items) => imap (λ i v, (pretty i, v)) items
  | Some (JStr s) => imap (λ i v, (pretty i, v)) (chars s)
  | _ => []
  end.

(** Walking a path of property names; the walk ends at [undefined] and at
    [null], whose properties are [undefined] here. *)
Fixpoint getPath (path : list string) (value : option json) : option json :=
  match path with
  | [] => value
  | k :: rest =>
      match value with
      | Some v => getPath rest (prop k v)
      | None => None
      end
  end.

(** lodash [stringToPath] for a path of names separated by dots (code 46). *)
Fixpoint stringToPath_from (name path : string) : list string :=
  match path with
  | EmptyString => [name]
  | String c rest =>
      if Ascii.eqb c (Ascii.ascii_of_nat 46) then name :: stringToPath_from EmptyString rest
      else stringToPath_from (name +:+ String c EmptyString) rest
  end.

Definition stringToPath (path : string) : list string :=
  stringToPath_from EmptyString path.

(** lodash [get(value, path, dflt)] for a path string.  A property of the
    value that is named by the whole string wins ([isKey]); otherwise the
    string is split into names and the path is walked.  The default stands
    in for [undefined] only: a [null] that is found is returned. *)
Definition lodash_get (value : json) (path : string) (dflt : json) : json :=
  match prop path value with
  | Some v => v
  | None => default dflt (getPath (stringToPath path) (Some value))
  end.

Definition isNull (value : json) : bool :=
  match value with JNull => true | _ => false end.

(** ** enableEventsInConfig *)

Definition enableEventsInConfig (config : option json) : outcome json :=
  match config with
  | None | Some JNull =>
      (* [config.kibana] of [undefined] or [null] *)
      Throws TypeError
  | Some c =>
      Returns
        (JObj (setField "kibana"
                 (JObj (setField "showEvents" (JBool true) (spread (prop "kibana" c))))
                 (spread (Some c))))
  end.

(** ** addPointInTimeEventsLayersToSpec *)

(** [label.replaceAll] of the double quote character (code 34) by the
    empty string *)
Fixpoint removeDoubleQuotes (s : string) : string :=
  match s with
  | EmptyString => EmptyString
  | String c rest =>
      if Ascii.eqb c (Ascii.ascii_of_nat 34) then removeDoubleQuotes rest
      else String c (removeDoubleQuotes rest)
  end.

Section Spec.

Variable VIS_LAYER_COLUMN_TYPE : string.
(** Constants and helper whose values come from outside the file:
    [EVENT_COLOR] is imported from the plugin's index module, and the
    date-time object is built by the [moment] library. *)
Variable EVENT_COLOR : string.
Variable convertToDateTimeObj : property → json.

Definition EVENT_MARK_SIZE : Z := 100.
Definition EVENT_MARK_SIZE_ENLARGED : Z := 140.
Definition EVENT_MARK_SHAPE : string := "triangle-up".
Definition EVENT_TIMELINE_HEIGHT : Z := 25.

(** The body of [newSpec.layer.forEach]: hide the x axis text of a data
    series that has an x axis.  The assignment
    [dataSeries.encoding.x.axis = {...dataSeries.encoding.x.axis, ...}]
    reads [dataSeries.encoding.x] step by step: it throws when [encoding]
    or [encoding.x] is [undefined] or [null], and, the module being strict
    code, when [encoding.x] is a number, a string or a boolean.  An array
    for [encoding.x] would get the named property [axis]. *)
Definition hideXAxis (dataSeries : json) : outcome json :=
  if negb (isNull (lodash_get dataSeries "encoding.x.axis" JNull)) then
    match prop "encoding" dataSeries with
    | None | Some JNull => Throws TypeError
    | Some encoding =>
        match prop "x" encoding with
        | None | Some JNull => Throws TypeError
        | Some (JObj xFields) =>
            let axis :=
              JObj (setField "title" JNull
                      (setField "labels" (JBool false)
                         (spread (lookupField "axis" xFields)))) in
            Returns
              (setProp "encoding"
                 (setProp "x" (JObj (setField "axis" axis xFields)) encoding)
                 dataSeries)
        | Some (JArr _) => Unrepresentable
        | Some _ => Throws TypeError
        end
    end
  else Returns dataSeries.

(** [array.forEach(callback)] for a callback that updates the element it is
    given.  The first element for which the callback throws ends the
    iteration.  After an element that the model cannot represent the
    iteration goes on: the call has no representable result any more, but
    a later element may still throw. *)
Fixpoint forEach (callback : json → outcome json) (array : list json) :
    outcome (list json) :=
  match array with
  | [] => Returns []
  | element :: rest =>
      match callback element with
      | Returns element' =>
          match forEach callback rest with
          | Returns rest' => Returns (element' :: rest')
          | Throws e => Throws e
          | OutOfFuel => OutOfFuel
          | Unrepresentable => Unrepresentable
          end
      | Unrepresentable =>
          match forEach callback rest with
          | Throws e => Throws e
          | OutOfFuel => OutOfFuel
          | Returns _ | Unrepresentable => Unrepresentable
          end
      | Throws e => Throws e
      | OutOfFuel => OutOfFuel
      end
  end.

Definition addPointInTimeEventsLayersToSpec (datatable : loc) (dimensions : Dimensions)
    (spec : list (string * json)) : M json :=
  let newSpec := spec in
  config ← lift (enableEventsInConfig (lookupField "config" newSpec));
  let newSpec := setField "config" config newSpec in
  cols ← getColumns datatable;
  xAxisId ← lift (getXAxisId dimensions cols);
  let xAxisTitle := removeDoubleQuotes (x_label dimensions) in
  rs ← getRows datatable;
  first ← getRow datatable 0;
  let bucketStartTime := convertToDateTimeObj (readProperty first xAxisId) in
  final ← getRow datatable (length rs - 1)%nat;
  let bucketEndTime := convertToDateTimeObj (readProperty final xAxisId) in
  let visLayerColumns := filter (λ column, isVisLayerColumn VIS_LAYER_COLUMN_TYPE column) cols in
  let visLayerColumnIds := column_id <$> visLayerColumns in
  let hoverParamName := "hover" in
  match lookupField "layer" newSpec with
  | Some (JArr layer) =>
      (* Hide x axes text on existing chart *)
      layer ← lift (forEach hideXAxis layer);
      (* Add a rule to the existing layer for showing lines on the chart *)
      let layer := layer ++ [JObj [
        ("mark", JObj [("type", JStr "rule"); ("color", JStr EVENT_COLOR);
                       ("opacity", JNum 1)]);
        ("transform",
           JArr [JObj [("filter", JStr (generateVisLayerFilterString visLayerColumnIds))]]);
        ("encoding", JObj [
           ("x", JObj [("field", JStr xAxisId); ("type", JStr "temporal")]);
           ("opacity", JObj [
              ("value", JNum 0);
              ("condition", JObj [("empty", JBool false); ("param", JStr hoverParamName);
                                  ("value", JNum 1)])])])]] in
      (* Nesting layer into a vconcat field so we can append event chart *)
      let vconcat := [JObj [("layer", JArr layer)]] in
      (* Adding the event timeline chart *)
      let vconcat := vconcat ++ [JObj [
        ("height", JNum EVENT_TIMELINE_HEIGHT);
        ("mark", JObj [("type", JStr "point"); ("shape", JStr EVENT_MARK_SHAPE);
                       ("color", JStr EVENT_COLOR); ("filled", JBool true);
                       ("opacity", JNum 1)]);
        ("transform",
           JArr [JObj [("filter", JStr (generateVisLayerFilterString visLayerColumnIds))]]);
        ("params",
           JArr [JObj [("name", JStr hoverParamName);
                       ("select", JObj [("type", JStr "point"); ("on", JStr "mouseover")])]]);
        ("encoding", JObj [
           ("x", JObj [
              ("axis", JObj [("title", JStr xAxisTitle); ("grid", JBool false);
                             ("ticks", JBool true); ("orient", JStr "bottom");
                             ("domain", JBool true)]);
              ("field", JStr xAxisId);
              ("type", JStr "temporal");
              ("scale", JObj [("domain", JArr [bucketStartTime; bucketEndTime])])]);
           ("size", JObj [
              ("condition", JObj [("empty", JBool false); ("param", JStr hoverParamName);
                                  ("value", JNum EVENT_MARK_SIZE_ENLARGED)]);
              ("value", JNum EVENT_MARK_SIZE)])])]] in
      mret (JObj (deleteField "layer" (setField "vconcat" (JArr vconcat) newSpec)))
  | _ =>
      (* [newSpec.layer.forEach] is not a function *)
      throw TypeError
  end.

End Spec.

(** * Vocabulary of the statements *)

(** ** Arithmetic progressions of axis keys *)

(** [arith a i n] is [a, a + i, ..., a + (n - 1) * i]. *)
Fixpoint arith (a i : Z) (n : nat) : list Z :=
  match n with
  | O => []
  | S n' => a :: arith (a + i) i n'
  end.

(** The row synthesized for key [k]. *)
Definition keyRow (xAxisId : string) (k : Z) : Row := {[xAxisId := k]}.

(** Number of iterations of the three loops, for a positive interval. *)
Definition stepsBetween (i lo hi : Z) : nat := Z.to_nat ((hi - lo + i - 1) / i).
Definition stepsWithin (i lo hi : Z) : nat := Z.to_nat ((hi - lo) / i + 1).

(** ** Closed form of addMissingRowsToTableBounds *)

(** [rows[0][xAxisId]] and [rows[rows.length - 1][xAxisId]] *)
Definition firstKey (x : string) (rs : list Row) : option Z := head rs ≫= (.!! x).
Definition lastKey (x : string) (rs : list Row) : option Z := last rs ≫= (.!! x).

(** Iterations of the prepending and of the appending loop. *)
Definition prependCount (dimensions : Dimensions) (dataStart : option Z) : nat :=
  match dataStart with
  | Some c => stepsBetween (x_params_interval dimensions) (x_params_bounds_min dimensions) c
  | None => 0
  end.
Definition appendCount (dimensions : Dimensions) (dataEnd : option Z) : nat :=
  match dataEnd with
  | Some c => stepsBetween (x_params_interval dimensions) c (x_params_bounds_max dimensions)
  | None => 0
  end.

Definition prependedRows (x : string) (dimensions : Dimensions) (rs : list Row) : list Row :=
  let n := prependCount dimensions (firstKey x rs) in
  keyRow x <$> arith (default 0 (firstKey x rs) - Z.of_nat n * x_params_interval dimensions)
                 (x_params_interval dimensions) n.

Definition appendedRows (x : string) (dimensions : Dimensions) (rs : list Row) : list Row :=
  keyRow x <$> arith (default 0 (lastKey x rs) + x_params_interval dimensions)
                 (x_params_interval dimensions) (appendCount dimensions (lastKey x rs)).

Definition createdRows (x : string) (dimensions : Dimensions) : list Row :=
  keyRow x <$> arith (x_params_bounds_min dimensions) (x_params_interval dimensions)
                 (stepsWithin (x_params_interval dimensions)
                    (x_params_bounds_min dimensions) (x_params_bounds_max dimensions)).

Definition extendedRows (x : string) (dimensions : Dimensions) (rs : list Row) : list Row :=
  match rs with
  | [] => createdRows x dimensions
  | _ => prependedRows x dimensions rs ++ rs ++ appendedRows x dimensions rs
  end.

(** Number of loop iterations of a call: every iteration adds one row. *)
Definition iterations (x : string) (dimensions : Dimensions) (rs : list Row) : nat :=
  (length (extendedRows x dimensions rs) - length rs)%nat.


(** ** Which objects a computation writes to *)

Definition touchesOnly {A} (l : loc) (m : M A) : Prop :=
  ∀ (h : heap) (l0 : loc), l0 ≠ l → (m h).2 !! l0 = h !! l0.

(** ** Binning *)

(** The update [incrementCell] makes to a row, and to the rows. *)
Definition increment (visLayerColumnId : string) (row : Row) : Row :=
  <[visLayerColumnId := default 0 (row !! visLayerColumnId) + 1]> row.

Definition bump (visLayerColumnId : string) (j : nat) (rs : list Row) : list Row :=
  alter (increment visLayerColumnId) j rs.

(** Sum of a column over the rows; a row without the field counts 0. *)
Definition columnSum (key : string) (rs : list Row) : Z :=
  foldr (λ row acc, default 0 (row !! key) + acc) 0 rs.

(** Every row carries the axis key, and [ks] are the keys in row order. *)
Definition hasKeys (x : string) (rs : list Row) (ks : list Z) : Prop :=
  (.!! x) <$> rs = Some <$> ks.

Definition nondecreasing (ks : list Z) : Prop :=
  ∀ (i j : nat) a b, (i ≤ j)%nat → ks !! i = Some a → ks !! j = Some b → a <= b.

(** Row [j] is a nearest bucket of [t]: no key is closer to [t] than its
    key, and of two keys at the same distance it has the lower one. *)
Definition nearest (ks : list Z) (t : Z) (j : nat) : Prop :=
  ∃ k, ks !! j = Some k ∧
    ∀ (j' : nat) k', ks !! j' = Some k' →
      Z.abs (t - k) <= Z.abs (t - k') ∧ (Z.abs (t - k') = Z.abs (t - k) → k <= k').

(** What the cursor [rowIndex] satisfies when the loop is entered for
    timestamp [t]: it has a right neighbour, and unless it is still at the
    first row, its key is below [t]. *)
Definition cursorOk (ks : list Z) (t : Z) (c : nat) : Prop :=
  (c + 2 ≤ length ks)%nat ∧ (c ≠ 0%nat → ∃ kc, ks !! c = Some kc ∧ kc < t).

(** ** Layers *)

(** A key that lodash [get] reads as the name of an own field, whatever the
    row holds: it has no path syntax and is inherited by no plain object. *)
Definition plainKey (key : string) : Prop :=
  hasPathSyntax key = false ∧ inheritedKey key = false.

(** The [forEach] body of addPointInTimeEventsLayersToSpec returns for the
    series. *)
Definition hides (dataSeries : json) : Prop :=
  ∃ dataSeries', hideXAxis dataSeries = Returns dataSeries'.

(** The column descriptor pushed for a layer. *)
Definition layerColumn (ty : string) (visLayer : PointInTimeEventsVisLayer) :
    OpenSearchDashboardsDatatableColumn :=
  mkColumn (pluginResource_id visLayer) (pluginResource_name visLayer) (Some ty).

(** The rows after the events of a layer went to the rows [targets]. *)
Definition binLayer (rs : list Row)
    (binned : PointInTimeEventsVisLayer * list nat) : list Row :=
  foldl (λ rs j, bump (pluginResource_id binned.1) j rs) rs binned.2.

(** Each event of the layer has a nearest bucket as target: [targets] are
    the targets of the events' timestamps, taken in some order. *)
Definition nearestTargets (ks : list Z) (visLayer : PointInTimeEventsVisLayer)
    (targets : list nat) : Prop :=
  ∃ timestamps,
    timestamps ≡ₚ timestamp <$> events visLayer ∧
    Forall2 (nearest ks) timestamps targets.

(** Number of events of the layers that use column [key]. *)
Definition eventsWithId (key : string) (visLayers : list PointInTimeEventsVisLayer) : Z :=
  foldr (λ v acc, (if decide (pluginResource_id v = key)
                   then Z.of_nat (length (events v)) else 0) + acc) 0 visLayers.

(** ** Frame *)

(** A row that holds the axis key and nothing else. *)
Definition synthesized (x : string) (row : Row) : Prop := ∃ k : Z, row = {[x := k]}.

(** The outcome is [a], unless the fuel ran out. *)
Abbreviation finishes o a := (o = Returns a ∨ o = OutOfFuel).

(** ** Termination *)



(** ** Density *)

(** The axis keys of the rows, [None] where a row has none. *)
Definition axisKeys (x : string) (rs : list Row) : list (option Z) := (.!! x) <$> rs.

(** Consecutive keys differ by exactly the interval. *)
Definition consecutiveBy (interval : Z) (ks : list (option Z)) : Prop :=
  ∀ (k : nat) a b, ks !! k = Some a → ks !! S k = Some b →
    ∃ za, a = Some za ∧ b = Some (za + interval).

(** Density of a row sequence: as many rows as
    [floor((lastKey - firstKey) / interval) + 1], consecutive keys one
    interval apart. *)
Definition density (interval : Z) (ks : list (option Z)) : Prop :=
  (∃ first final,
     head ks = Some (Some first) ∧ last ks = Some (Some final) ∧
     Z.of_nat (length ks) = (final - first) / interval + 1) ∧
  consecutiveBy interval ks.

(** ** Keys of the extended rows *)

(** The axis keys after bounds extension of rows with the keys [ks]. *)
Definition extendedKeys (dimensions : Dimensions) (ks : list Z) : list Z :=
  match ks with
  | [] => arith (x_params_bounds_min dimensions) (x_params_interval dimensions)
            (stepsWithin (x_params_interval dimensions)
               (x_params_bounds_min dimensions) (x_params_bounds_max dimensions))
  | a :: _ =>
      let b := default a (last ks) in
      arith (a - Z.of_nat (prependCount dimensions (Some a)) * x_params_interval dimensions)
        (x_params_interval dimensions) (prependCount dimensions (Some a))
      ++ ks ++
      arith (b + x_params_interval dimensions) (x_params_interval dimensions)
        (appendCount dimensions (Some b))
  end.

(** Two layers that differ in the order of their events only. *)
Definition sameEvents (v v' : PointInTimeEventsVisLayer) : Prop :=
  pluginResource_id v = pluginResource_id v' ∧
  pluginResource_name v = pluginResource_name v' ∧
  events v ≡ₚ events v'.

(** ** Example tables and layers *)

Definition emptyTable : OpenSearchDashboardsDatatable :=
  mkTable [mkColumn "col-0" "timestamp" None; mkColumn "col-1" "count" None] [].

Definition sparseTable : OpenSearchDashboardsDatatable :=
  mkTable [mkColumn "col-0" "timestamp" None; mkColumn "col-1" "count" None]
    [{["col-0" := 20; "col-1" := 3]}; {["col-0" := 50; "col-1" := 4]}].

Definition denseTable : OpenSearchDashboardsDatatable :=
  mkTable [mkColumn "col-0" "timestamp" None; mkColumn "col-1" "count" None]
    [{["col-0" := 20; "col-1" := 3]}; {["col-0" := 30; "col-1" := 4]}].

(** The input rows of [gappedTable] are 30 ms apart for an interval of
    10 ms, and already span the range. *)
Definition gappedTable : OpenSearchDashboardsDatatable :=
  mkTable [mkColumn "col-0" "timestamp" None; mkColumn "col-1" "count" None]
    [{["col-0" := 0; "col-1" := 2]}; {["col-0" := 30; "col-1" := 1]}].

(** Rows with the axis keys 0, 10 and 20. *)
Definition threeRows : OpenSearchDashboardsDatatable :=
  mkTable [mkColumn "col-0" "timestamp" None; mkColumn "col-1" "count" None]
    [{["col-0" := 0; "col-1" := 7]}; {["col-0" := 10; "col-1" := 8]};
     {["col-0" := 20; "col-1" := 9]}].

Definition singleRowTable : OpenSearchDashboardsDatatable :=
  mkTable [mkColumn "col-0" "timestamp" None; mkColumn "col-1" "count" None]
    [{["col-0" := 0; "col-1" := 7]}].

Definition detectorLayer : PointInTimeEventsVisLayer :=
  mkLayer "detector" "Detector" [mkEvent 14; mkEvent 15].

Definition monitorLayer : PointInTimeEventsVisLayer :=
  mkLayer "monitor" "Monitor" [mkEvent 14].

(** Rows with the axis keys 0, 1, 1 and 10. *)
Definition repeatedKeys : OpenSearchDashboardsDatatable :=
  mkTable [mkColumn "col-0" "timestamp" None]
    [{["col-0" := 0]}; {["col-0" := 1]}; {["col-0" := 1]}; {["col-0" := 10]}].

(** A layer whose id is inherited by every row, and a layer whose id is the
    id of the axis column. *)
Definition protoLayer : PointInTimeEventsVisLayer :=
  mkLayer "__proto__" "Proto" [mkEvent 14].

Definition axisLayer : PointInTimeEventsVisLayer :=
  mkLayer "col-0" "Axis" [mkEvent 1; mkEvent 1; mkEvent 1].

(** * Reasoning about runs *)

Lemma bind_run {A B} (m : M A) (f : A → M B) (h : heap) :
  (m ≫= f) h =
  match m h with
  | (Returns a, h') => f a h'
  | (Throws e, h') => (Throws e, h')
  | (OutOfFuel, h') => (OutOfFuel, h')
  | (Unrepresentable, h') => (Unrepresentable, h')
  end.
Proof. reflexivity. Qed.

Lemma bind_returns {A B} (m : M A) (f : A → M B) h a h' :
  m h = (Returns a, h') → (m ≫= f) h = f a h'.
Proof. intros E. rewrite bind_run, E. reflexivity. Qed.

Lemma bind_throws {A B} (m : M A) (f : A → M B) h e h' :
  m h = (Throws e, h') → (m ≫= f) h = (Throws e, h').
Proof. intros E. rewrite bind_run, E. reflexivity. Qed.

Lemma ret_run {A} (a : A) (h : heap) : (mret a : M A) h = (Returns a, h).
Proof. reflexivity. Qed.

Lemma ret_bind {A B} (a : A) (f : A → M B) (h : heap) :
  ((mret a : M A) ≫= f) h = f a h.
Proof. reflexivity. Qed.

Section HeapOps.
Context (l : loc) (t : OpenSearchDashboardsDatatable) (h : heap).
Hypothesis Hl : h !! l = Some t.

Lemma readTable_run : readTable l h = (Returns t, h).
Proof using Hl. unfold readTable. by rewrite Hl. Qed.

Lemma modifyTable_run f : modifyTable l f h = (Returns (), <[l := f t]> h).
Proof using Hl. unfold modifyTable. by rewrite Hl. Qed.

Lemma getRows_run : getRows l h = (Returns (rows t), h).
Proof using Hl. unfold getRows. by rewrite (bind_returns _ _ _ _ _ readTable_run). Qed.

Lemma getColumns_run : getColumns l h = (Returns (columns t), h).
Proof using Hl. unfold getColumns. by rewrite (bind_returns _ _ _ _ _ readTable_run). Qed.

Lemma getRow_run i r : rows t !! i = Some r → getRow l i h = (Returns r, h).
Proof using Hl.
  intros Hi. unfold getRow. rewrite (bind_returns _ _ _ _ _ getRows_run), Hi.
  reflexivity.
Qed.

Lemma unshiftRow_run r :
  unshiftRow l r h = (Returns (), <[l := mkTable (columns t) (r :: rows t)]> h).
Proof using Hl. apply modifyTable_run. Qed.

Lemma pushRow_run r :
  pushRow l r h = (Returns (), <[l := mkTable (columns t) (rows t ++ [r])]> h).
Proof using Hl. apply modifyTable_run. Qed.

Lemma pushColumn_run c :
  pushColumn l c h = (Returns (), <[l := mkTable (columns t ++ [c]) (rows t)]> h).
Proof using Hl. apply modifyTable_run. Qed.

Lemma setRow_run i r :
  setRow l i r h = (Returns (), <[l := mkTable (columns t) (<[i := r]> (rows t))]> h).
Proof using Hl. apply modifyTable_run. Qed.
End HeapOps.

Lemma cloneDeep_run (l : loc) (t : OpenSearchDashboardsDatatable) (h : heap) :
  h !! l = Some t →
  cloneDeep l h = (Returns (fresh (dom h)), <[fresh (dom h) := t]> h).
Proof. intros Hl. unfold cloneDeep. by rewrite Hl. Qed.

Lemma fresh_loc_unused (h : heap) : h !! fresh (dom h) = None.
Proof. apply not_elem_of_dom, is_fresh. Qed.

Lemma arith_length a i n : length (arith a i n) = n.
Proof. revert a. induction n; intros; simpl; auto. Qed.

Lemma arith_snoc a i n : arith a i (S n) = arith a i n ++ [a + Z.of_nat n * i].
Proof.
  revert a. induction n as [|n IH]; intros a.
  - simpl. f_equal. lia.
  - change (arith a i (S (S n))) with (a :: arith (a + i) i (S n)).
    rewrite IH.
    replace (a + Z.of_nat (S n) * i) with (a + i + Z.of_nat n * i) by lia.
    reflexivity.
Qed.

Lemma arith_lookup a i n k :
  (k < n)%nat → arith a i n !! k = Some (a + Z.of_nat k * i).
Proof.
  revert a k. induction n as [|n IH]; intros a k Hk; [lia|].
  destruct k as [|k]; simpl.
  - f_equal. lia.
  - rewrite IH by lia. f_equal. lia.
Qed.

Lemma stepsBetween_0 i lo hi : 0 < i → hi <= lo → stepsBetween i lo hi = 0%nat.
Proof.
  intros Hi Hle. unfold stepsBetween.
  assert ((hi - lo + i - 1) / i <= 0); [|lia].
  assert ((hi - lo + i - 1) / i < 1); [|lia].
  apply Z.div_lt_upper_bound; lia.
Qed.

Lemma stepsBetween_S i lo hi :
  0 < i → lo < hi → stepsBetween i lo hi = S (stepsBetween i lo (hi - i)).
Proof.
  intros Hi Hlt. unfold stepsBetween.
  replace (hi - lo + i - 1) with ((hi - i - lo + i - 1) + 1 * i) by lia.
  rewrite Z.div_add by lia.
  assert (0 <= (hi - i - lo + i - 1) / i) by (apply Z.div_pos; lia).
  lia.
Qed.

Lemma stepsWithin_0 i lo hi : 0 < i → hi < lo → stepsWithin i lo hi = 0%nat.
Proof.
  intros Hi Hlt. unfold stepsWithin.
  assert ((hi - lo) / i < 0); [|lia].
  apply Z.div_lt_upper_bound; lia.
Qed.

Lemma stepsWithin_S i lo hi :
  0 < i → lo <= hi → stepsWithin i lo hi = S (stepsWithin i (lo + i) hi).
Proof.
  intros Hi Hle. unfold stepsWithin.
  replace (hi - lo) with ((hi - (lo + i)) + 1 * i) by lia.
  rewrite Z.div_add by lia.
  assert (-1 <= (hi - (lo + i)) / i); [|lia].
  apply Z.div_le_lower_bound; lia.
Qed.

(** ** The three loops of addMissingRowsToTableBounds *)

Lemma table_eta (t : OpenSearchDashboardsDatatable) : mkTable (columns t) (rows t) = t.
Proof. by destruct t. Qed.

Section Loops.
Context (l : loc) (x : string) (i : Z).

Lemma extendStart_run chartStart fuel : ∀ cur t (h : heap),
  0 < i →
  h !! l = Some t →
  (stepsBetween i chartStart cur ≤ fuel)%nat →
  extendStart fuel l x i chartStart cur h =
    (Returns (),
     <[l := mkTable (columns t)
              ((keyRow x <$> arith (cur - Z.of_nat (stepsBetween i chartStart cur) * i) i
                               (stepsBetween i chartStart cur)) ++ rows t)]> h).
Proof.
  induction fuel as [|fuel IH]; intros cur t h Hi Hl Hfuel.
  - assert (cur <= chartStart) as Hle.
    { destruct (Z_le_gt_dec cur chartStart) as [|Hgt]; [done|].
      rewrite (stepsBetween_S i chartStart cur) in Hfuel by lia. lia. }
    simpl. destruct (Z.gtb_spec cur chartStart) as [|_]; [lia|].
    rewrite stepsBetween_0 by lia. simpl.
    rewrite table_eta, insert_id by done. reflexivity.
  - simpl. destruct (Z.gtb_spec cur chartStart) as [Hgt|Hle].
    + rewrite (stepsBetween_S i chartStart cur) in * by lia.
      rewrite (bind_returns _ _ _ _ _ (unshiftRow_run l t h Hl _)).
      rewrite (IH (cur - i) _ _ Hi (lookup_insert_eq _ _ _)) by lia.
      rewrite insert_insert_eq. simpl columns. simpl rows.
      set (n := stepsBetween i chartStart (cur - i)).
      rewrite (arith_snoc _ i n), fmap_app, <- app_assoc. simpl.
      replace (cur - Z.of_nat (S n) * i) with (cur - i - Z.of_nat n * i) by lia.
      replace (cur - i - Z.of_nat n * i + Z.of_nat n * i) with (cur - i) by lia.
      reflexivity.
    + rewrite stepsBetween_0 by lia. simpl.
      rewrite table_eta, insert_id by done. reflexivity.
Qed.

Lemma extendEnd_run chartEnd fuel : ∀ cur t (h : heap),
  0 < i →
  h !! l = Some t →
  (stepsBetween i cur chartEnd ≤ fuel)%nat →
  extendEnd fuel l x i chartEnd cur h =
    (Returns (),
     <[l := mkTable (columns t)
              (rows t ++ (keyRow x <$> arith (cur + i) i (stepsBetween i cur chartEnd)))]> h).
Proof.
  assert (∀ cur, 0 < i → cur < chartEnd →
            stepsBetween i cur chartEnd = S (stepsBetween i (cur + i) chartEnd)) as HS.
  { intros cur Hi Hlt. rewrite stepsBetween_S by lia. unfold stepsBetween.
    do 3 f_equal. lia. }
  induction fuel as [|fuel IH]; intros cur t h Hi Hl Hfuel.
  - assert (chartEnd <= cur) as Hle.
    { destruct (Z_le_gt_dec chartEnd cur) as [|Hgt]; [done|].
      rewrite HS in Hfuel by lia. lia. }
    simpl. destruct (Z.ltb_spec cur chartEnd) as [|_]; [lia|].
    rewrite stepsBetween_0 by lia. simpl.
    rewrite app_nil_r, table_eta, insert_id by done. reflexivity.
  - simpl. destruct (Z.ltb_spec cur chartEnd) as [Hlt|Hle].
    + rewrite HS in * by lia.
      rewrite (bind_returns _ _ _ _ _ (pushRow_run l t h Hl _)).
      rewrite (IH (cur + i) _ _ Hi (lookup_insert_eq _ _ _)) by lia.
      rewrite insert_insert_eq. simpl columns. simpl rows.
      rewrite <- app_assoc. reflexivity.
    + rewrite stepsBetween_0 by lia. simpl.
      rewrite app_nil_r, table_eta, insert_id by done. reflexivity.
Qed.

Lemma createAll_run chartEnd fuel : ∀ cur t (h : heap),
  0 < i →
  h !! l = Some t →
  (stepsWithin i cur chartEnd ≤ fuel)%nat →
  createAll fuel l x i chartEnd cur h =
    (Returns (),
     <[l := mkTable (columns t)
              (rows t ++ (keyRow x <$> arith cur i (stepsWithin i cur chartEnd)))]> h).
Proof.
  induction fuel as [|fuel IH]; intros cur t h Hi Hl Hfuel.
  - assert (chartEnd < cur) as Hlt.
    { destruct (Z_lt_ge_dec chartEnd cur) as [|Hge]; [done|].
      rewrite stepsWithin_S in Hfuel by lia. lia. }
    simpl. destruct (Z.leb_spec cur chartEnd) as [|_]; [lia|].
    rewrite stepsWithin_0 by lia. simpl.
    rewrite app_nil_r, table_eta, insert_id by done. reflexivity.
  - simpl. destruct (Z.leb_spec cur chartEnd) as [Hle|Hlt].
    + rewrite (stepsWithin_S i cur chartEnd) in * by lia.
      rewrite (bind_returns _ _ _ _ _ (pushRow_run l t h Hl _)).
      rewrite (IH (cur + i) _ _ Hi (lookup_insert_eq _ _ _)) by lia.
      rewrite insert_insert_eq. simpl columns. simpl rows.
      rewrite <- app_assoc. reflexivity.
    + rewrite stepsWithin_0 by lia. simpl.
      rewrite app_nil_r, table_eta, insert_id by done. reflexivity.
Qed.




End Loops.

Lemma iterations_nonempty x dimensions r rs :
  iterations x dimensions (r :: rs) =
  (prependCount dimensions (firstKey x (r :: rs)) +
   appendCount dimensions (lastKey x (r :: rs)))%nat.
Proof.
  unfold iterations, extendedRows, prependedRows, appendedRows.
  rewrite !length_app, !length_fmap, !arith_length. lia.
Qed.

Lemma iterations_empty x dimensions :
  iterations x dimensions [] =
  stepsWithin (x_params_interval dimensions)
    (x_params_bounds_min dimensions) (x_params_bounds_max dimensions).
Proof.
  unfold iterations, extendedRows, createdRows.
  rewrite length_fmap, arith_length. simpl. lia.
Qed.

Lemma addMissingRowsToTableBounds_run fuel (d : loc) dimensions t (h : heap) x :
  h !! d = Some t →
  getXAxisId dimensions (columns t) = Returns x →
  0 < x_params_interval dimensions →
  (iterations x dimensions (rows t) ≤ fuel)%nat →
  addMissingRowsToTableBounds fuel d dimensions h =
    (Returns (fresh (dom h)),
     <[fresh (dom h) := mkTable (columns t) (extendedRows x dimensions (rows t))]> h).
Proof.
  intros Hd Hx Hi Hfuel. unfold addMissingRowsToTableBounds.
  rewrite (bind_returns _ _ _ _ _ (cloneDeep_run d t h Hd)).
  set (l := fresh (dom h)). set (h1 := <[l := t]> h).
  assert (h1 !! l = Some t) as Hl by apply lookup_insert_eq.
  rewrite (bind_returns _ _ _ _ _ (getColumns_run l t h1 Hl)), Hx.
  rewrite (bind_returns (lift (Returns x)) _ h1 x h1) by done.
  rewrite (bind_returns _ _ _ _ _ (getRows_run l t h1 Hl)).
  destruct (rows t) as [|r rs] eqn:Hrows.
  - simpl negb. cbv iota. rewrite iterations_empty in Hfuel.
    rewrite (bind_returns _ _ _ _ _ (createAll_run l x _ _ fuel _ t h1 Hi Hl Hfuel)).
    rewrite ret_run. unfold h1. rewrite insert_insert_eq, Hrows. reflexivity.
  - simpl negb. cbv iota. rewrite iterations_nonempty in Hfuel.
    assert (rows t !! 0%nat = Some r) as H0 by (by rewrite Hrows).
    assert (rows t !! (length (r :: rs) - 1)%nat = last (r :: rs)) as Hlast.
    { rewrite Hrows, last_lookup. f_equal. simpl. lia. }
    destruct (last (r :: rs)) as [rl|] eqn:Hrl; [|by apply last_None in Hrl].
    rewrite bind_run.
    rewrite (bind_returns _ _ _ _ _ (getRow_run l t h1 Hl _ _ H0)).
    rewrite (bind_returns _ _ _ _ _ (getRow_run l t h1 Hl _ _ Hlast)).
    unfold extendedRows, prependedRows, appendedRows, lastKey, firstKey.
    rewrite Hrl. simpl head. simpl mbind.
    unfold firstKey, lastKey in Hfuel. rewrite Hrl in Hfuel. simpl in Hfuel.
    destruct (r !! x) as [a|] eqn:Ha; destruct (rl !! x) as [b|] eqn:Hb; simpl in *.
    + assert (stepsBetween (x_params_interval dimensions)
                (x_params_bounds_min dimensions) a ≤ fuel)%nat as Hf by lia.
      rewrite (bind_returns _ _ _ _ _ (extendStart_run l x _ _ fuel a t h1 Hi Hl Hf)).
      rewrite (extendEnd_run l x _ _ fuel b _ _ Hi (lookup_insert_eq _ _ _)) by lia.
      rewrite ret_run, insert_insert_eq. unfold h1. rewrite insert_insert_eq.
      simpl. rewrite Hrows, <- app_assoc. reflexivity.
    + assert (stepsBetween (x_params_interval dimensions)
                (x_params_bounds_min dimensions) a ≤ fuel)%nat as Hf by lia.
      rewrite (bind_returns _ _ _ _ _ (extendStart_run l x _ _ fuel a t h1 Hi Hl Hf)).
      rewrite !ret_run. unfold h1. rewrite insert_insert_eq.
      simpl. rewrite Hrows, app_nil_r. reflexivity.
    + rewrite ret_bind.
      rewrite (extendEnd_run l x _ _ fuel b _ _ Hi Hl) by lia.
      rewrite ret_run. unfold h1. rewrite insert_insert_eq.
      simpl. rewrite Hrows. reflexivity.
    + rewrite ret_run. unfold h1. rewrite app_nil_r, <- Hrows, table_eta.
      reflexivity.
Qed.

Lemma touchesOnly_ret {A} l (a : A) : touchesOnly l (mret a).
Proof. by intros h l0 _. Qed.

Lemma touchesOnly_lift {A} l (o : outcome A) : touchesOnly l (lift o).
Proof. by intros h l0 _. Qed.

Lemma touchesOnly_bind {A B} l (m : M A) (f : A → M B) :
  touchesOnly l m → (∀ a, touchesOnly l (f a)) → touchesOnly l (m ≫= f).
Proof.
  intros Hm Hf h l0 Hne. rewrite bind_run.
  specialize (Hm h l0 Hne). destruct (m h) as [[a|e| |] h']; simpl in *; [|done..].
  by rewrite Hf.
Qed.

Lemma touchesOnly_readTable l : touchesOnly l (readTable l).
Proof. intros h l0 _. unfold readTable. by destruct (h !! l). Qed.

Lemma touchesOnly_modifyTable l f : touchesOnly l (modifyTable l f).
Proof.
  intros h l0 Hne. unfold modifyTable. destruct (h !! l); [|done].
  simpl. by rewrite lookup_insert_ne.
Qed.

Create HintDb touches.
#[local] Hint Resolve touchesOnly_ret touchesOnly_lift touchesOnly_readTable
  touchesOnly_modifyTable : touches.

Ltac touches :=
  repeat first
    [ progress auto with touches
    | apply touchesOnly_bind; [|intros ?]
    | match goal with
      | |- touchesOnly _ (match ?o with _ => _ end) => destruct o
      | |- touchesOnly _ (if ?b then _ else _) => destruct b
      end ].

Lemma touchesOnly_getRows l : touchesOnly l (getRows l).
Proof. unfold getRows. touches. Qed.

Lemma touchesOnly_getColumns l : touchesOnly l (getColumns l).
Proof. unfold getColumns. touches. Qed.

Lemma touchesOnly_getRow l i : touchesOnly l (getRow l i).
Proof. unfold getRow, getRows, throw. touches. Qed.

Lemma touchesOnly_setRow l i r : touchesOnly l (setRow l i r).
Proof. unfold setRow. touches. Qed.

Lemma touchesOnly_pushRow l r : touchesOnly l (pushRow l r).
Proof. unfold pushRow. touches. Qed.

Lemma touchesOnly_unshiftRow l r : touchesOnly l (unshiftRow l r).
Proof. unfold unshiftRow. touches. Qed.

Lemma touchesOnly_pushColumn l c : touchesOnly l (pushColumn l c).
Proof. unfold pushColumn. touches. Qed.

#[local] Hint Resolve touchesOnly_getRows touchesOnly_getColumns touchesOnly_getRow
  touchesOnly_setRow touchesOnly_pushRow touchesOnly_unshiftRow
  touchesOnly_pushColumn : touches.

Lemma touchesOnly_extendStart l x i cs fuel :
  ∀ cur, touchesOnly l (extendStart fuel l x i cs cur).
Proof. induction fuel; intros cur; simpl; unfold diverge; touches. Qed.

Lemma touchesOnly_extendEnd l x i ce fuel :
  ∀ cur, touchesOnly l (extendEnd fuel l x i ce cur).
Proof. induction fuel; intros cur; simpl; unfold diverge; touches. Qed.

Lemma touchesOnly_createAll l x i ce fuel :
  ∀ cur, touchesOnly l (createAll fuel l x i ce cur).
Proof. induction fuel; intros cur; simpl; unfold diverge; touches. Qed.

#[local] Hint Resolve touchesOnly_extendStart touchesOnly_extendEnd
  touchesOnly_createAll : touches.

(** Whatever the outcome, addMissingRowsToTableBounds leaves every object
    that existed before the call as it was. *)
Lemma addMissingRowsToTableBounds_frame fuel (d : loc) dimensions (h : heap) (l0 : loc) :
  is_Some (h !! l0) →
  (addMissingRowsToTableBounds fuel d dimensions h).2 !! l0 = h !! l0.
Proof.
  intros Hl0. unfold addMissingRowsToTableBounds. rewrite bind_run.
  unfold cloneDeep at 1. destruct (h !! d) as [t|] eqn:Hd.
  - cbv zeta.
    match goal with |- (?m _).2 !! _ = _ => assert (touchesOnly (fresh (dom h)) m) as Ht end.
    { touches. }
    rewrite Ht.
    + apply lookup_insert_ne. intros <-. rewrite fresh_loc_unused in Hl0.
      by destruct Hl0.
    + intros ->. rewrite fresh_loc_unused in Hl0. by destruct Hl0.
  - rewrite bind_run. unfold getColumns. rewrite bind_run. unfold readTable.
    by rewrite Hd.
Qed.

Lemma filter_no_match dimensions cols :
  Forall (λ column, column_name column ≠ x_label dimensions) cols →
  filter (λ column, column_name column = x_label dimensions) cols = [].
Proof.
  induction 1 as [|c cols Hc _ IH]; [done|].
  rewrite filter_cons_False by done. exact IH.
Qed.

Lemma getXAxisId_no_match dimensions cols :
  Forall (λ column, column_name column ≠ x_label dimensions) cols →
  getXAxisId dimensions cols = Throws TypeError.
Proof. intros Hall. unfold getXAxisId. by rewrite filter_no_match. Qed.

Lemma getXAxisId_first_match dimensions pre column post :
  Forall (λ column, column_name column ≠ x_label dimensions) pre →
  column_name column = x_label dimensions →
  getXAxisId dimensions (pre ++ column :: post) = Returns (column_id column).
Proof.
  intros Hpre Hname. unfold getXAxisId.
  rewrite filter_app, filter_no_match by done.
  by rewrite filter_cons_True.
Qed.

Lemma addMissingRowsToTableBounds_throws fuel (d : loc) dimensions t (h : heap) e :
  h !! d = Some t →
  getXAxisId dimensions (columns t) = Throws e →
  addMissingRowsToTableBounds fuel d dimensions h =
    (Throws e, <[fresh (dom h) := t]> h).
Proof.
  intros Hd Hx. unfold addMissingRowsToTableBounds.
  rewrite (bind_returns _ _ _ _ _ (cloneDeep_run d t h Hd)).
  rewrite (bind_returns _ _ _ _ _
             (getColumns_run _ t _ (lookup_insert_eq _ _ _))), Hx.
  reflexivity.
Qed.

Lemma hasKeys_length x rs ks : hasKeys x rs ks → length rs = length ks.
Proof. intros H. apply (f_equal length) in H. by rewrite !length_fmap in H. Qed.

Lemma hasKeys_lookup x rs ks (j : nat) :
  hasKeys x rs ks → (j < length ks)%nat →
  ∃ r k, rs !! j = Some r ∧ ks !! j = Some k ∧ r !! x = Some k.
Proof.
  intros H Hj. pose proof (hasKeys_length _ _ _ H) as Hlen.
  destruct (lookup_lt_is_Some_2 rs j) as [r Hr]; [lia|].
  destruct (lookup_lt_is_Some_2 ks j) as [k Hk]; [lia|].
  exists r, k. split_and!; [done..|].
  apply (f_equal (.!! j)) in H. rewrite !list_lookup_fmap, Hr, Hk in H.
  simpl in H. congruence.
Qed.

Lemma insert_increment id (j : nat) (rs : list Row) r :
  rs !! j = Some r → <[j := increment id r]> rs = bump id j rs.
Proof.
  revert j. induction rs as [|r0 rs IH]; intros [|j] Hj; simplify_eq/=; [done|].
  change (bump id (S j) (r0 :: rs)) with (r0 :: bump id j rs).
  by rewrite <- IH.
Qed.

Lemma hasKeys_bump x id j rs ks : x ≠ id → hasKeys x rs ks → hasKeys x (bump id j rs) ks.
Proof.
  intros Hne H. unfold hasKeys, bump in *. rewrite <- H.
  apply list_eq. intros k. rewrite !list_lookup_fmap.
  destruct (decide (j = k)) as [->|Hjk].
  - rewrite list_lookup_alter_eq. destruct (rs !! k) as [r|]; [|done]. simpl.
    unfold increment. by rewrite lookup_insert_ne.
  - by rewrite list_lookup_alter_ne.
Qed.

Lemma columnSum_bump id (j : nat) rs :
  (j < length rs)%nat → columnSum id (bump id j rs) = columnSum id rs + 1.
Proof.
  revert j. induction rs as [|r rs IH]; intros j Hj; simpl in Hj; [lia|].
  destruct j as [|j].
  - change (bump id 0 (r :: rs)) with (increment id r :: rs). simpl.
    unfold increment. rewrite lookup_insert_eq. simpl. lia.
  - change (bump id (S j) (r :: rs)) with (r :: bump id j rs). simpl.
    rewrite IH by lia. lia.
Qed.

Lemma columnSum_bump_other id id' (j : nat) rs :
  id ≠ id' → columnSum id (bump id' j rs) = columnSum id rs.
Proof.
  intros Hne. revert j. induction rs as [|r rs IH]; intros j; [done|].
  destruct j as [|j].
  - change (bump id' 0 (r :: rs)) with (increment id' r :: rs). simpl.
    unfold increment. by rewrite lookup_insert_ne.
  - change (bump id' (S j) (r :: rs)) with (r :: bump id' j rs). simpl.
    by rewrite IH.
Qed.

Lemma plainKey_not_proto id : plainKey id → id ≠ "__proto__".
Proof. intros [_ Hinherited] ->. vm_compute in Hinherited. discriminate. Qed.

Lemma get_plainKey (row : Row) id dflt :
  plainKey id → get row id dflt = Returns (default dflt (row !! id)).
Proof.
  intros [Hpath Hinherited]. unfold get. rewrite Hpath, Hinherited.
  by destruct (row !! id).
Qed.

Lemma incrementCell_run l t (h : heap) (j : nat) id r :
  plainKey id →
  h !! l = Some t → rows t !! j = Some r →
  incrementCell l j id h =
    (Returns (), <[l := mkTable (columns t) (bump id j (rows t))]> h).
Proof.
  intros Hplain Hl Hj. unfold incrementCell.
  rewrite (bind_returns _ _ _ _ _ (getRow_run l t h Hl _ _ Hj)).
  rewrite (bool_decide_eq_false_2 (id = "__proto__")) by by apply plainKey_not_proto.
  cbn [andb]. rewrite (get_plainKey r id 0 Hplain).
  rewrite (bind_returns (lift (Returns (default 0 (r !! id)))) _ h _ h) by done.
  rewrite (setRow_run l t h Hl).
  fold (increment id r). by rewrite (insert_increment _ _ _ _ Hj).
Qed.

(** ** The search loop and the nearest bucket *)

Section Binning.
Context (l : loc) (x id : string) (ks : list Z).
Hypothesis Hxid : x ≠ id.
Hypothesis Hsorted : nondecreasing ks.
Hypothesis Hplain : plainKey id.

Lemma binTimestamp_run fuel : ∀ (c : nat) t0 (h : heap) t,
  h !! l = Some t0 →
  hasKeys x (rows t0) ks →
  cursorOk ks t c →
  (length ks ≤ fuel + c)%nat →
  ∃ (c' j : nat),
    binTimestamp fuel l x id t c h =
      (Returns c', <[l := mkTable (columns t0) (bump id j (rows t0))]> h) ∧
    cursorOk ks t c' ∧ nearest ks t j.
Proof using Hxid Hsorted Hplain.
  induction fuel as [|fuel IH]; intros c t0 h t Hl Hks [Hc Hbelow] Hfuel; [lia|].
  pose proof (hasKeys_length _ _ _ Hks) as Hlen.
  destruct (hasKeys_lookup x (rows t0) ks c Hks) as (lower & lo & Hlower & Hlo & Hlox); [lia|].
  destruct (hasKeys_lookup x (rows t0) ks (c + 1)%nat Hks) as (upper & hi & Hupper & Hhi & Hhix); [lia|].
  simpl binTimestamp.
  rewrite (bind_returns _ _ _ _ _ (getRows_run l t0 h Hl)).
  destruct (Z.ltb_spec (Z.of_nat c) (Z.of_nat (length (rows t0)) - 1)) as [_|]; [|lia].
  rewrite (bind_returns _ _ _ _ _ (getRow_run l t0 h Hl _ _ Hlower)).
  rewrite (bind_returns _ _ _ _ _ (getRow_run l t0 h Hl _ _ Hupper)).
  rewrite Hlox, Hhix. cbn [js_le js_sub].
  assert (lo <= hi) as Hlohi by (eapply (Hsorted c (c + 1)%nat); [lia|done..]).
  assert (∀ (j : nat) r, rows t0 !! j = Some r →
            (incrementCell l j id ≫= λ _ : (), mret c) h =
            (Returns c, <[l := mkTable (columns t0) (bump id j (rows t0))]> h)) as Hinc.
  { intros j r Hr.
    by rewrite (bind_returns _ _ _ _ _ (incrementCell_run l t0 h _ id _ Hplain Hl Hr)). }
  destruct (Z.leb_spec t lo) as [Htlo|Htlo].
  { (* left of the cursor: only possible at the first row *)
    assert (c = 0%nat) as -> .
    { destruct (decide (c = 0%nat)) as [|Hne]; [done|].
      destruct (Hbelow Hne) as (kc & Hkc & ?). simplify_eq. lia. }
    exists 0%nat, 0%nat. split_and!; [by eapply Hinc|by split|].
    exists lo. split; [done|]. intros j' k' Hk'.
    assert (lo <= k') by (eapply (Hsorted 0%nat j'); [lia|done..]). lia. }
  destruct (Z.leb_spec t hi) as [Hthi|Hthi].
  { assert (∀ (j' : nat) k', ks !! j' = Some k' → k' <= lo ∨ hi <= k') as Hsplit.
    { intros j' k' Hk'. destruct (decide (j' ≤ c)%nat).
      - left. by eapply (Hsorted j' c).
      - right. eapply (Hsorted (c + 1)%nat j'); [lia|done..]. }
    simpl Math_abs. cbn [js_le].
    destruct (Z.leb_spec (Z.abs (t - lo)) (Z.abs (t - hi))) as [Hd|Hd].
    - exists c, c. split_and!; [by eapply Hinc|by split; [|intros _; exists lo]|].
      exists lo. split; [done|]. intros j' k' Hk'.
      destruct (Hsplit j' k' Hk'); lia.
    - exists c, (c + 1)%nat.
      split_and!; [by eapply Hinc|by split; [|intros _; exists lo]|].
      exists hi. split; [done|]. intros j' k' Hk'.
      destruct (Hsplit j' k' Hk'); lia. }
  destruct (Z.eqb_spec (Z.of_nat c + 1) (Z.of_nat (length (rows t0)) - 1)) as [Hlast|Hlast].
  { (* right of the last row *)
    exists c, (c + 1)%nat.
    split_and!; [by eapply Hinc|by split; [|intros _; exists lo]|].
    exists hi. split; [done|]. intros j' k' Hk'.
    assert (k' <= hi); [|lia].
    eapply (Hsorted j' (c + 1)%nat); [|done..].
    apply lookup_lt_Some in Hk'. lia. }
  destruct (IH (c + 1)%nat t0 h t Hl Hks) as (c' & j & Hrun & Hc' & Hnear).
  { split; [lia|]. intros _. by exists hi. }
  { lia. }
  exists c', j. by rewrite Hrun.
Qed.
End Binning.

(** ** The timestamps of one layer *)

Section BinningLayer.
Context (l : loc) (x id : string) (ks : list Z).
Hypothesis Hxid : x ≠ id.
Hypothesis Hsorted : nondecreasing ks.
Hypothesis Hplain : plainKey id.

Lemma forEachTimestamp_run fuel : ∀ ts (c : nat) t0 (h : heap),
  h !! l = Some t0 →
  hasKeys x (rows t0) ks →
  (length ks ≤ fuel)%nat →
  StronglySorted Z.le ts →
  (c + 2 ≤ length ks)%nat →
  (c ≠ 0%nat → ∃ kc, ks !! c = Some kc ∧ Forall (λ t, kc < t) ts) →
  ∃ (c' : nat) (targets : list nat),
    forEachTimestamp fuel l x id ts c h =
      (Returns c',
       <[l := mkTable (columns t0) (foldl (λ rs j, bump id j rs) (rows t0) targets)]> h) ∧
    Forall2 (nearest ks) ts targets.
Proof using Hxid Hsorted Hplain.
  induction ts as [|t ts IH]; intros c t0 h Hl Hks Hfuel Hts Hc Hbelow.
  - exists c, []. simpl. rewrite table_eta, insert_id by done. by split.
  - apply StronglySorted_inv in Hts as [Hts Hle].
    destruct (binTimestamp_run l x id ks Hxid Hsorted Hplain fuel c t0 h t Hl Hks)
      as (c1 & j & Hrun & [Hc1 Hbelow1] & Hnear); [|lia|].
    { split; [done|]. intros Hne. destruct (Hbelow Hne) as (kc & Hkc & Hall).
      exists kc. split; [done|]. by apply Forall_cons_1 in Hall as [? _]. }
    destruct (IH c1 (mkTable (columns t0) (bump id j (rows t0)))
                (<[l := mkTable (columns t0) (bump id j (rows t0))]> h))
      as (c2 & targets & Hrun2 & Hall2).
    + apply lookup_insert_eq.
    + by apply hasKeys_bump.
    + done.
    + done.
    + done.
    + intros Hne. destruct (Hbelow1 Hne) as (kc & Hkc & Hlt).
      exists kc. split; [done|]. eapply Forall_impl; [exact Hle|].
      simpl. intros; lia.
    + exists c2, (j :: targets). split; [|by constructor].
      simpl forEachTimestamp. rewrite (bind_returns _ _ _ _ _ Hrun), Hrun2.
      by rewrite insert_insert_eq.
Qed.
End BinningLayer.

Lemma hasKeys_foldl_bump x id targets ks : ∀ rs,
  x ≠ id → hasKeys x rs ks → hasKeys x (foldl (λ rs j, bump id j rs) rs targets) ks.
Proof.
  induction targets as [|j targets IH]; intros rs Hne Hks; [done|].
  simpl. apply IH; [done|]. by apply hasKeys_bump.
Qed.

(** ** The callback of [every], by number of rows *)

Section Callback.
Context (ty : string) (fuel : nat) (l : loc) (x : string)
        (visLayer : PointInTimeEventsVisLayer)
        (t0 : OpenSearchDashboardsDatatable) (h : heap).
Hypothesis Hl : h !! l = Some t0.

Lemma visLayerCallback_no_rows :
  rows t0 = [] →
  visLayerCallback ty fuel l x visLayer h =
    (Returns false, <[l := mkTable (columns t0 ++ [layerColumn ty visLayer]) []]> h).
Proof using Hl.
  intros Hrows. unfold visLayerCallback.
  rewrite (bind_returns _ _ _ _ _ (pushColumn_run l t0 h Hl _)).
  rewrite (bind_returns _ _ _ _ _ (getRows_run l _ _ (lookup_insert_eq _ _ _))).
  simpl rows. rewrite Hrows. reflexivity.
Qed.

Lemma visLayerCallback_one_row r :
  rows t0 = [r] →
  visLayerCallback ty fuel l x visLayer h =
    (Returns false,
     <[l := mkTable (columns t0 ++ [layerColumn ty visLayer])
              [<[pluginResource_id visLayer :=
                   Z.of_nat (length (events visLayer))]> r]]> h).
Proof using Hl.
  intros Hrows. unfold visLayerCallback.
  rewrite (bind_returns _ _ _ _ _ (pushColumn_run l t0 h Hl _)).
  rewrite (bind_returns _ _ _ _ _ (getRows_run l _ _ (lookup_insert_eq _ _ _))).
  cbn [rows]. rewrite Hrows. cbn [length Nat.eqb].
  erewrite (bind_returns (getRow l 0));
    [|apply (getRow_run l _ _ (lookup_insert_eq _ _ _)); reflexivity].
  rewrite (bind_returns _ _ _ _ _ (setRow_run l _ _ (lookup_insert_eq _ _ _) _ _)).
  rewrite ret_run, insert_insert_eq. reflexivity.
Qed.

Lemma visLayerCallback_rows ks :
  hasKeys x (rows t0) ks →
  nondecreasing ks →
  (2 ≤ length ks)%nat →
  x ≠ pluginResource_id visLayer →
  plainKey (pluginResource_id visLayer) →
  (length ks ≤ fuel)%nat →
  ∃ targets : list nat,
    visLayerCallback ty fuel l x visLayer h =
      (Returns true,
       <[l := mkTable (columns t0 ++ [layerColumn ty visLayer])
                (foldl (λ rs j, bump (pluginResource_id visLayer) j rs)
                   (rows t0) targets)]> h) ∧
    Forall2 (nearest ks) (sortAscending (timestamp <$> events visLayer)) targets.
Proof using Hl.
  intros Hks Hsorted Hlen Hne Hplain Hfuel.
  pose proof (hasKeys_length _ _ _ Hks) as Hlen'.
  set (h1 := <[l := mkTable (columns t0 ++ [layerColumn ty visLayer]) (rows t0)]> h).
  destruct (forEachTimestamp_run l x (pluginResource_id visLayer) ks Hne Hsorted Hplain fuel
              (sortAscending (timestamp <$> events visLayer)) 0%nat
              (mkTable (columns t0 ++ [layerColumn ty visLayer]) (rows t0)) h1)
    as (c' & targets & Hrun & Hall); [apply lookup_insert_eq|done|done| |lia|done|].
  { apply (StronglySorted_merge_sort Z.le). }
  exists targets. split; [|done].
  unfold visLayerCallback.
  rewrite (bind_returns _ _ _ _ _ (pushColumn_run l t0 h Hl _)). fold (layerColumn ty visLayer). fold h1.
  rewrite (bind_returns _ _ _ _ _ (getRows_run l _ h1 (lookup_insert_eq _ _ _))).
  cbn [rows].
  destruct (rows t0) as [|r0 [|r1 rs]] eqn:Hrows; [simpl in *; lia..|].
  cbn [length Nat.eqb].
  destruct (sortAscending (timestamp <$> events visLayer)) as [|ts0 ts] eqn:Hts.
  - inversion Hall; subst. simpl in Hrun. cbn [length Nat.ltb Nat.leb].
    rewrite ret_bind, ret_run. reflexivity.
  - cbn [length Nat.ltb Nat.leb]. rewrite bind_run, (bind_returns _ _ _ _ _ Hrun).
    rewrite !ret_run. unfold h1. by rewrite insert_insert_eq.
Qed.
End Callback.

Lemma every_stops {A} (callback : A → M bool) a l (h h' : heap) :
  callback a h = (Returns false, h') →
  every callback (a :: l) h = (Returns false, h').
Proof. intros H. simpl. by rewrite (bind_returns _ _ _ _ _ H). Qed.

Lemma every_continues {A} (callback : A → M bool) a l (h h' : heap) :
  callback a h = (Returns true, h') →
  every callback (a :: l) h = every callback l h'.
Proof. intros H. simpl. by rewrite (bind_returns _ _ _ _ _ H). Qed.

(** ** All layers, for a table of two or more rows with sorted keys *)

Section AllLayers.
Context (ty : string) (fuel : nat) (l : loc) (x : string) (ks : list Z).
Hypothesis Hsorted : nondecreasing ks.
Hypothesis Hlen : (2 ≤ length ks)%nat.
Hypothesis Hfuel : (length ks ≤ fuel)%nat.

Lemma every_visLayerCallback_rows : ∀ visLayers t0 (h : heap),
  h !! l = Some t0 →
  hasKeys x (rows t0) ks →
  Forall (λ v, x ≠ pluginResource_id v) visLayers →
  Forall (λ v, plainKey (pluginResource_id v)) visLayers →
  ∃ targetss : list (list nat),
    every (visLayerCallback ty fuel l x) visLayers h =
      (Returns true,
       <[l := mkTable (columns t0 ++ (layerColumn ty <$> visLayers))
                (foldl binLayer (rows t0) (zip visLayers targetss))]> h) ∧
    Forall2 (nearestTargets ks) visLayers targetss.
Proof using Hsorted Hlen Hfuel.
  induction visLayers as [|v vs IH]; intros t0 h Hl Hks Hne Hplain.
  - exists []. split; [|constructor]. simpl.
    rewrite app_nil_r, table_eta, insert_id by done. reflexivity.
  - apply Forall_cons_1 in Hne as [Hv Hvs].
    apply Forall_cons_1 in Hplain as [Hpv Hpvs].
    destruct (visLayerCallback_rows ty fuel l x v t0 h Hl ks Hks Hsorted Hlen Hv Hpv Hfuel)
      as (targets & Hrun & Hnear).
    set (t1 := mkTable (columns t0 ++ [layerColumn ty v])
                 (binLayer (rows t0) (v, targets))).
    destruct (IH t1 (<[l := t1]> h)) as (targetss & Hrun' & Hnear');
      [apply lookup_insert_eq| |exact Hvs|exact Hpvs|].
    { cbn [rows t1]. by apply hasKeys_foldl_bump. }
    exists (targets :: targetss). split.
    2: { constructor; [|done]. exists (sortAscending (timestamp <$> events v)).
         split; [apply merge_sort_Permutation|done]. }
    change (visLayerCallback ty fuel l x v h = (Returns true, <[l := t1]> h)) in Hrun.
    rewrite (every_continues _ _ _ _ _ Hrun), Hrun', insert_insert_eq.
    cbn [rows columns t1 fmap list_fmap zip zip_with foldl].
    rewrite <- app_assoc. reflexivity.
Qed.
End AllLayers.

Lemma eventsWithId_cons key v vs :
  eventsWithId key (v :: vs) =
  (if decide (pluginResource_id v = key) then Z.of_nat (length (events v)) else 0) +
  eventsWithId key vs.
Proof. reflexivity. Qed.

Lemma bump_other_column key id j rs :
  key ≠ id → (.!! key) <$> bump id j rs = (.!! key) <$> rs.
Proof.
  intros Hne. unfold bump. apply list_eq. intros k. rewrite !list_lookup_fmap.
  destruct (decide (j = k)) as [->|Hjk].
  - rewrite list_lookup_alter_eq. destruct (rs !! k) as [r|]; [|done]. simpl.
    unfold increment. by rewrite lookup_insert_ne.
  - by rewrite list_lookup_alter_ne.
Qed.

(** ** Counting, for any rows *)

(** Whatever the keys of the rows are, the loop run for a timestamp
    increments the field of exactly one row, as long as there are two. *)
Section Counting.
Context (ty : string) (l : loc) (x : string).

Lemma binTimestamp_increments id fuel : plainKey id → ∀ (c : nat) t0 (h : heap) t,
  h !! l = Some t0 →
  (c + 2 ≤ length (rows t0))%nat →
  (length (rows t0) ≤ fuel + c)%nat →
  ∃ (c' j : nat),
    binTimestamp fuel l x id t c h =
      (Returns c', <[l := mkTable (columns t0) (bump id j (rows t0))]> h) ∧
    (c' + 2 ≤ length (rows t0))%nat ∧ (j < length (rows t0))%nat.
Proof.
  intros Hplain.
  induction fuel as [|fuel IH]; intros c t0 h t Hl Hc Hfuel; [lia|].
  destruct (lookup_lt_is_Some_2 (rows t0) c) as [lower Hlower]; [lia|].
  destruct (lookup_lt_is_Some_2 (rows t0) (c + 1)) as [upper Hupper]; [lia|].
  assert (∀ (j : nat) r, rows t0 !! j = Some r →
            (incrementCell l j id ≫= λ _ : (), mret c) h =
            (Returns c, <[l := mkTable (columns t0) (bump id j (rows t0))]> h)) as Hinc.
  { intros j r Hr.
    by rewrite (bind_returns _ _ _ _ _ (incrementCell_run l t0 h _ id _ Hplain Hl Hr)). }
  cbn [binTimestamp].
  rewrite (bind_returns _ _ _ _ _ (getRows_run l t0 h Hl)).
  destruct (Z.ltb_spec (Z.of_nat c) (Z.of_nat (length (rows t0)) - 1)) as [_|]; [|lia].
  rewrite (bind_returns _ _ _ _ _ (getRow_run l t0 h Hl _ _ Hlower)).
  rewrite (bind_returns _ _ _ _ _ (getRow_run l t0 h Hl _ _ Hupper)).
  destruct (js_le (Some t) (lower !! x)).
  { exists c, c. split_and!; [by eapply Hinc|lia..]. }
  destruct (js_le (Some t) (upper !! x)).
  { destruct (js_le _ _).
    - exists c, c. split_and!; [by eapply Hinc|lia..].
    - exists c, (c + 1)%nat. split_and!; [by eapply Hinc|lia..]. }
  destruct (Z.eqb_spec (Z.of_nat c + 1) (Z.of_nat (length (rows t0)) - 1)).
  { exists c, (c + 1)%nat. split_and!; [by eapply Hinc|lia..]. }
  destruct (IH (c + 1)%nat t0 h t Hl) as (c' & j & Hrun & ? & ?); [lia..|].
  by exists c', j.
Qed.

Lemma forEachTimestamp_increments id fuel : plainKey id → ∀ ts (c : nat) t0 (h : heap),
  h !! l = Some t0 →
  (c + 2 ≤ length (rows t0))%nat →
  (length (rows t0) ≤ fuel)%nat →
  ∃ (c' : nat) rs',
    forEachTimestamp fuel l x id ts c h =
      (Returns c', <[l := mkTable (columns t0) rs']> h) ∧
    length rs' = length (rows t0) ∧
    (∀ key, columnSum key rs' =
            columnSum key (rows t0) +
            (if decide (id = key) then Z.of_nat (length ts) else 0)) ∧
    (∀ key, key ≠ id → (.!! key) <$> rs' = (.!! key) <$> rows t0).
Proof.
  intros Hplain.
  induction ts as [|t ts IH]; intros c t0 h Hl Hc Hfuel.
  - exists c, (rows t0). simpl. rewrite table_eta, insert_id by done.
    split_and!; [done..| |done]. intros key. case_decide; lia.
  - destruct (binTimestamp_increments id fuel Hplain c t0 h t Hl Hc)
      as (c1 & j & Hrun & Hc1 & Hj); [lia|].
    destruct (IH c1 (mkTable (columns t0) (bump id j (rows t0)))
                (<[l := mkTable (columns t0) (bump id j (rows t0))]> h))
      as (c2 & rs' & Hrun2 & Hlen & Hsum & Hother).
    { apply lookup_insert_eq. }
    { cbn [rows]. unfold bump. by rewrite length_alter. }
    { cbn [rows]. unfold bump. by rewrite length_alter. }
    cbn [rows columns] in *. unfold bump in Hlen. rewrite length_alter in Hlen.
    exists c2, rs'. split_and!; [|done| |].
    + simpl forEachTimestamp. rewrite (bind_returns _ _ _ _ _ Hrun), Hrun2.
      by rewrite insert_insert_eq.
    + intros key. rewrite Hsum. case_decide as Hid.
      * subst key. rewrite columnSum_bump by done. simpl length. lia.
      * rewrite columnSum_bump_other by done. lia.
    + intros key Hne. rewrite Hother by done. by apply bump_other_column.
Qed.

Lemma visLayerCallback_increments fuel visLayer t0 (h : heap) :
  plainKey (pluginResource_id visLayer) →
  h !! l = Some t0 →
  (2 ≤ length (rows t0))%nat →
  (length (rows t0) ≤ fuel)%nat →
  ∃ rs',
    visLayerCallback ty fuel l x visLayer h =
      (Returns true, <[l := mkTable (columns t0 ++ [layerColumn ty visLayer]) rs']> h) ∧
    length rs' = length (rows t0) ∧
    (∀ key, columnSum key rs' =
            columnSum key (rows t0) + eventsWithId key [visLayer]) ∧
    (∀ key, key ≠ pluginResource_id visLayer →
            (.!! key) <$> rs' = (.!! key) <$> rows t0).
Proof.
  intros Hplain Hl Hlen Hfuel.
  set (t1 := mkTable (columns t0 ++ [layerColumn ty visLayer]) (rows t0)).
  set (h1 := <[l := t1]> h).
  destruct (forEachTimestamp_increments (pluginResource_id visLayer) fuel Hplain
              (sortAscending (timestamp <$> events visLayer)) 0%nat t1 h1)
    as (c' & rs' & Hrun & Hlen' & Hsum & Hother); [apply lookup_insert_eq|done..|].
  exists rs'. split_and!; [|done| |done].
  - unfold visLayerCallback.
    rewrite (bind_returns _ _ _ _ _ (pushColumn_run l t0 h Hl _)).
    fold (layerColumn ty visLayer). fold t1. fold h1.
    rewrite (bind_returns _ _ _ _ _ (getRows_run l _ h1 (lookup_insert_eq _ _ _))).
    cbn [rows t1].
    destruct (rows t0) as [|r0 [|r1 rs]] eqn:Hrows; [simpl in *; lia..|].
    cbn [length Nat.eqb].
    destruct (sortAscending (timestamp <$> events visLayer)) as [|ts0 ts] eqn:Hts.
    + simpl in Hrun. rewrite ret_run in Hrun. cbn [length Nat.ltb Nat.leb].
      rewrite ret_bind, ret_run. injection Hrun as _ Hh. f_equal.
      rewrite Hh at 1. unfold h1. by rewrite insert_insert_eq.
    + cbn [length Nat.ltb Nat.leb]. rewrite bind_run, (bind_returns _ _ _ _ _ Hrun).
      rewrite !ret_run. unfold h1. by rewrite insert_insert_eq.
  - intros key. rewrite Hsum. cbn [rows t1]. rewrite eventsWithId_cons.
    change (eventsWithId key []) with 0. case_decide; [|lia].
    unfold sortAscending. rewrite merge_sort_Permutation, length_fmap. lia.
Qed.

Lemma every_visLayerCallback_increments fuel : ∀ visLayers t0 (h : heap),
  Forall (λ v, plainKey (pluginResource_id v)) visLayers →
  h !! l = Some t0 →
  (2 ≤ length (rows t0))%nat →
  (length (rows t0) ≤ fuel)%nat →
  ∃ rs',
    every (visLayerCallback ty fuel l x) visLayers h =
      (Returns true,
       <[l := mkTable (columns t0 ++ (layerColumn ty <$> visLayers)) rs']> h) ∧
    length rs' = length (rows t0) ∧
    (∀ key, columnSum key rs' = columnSum key (rows t0) + eventsWithId key visLayers) ∧
    (∀ key, Forall (λ v, key ≠ pluginResource_id v) visLayers →
            (.!! key) <$> rs' = (.!! key) <$> rows t0).
Proof.
  induction visLayers as [|v vs IH]; intros t0 h Hplain Hl Hlen Hfuel.
  - exists (rows t0). simpl. rewrite app_nil_r, table_eta, insert_id by done.
    split_and!; [done..| |done]. intros key. change (eventsWithId key []) with 0. lia.
  - apply Forall_cons_1 in Hplain as [Hpv Hpvs].
    destruct (visLayerCallback_increments fuel v t0 h Hpv Hl Hlen Hfuel)
      as (rs1 & Hrun & Hlen1 & Hsum1 & Hother1).
    destruct (IH (mkTable (columns t0 ++ [layerColumn ty v]) rs1)
                (<[l := mkTable (columns t0 ++ [layerColumn ty v]) rs1]> h))
      as (rs2 & Hrun2 & Hlen2 & Hsum2 & Hother2);
      [done|apply lookup_insert_eq|cbn [rows]; lia..|].
    cbn [rows columns] in *.
    exists rs2. split_and!; [|lia| |].
    + rewrite (every_continues _ _ _ _ _ Hrun), Hrun2, insert_insert_eq.
      cbn [fmap list_fmap]. by rewrite <- app_assoc.
    + intros key. rewrite Hsum2, Hsum1, !eventsWithId_cons.
      change (eventsWithId key []) with 0. lia.
    + intros key Hne. apply Forall_cons_1 in Hne as [Hv Hvs].
      rewrite Hother2 by done. by apply Hother1.
Qed.
End Counting.

(** ** Composition of the two phases of addPointInTimeEventsLayersToTable *)

Lemma addPointInTimeEventsLayersToTable_phases ty fuel (d : loc) dimensions visLayers
    (h h1 h2 : heap) l t1 x b :
  addMissingRowsToTableBounds fuel d dimensions h = (Returns l, h1) →
  h1 !! l = Some t1 →
  getXAxisId dimensions (columns t1) = Returns x →
  every (visLayerCallback ty fuel l x) visLayers h1 = (Returns b, h2) →
  addPointInTimeEventsLayersToTable ty fuel d dimensions visLayers h = (Returns l, h2).
Proof.
  intros Hext Hl Hx Hevery. unfold addPointInTimeEventsLayersToTable.
  rewrite (bind_returns _ _ _ _ _ Hext).
  rewrite (bind_returns _ _ _ _ _ (getColumns_run l t1 h1 Hl)), Hx.
  rewrite (bind_returns (lift (Returns x)) _ h1 x h1) by done.
  destruct visLayers as [|v vs]; cbn [isEmpty negb].
  - simpl in Hevery. rewrite ret_run in Hevery. by simplify_eq.
  - rewrite bind_run, (bind_returns _ _ _ _ _ Hevery). reflexivity.
Qed.

Lemma addPointInTimeEventsLayersToTable_throws ty fuel (d : loc) dimensions visLayers
    t (h : heap) e :
  h !! d = Some t →
  getXAxisId dimensions (columns t) = Throws e →
  addPointInTimeEventsLayersToTable ty fuel d dimensions visLayers h =
    (Throws e, <[fresh (dom h) := t]> h).
Proof.
  intros Hd Hx. unfold addPointInTimeEventsLayersToTable.
  by rewrite (bind_throws _ _ _ _ _
                (addMissingRowsToTableBounds_throws fuel d dimensions t h e Hd Hx)).
Qed.


(** ** Shape of the extended rows, for any fuel and any interval *)

Section Shape.
Context (l : loc) (x : string) (i : Z).

Lemma extendStart_shape bound fuel : ∀ cur t (h : heap),
  h !! l = Some t →
  ∃ pre, (extendStart fuel l x i bound cur h).2 !! l =
           Some (mkTable (columns t) (pre ++ rows t)) ∧
         Forall (synthesized x) pre ∧
         finishes (extendStart fuel l x i bound cur h).1 ().
Proof.
  induction fuel as [|fuel IH]; intros cur t h Hl; simpl;
    destruct (cur >? bound);
    try (exists []; rewrite table_eta; split_and!; [done|done|by (left + right)]).
  rewrite (bind_returns _ _ _ _ _ (unshiftRow_run l t h Hl _)).
  destruct (IH (cur - i) (mkTable (columns t) ({[x := cur - i]} :: rows t))
              _ (lookup_insert_eq h l _)) as (pre & -> & Hpre & Hfin).
  exists (pre ++ [{[x := cur - i]}]). cbn [columns rows]. split_and!; [| |done].
  - by rewrite <- app_assoc.
  - apply Forall_app. split; [done|]. repeat constructor. by eexists.
Qed.

Lemma extendEnd_shape bound fuel : ∀ cur t (h : heap),
  h !! l = Some t →
  ∃ post, (extendEnd fuel l x i bound cur h).2 !! l =
            Some (mkTable (columns t) (rows t ++ post)) ∧
          Forall (synthesized x) post ∧
          finishes (extendEnd fuel l x i bound cur h).1 ().
Proof.
  induction fuel as [|fuel IH]; intros cur t h Hl; simpl;
    destruct (cur <? bound);
    try (exists []; rewrite app_nil_r, table_eta;
         split_and!; [done|done|by (left + right)]).
  rewrite (bind_returns _ _ _ _ _ (pushRow_run l t h Hl _)).
  destruct (IH (cur + i) (mkTable (columns t) (rows t ++ [{[x := cur + i]}]))
              _ (lookup_insert_eq h l _)) as (post & -> & Hpost & Hfin).
  exists ({[x := cur + i]} :: post). cbn [columns rows]. split_and!; [| |done].
  - by rewrite <- app_assoc.
  - constructor; [by eexists|done].
Qed.

Lemma createAll_shape bound fuel : ∀ cur t (h : heap),
  h !! l = Some t →
  ∃ post, (createAll fuel l x i bound cur h).2 !! l =
            Some (mkTable (columns t) (rows t ++ post)) ∧
          Forall (synthesized x) post ∧
          finishes (createAll fuel l x i bound cur h).1 ().
Proof.
  induction fuel as [|fuel IH]; intros cur t h Hl; simpl;
    destruct (cur <=? bound);
    try (exists []; rewrite app_nil_r, table_eta;
         split_and!; [done|done|by (left + right)]).
  rewrite (bind_returns _ _ _ _ _ (pushRow_run l t h Hl _)).
  destruct (IH (cur + i) (mkTable (columns t) (rows t ++ [{[x := cur]}]))
              _ (lookup_insert_eq h l _)) as (post & -> & Hpost & Hfin).
  exists ({[x := cur]} :: post). cbn [columns rows]. split_and!; [| |done].
  - by rewrite <- app_assoc.
  - constructor; [by eexists|done].
Qed.
End Shape.

Lemma addMissingRowsToTableBounds_shape fuel (d : loc) dimensions t (h : heap) x :
  h !! d = Some t →
  getXAxisId dimensions (columns t) = Returns x →
  ∃ pre post,
    (addMissingRowsToTableBounds fuel d dimensions h).2 !! fresh (dom h) =
      Some (mkTable (columns t) (pre ++ rows t ++ post)) ∧
    Forall (synthesized x) (pre ++ post) ∧
    finishes (addMissingRowsToTableBounds fuel d dimensions h).1 (fresh (dom h)).
Proof.
  intros Hd Hx. unfold addMissingRowsToTableBounds.
  rewrite (bind_returns _ _ _ _ _ (cloneDeep_run d t h Hd)).
  set (l := fresh (dom h)). set (h1 := <[l := t]> h).
  assert (h1 !! l = Some t) as Hl by apply lookup_insert_eq.
  rewrite (bind_returns _ _ _ _ _ (getColumns_run l t h1 Hl)), Hx.
  rewrite (bind_returns (lift (Returns x)) _ h1 x h1) by done.
  rewrite (bind_returns _ _ _ _ _ (getRows_run l t h1 Hl)).
  destruct (rows t) as [|r rs] eqn:Hrows; cbn [isEmpty negb].
  - destruct (createAll_shape l x (x_params_interval dimensions)
                (x_params_bounds_max dimensions) fuel
                (x_params_bounds_min dimensions) t h1 Hl) as (post & Hpost & Hsyn & Hfin).
    exists [], post. rewrite bind_run.
    destruct (createAll _ _ _ _ _ _ h1) as [[[]|[]| |] h2] eqn:E;
      rewrite ?E in Hpost, Hfin; cbn [fst snd] in Hpost, Hfin; simpl;
      (split_and!; [by rewrite Hpost, Hrows|done|]);
      destruct Hfin; simplify_eq; by (left + right).
  - assert (rows t !! 0%nat = Some r) as H0 by (by rewrite Hrows).
    assert (rows t !! (length (r :: rs) - 1)%nat = last (r :: rs)) as Hlast.
    { rewrite Hrows, last_lookup. f_equal. simpl. lia. }
    destruct (last (r :: rs)) as [rl|] eqn:Hrl; [|by apply last_None in Hrl].
    rewrite bind_run.
    rewrite (bind_returns _ _ _ _ _ (getRow_run l t h1 Hl _ _ H0)).
    rewrite (bind_returns _ _ _ _ _ (getRow_run l t h1 Hl _ _ Hlast)).
    rewrite bind_run.
    assert (∃ pre, ((match r !! x with
                     | Some cur => extendStart fuel l x (x_params_interval dimensions)
                                     (x_params_bounds_min dimensions) cur
                     | None => mret ()
                     end) h1).2 !! l = Some (mkTable (columns t) (pre ++ rows t)) ∧
                   Forall (synthesized x) pre ∧
                   finishes ((match r !! x with
                     | Some cur => extendStart fuel l x (x_params_interval dimensions)
                                     (x_params_bounds_min dimensions) cur
                     | None => mret ()
                     end) h1).1 ()) as (pre & Hpre & Hsynpre & Hfinpre).
    { destruct (r !! x); [by apply extendStart_shape|].
      exists []. rewrite ret_run, table_eta. split_and!; [done|done|by left]. }
    match type of Hpre with (?run).2 !! _ = _ =>
      destruct run as [[[]|[]| |] h2] eqn:E1 end; simpl in Hpre, Hfinpre.
    + assert (∃ post, ((match rl !! x with
                        | Some cur => extendEnd fuel l x (x_params_interval dimensions)
                                        (x_params_bounds_max dimensions) cur
                        | None => mret ()
                        end) h2).2 !! l =
                        Some (mkTable (columns t) ((pre ++ rows t) ++ post)) ∧
                      Forall (synthesized x) post ∧
                      finishes ((match rl !! x with
                        | Some cur => extendEnd fuel l x (x_params_interval dimensions)
                                        (x_params_bounds_max dimensions) cur
                        | None => mret ()
                        end) h2).1 ()) as (post & Hpost & Hsynpost & Hfinpost).
      { destruct (rl !! x); [by apply (extendEnd_shape l x _ _ fuel _ _ h2 Hpre)|].
        exists []. rewrite ret_run, app_nil_r. split_and!; [done|done|by left]. }
      exists pre, post.
      match type of Hpost with (?run).2 !! _ = _ =>
        destruct run as [[[]|[]| |] h3] eqn:E2 end;
        simpl in *; rewrite Hpost, <- app_assoc, Hrows;
        (split_and!; [done|by apply Forall_app|]);
        destruct Hfinpost; simplify_eq; by (left + right).
    + destruct Hfinpre; simplify_eq.
    + exists pre, []. simpl. rewrite Hpre, !app_nil_r, Hrows.
      split_and!; [done|done|by right].
    + destruct Hfinpre; simplify_eq.
Qed.

(** * Bounds extension: the claims *)

Lemma stepsWithin_spec i lo hi (k : nat) :
  0 < i → (k < stepsWithin i lo hi)%nat ↔ lo + Z.of_nat k * i <= hi.
Proof.
  intros Hi. unfold stepsWithin. split.
  - intros Hk. assert (Z.of_nat k <= (hi - lo) / i) as Hq by lia.
    pose proof (Z.mul_div_le (hi - lo) i Hi). nia.
  - intros Hk. assert (Z.of_nat k <= (hi - lo) / i); [|lia].
    apply Z.div_le_lower_bound; lia.
Qed.

(** C6. With no input rows, addMissingRowsToTableBounds returns a table
    whose rows are [rangeStart], [rangeStart + interval], ... for as long
    as the key does not exceed [rangeEnd], each row holding the axis key
    only; with [rangeStart = rangeEnd] this is exactly one row. *)
Theorem empty_input_synthesis fuel (d : loc) dimensions t (h : heap) x :
  h !! d = Some t →
  rows t = [] →
  getXAxisId dimensions (columns t) = Returns x →
  0 < x_params_interval dimensions →
  (x_params_bounds_max dimensions - x_params_bounds_min dimensions)
    / x_params_interval dimensions < Z.of_nat fuel →
  ∃ l t',
    addMissingRowsToTableBounds fuel d dimensions h = (Returns l, <[l := t']> h) ∧
    h !! l = None ∧
    columns t' = columns t ∧
    (∀ k : nat,
       rows t' !! k =
       if decide (x_params_bounds_min dimensions + Z.of_nat k * x_params_interval dimensions
                  <= x_params_bounds_max dimensions)
       then Some {[x := x_params_bounds_min dimensions
                        + Z.of_nat k * x_params_interval dimensions]}
       else None) ∧
    (x_params_bounds_min dimensions = x_params_bounds_max dimensions →
     rows t' = [{[x := x_params_bounds_min dimensions]}]).
Proof.
  intros Hd Hrows Hx Hi Hfuel.
  eexists _, _. split_and!.
  - apply (addMissingRowsToTableBounds_run fuel d dimensions t h x Hd Hx Hi).
    rewrite Hrows, iterations_empty. unfold stepsWithin. lia.
  - apply fresh_loc_unused.
  - done.
  - intros k. cbn [rows]. rewrite Hrows. cbn [extendedRows]. unfold createdRows.
    rewrite list_lookup_fmap.
    pose proof (stepsWithin_spec (x_params_interval dimensions)
                  (x_params_bounds_min dimensions) (x_params_bounds_max dimensions) k Hi)
      as Hk.
    case_decide as Hle.
    + rewrite arith_lookup by (by apply Hk). reflexivity.
    + rewrite lookup_ge_None_2; [done|]. rewrite arith_length.
      destruct (decide (k < stepsWithin (x_params_interval dimensions)
                            (x_params_bounds_min dimensions)
                            (x_params_bounds_max dimensions))%nat) as [Hlt|]; [|lia].
      apply Hk in Hlt. lia.
  - intros Heq. cbn [rows]. rewrite Hrows. cbn [extendedRows]. unfold createdRows.
    rewrite <- Heq. unfold stepsWithin.
    rewrite Z.sub_diag, Z.div_0_l by lia. reflexivity.
Qed.

Lemma empty_input_synthesis_witness :
  ∃ l t',
    addMissingRowsToTableBounds 4 0%nat (mkDimensions "timestamp" 10 5 35)
      {[0%nat := emptyTable]} = (Returns l, <[l := t']> {[0%nat := emptyTable]}) ∧
    rows t' = [{["col-0" := 5]}; {["col-0" := 15]}; {["col-0" := 25]}; {["col-0" := 35]}].
Proof.
  destruct (empty_input_synthesis 4 0%nat (mkDimensions "timestamp" 10 5 35)
              emptyTable {[0%nat := emptyTable]} "col-0")
    as (l & t' & Hrun & _ & _ & Hrows & _);
    [reflexivity|reflexivity|reflexivity|reflexivity|reflexivity|].
  exists l, t'. split; [exact Hrun|].
  apply list_eq. intros k. rewrite Hrows.
  do 5 (destruct k as [|k]; [reflexivity|]).
  cbn [x_params_bounds_min x_params_interval x_params_bounds_max].
  case_decide; [lia|reflexivity].
Defined.

(** C7. addMissingRowsToTableBounds changes no object that existed before
    the call, whatever its outcome; the table it returns is a new object
    with the columns of the input, whose rows are the input rows, unchanged
    and in their order, between rows that hold the axis key only; and for a
    positive interval and enough fuel it does return. *)
Theorem bounds_extension_frame fuel (d : loc) dimensions t (h : heap) :
  h !! d = Some t →
  (∀ l0, is_Some (h !! l0) →
     (addMissingRowsToTableBounds fuel d dimensions h).2 !! l0 = h !! l0) ∧
  (∀ l, (addMissingRowsToTableBounds fuel d dimensions h).1 = Returns l →
     ∃ x t' pre post,
       getXAxisId dimensions (columns t) = Returns x ∧
       h !! l = None ∧
       (addMissingRowsToTableBounds fuel d dimensions h).2 !! l = Some t' ∧
       columns t' = columns t ∧
       rows t' = pre ++ rows t ++ post ∧
       Forall (synthesized x) (pre ++ post)) ∧
  (∀ x, getXAxisId dimensions (columns t) = Returns x →
     0 < x_params_interval dimensions →
     (iterations x dimensions (rows t) ≤ fuel)%nat →
     ∃ l, (addMissingRowsToTableBounds fuel d dimensions h).1 = Returns l).
Proof.
  intros Hd. split_and!.
  - intros l0. apply addMissingRowsToTableBounds_frame.
  - intros l Hret.
    destruct (getXAxisId dimensions (columns t)) as [x|e| |] eqn:Hx.
    + destruct (addMissingRowsToTableBounds_shape fuel d dimensions t h x Hd Hx)
        as (pre & post & Hlook & Hsyn & [Hfin|Hfin]); [|congruence].
      rewrite Hfin in Hret. injection Hret as <-.
      exists x, (mkTable (columns t) (pre ++ rows t ++ post)), pre, post.
      split_and!; [done|apply fresh_loc_unused|done..].
    + rewrite (addMissingRowsToTableBounds_throws fuel d dimensions t h e Hd Hx) in Hret.
      discriminate.
    + unfold getXAxisId in Hx. by destruct (filter _ _).
    + unfold getXAxisId in Hx. by destruct (filter _ _).
  - intros x Hx Hi Hfuel. eexists.
    by rewrite (addMissingRowsToTableBounds_run fuel d dimensions t h x Hd Hx Hi Hfuel).
Qed.

Lemma bounds_extension_frame_witness :
  (addMissingRowsToTableBounds 5 0%nat (mkDimensions "timestamp" 10 0 60)
     {[0%nat := sparseTable]}).2 !! 0%nat = Some sparseTable.
Proof.
  destruct (bounds_extension_frame 5 0%nat (mkDimensions "timestamp" 10 0 60)
              sparseTable {[0%nat := sparseTable]}) as (Hframe & _ & _);
    [reflexivity|].
  rewrite Hframe; [reflexivity|]. by eexists.
Defined.




Lemma extendStart_not_entered l x i bound fuel cur (h : heap) :
  cur <= bound → extendStart fuel l x i bound cur h = (Returns (), h).
Proof.
  intros Hle. destruct fuel; simpl;
    destruct (Z.gtb_spec cur bound); (lia || reflexivity).
Qed.







Lemma axisKeys_keyRow x (l : list Z) : axisKeys x (keyRow x <$> l) = Some <$> l.
Proof.
  unfold axisKeys. rewrite <- list_fmap_compose. apply list_fmap_ext.
  intros _ k _. simpl. unfold keyRow. apply lookup_singleton_eq.
Qed.

Lemma axisKeys_app x rs1 rs2 : axisKeys x (rs1 ++ rs2) = axisKeys x rs1 ++ axisKeys x rs2.
Proof. apply fmap_app. Qed.

Lemma arith_app a i (n m : nat) :
  arith a i (n + m) = arith a i n ++ arith (a + Z.of_nat n * i) i m.
Proof.
  revert a. induction n as [|n IH]; intros a.
  - simpl. f_equal. lia.
  - change (arith a i (S n + m)) with (a :: arith (a + i) i (n + m)).
    rewrite IH. simpl. do 3 f_equal. lia.
Qed.

Lemma arith_last a i (n : nat) : last (arith a i (S n)) = Some (a + Z.of_nat n * i).
Proof. rewrite arith_snoc. apply last_snoc. Qed.

Lemma consecutiveBy_arith i (ks : list (option Z)) a :
  consecutiveBy i ks →
  head ks = Some (Some a) →
  ks = Some <$> arith a i (length ks).
Proof.
  revert a. induction ks as [|k ks IH]; intros a Hcons Hhead; [done|].
  simpl in Hhead. injection Hhead as ->. simpl. f_equal.
  destruct ks as [|k' ks]; [done|].
  destruct (Hcons 0%nat (Some a) k') as (za & [= <-] & ->); [done..|].
  apply IH; [|done].
  intros j u v Hu Hv. by apply (Hcons (S j)).
Qed.

Lemma density_arith i a (n : nat) :
  0 < i → density i (Some <$> arith a i (S n)).
Proof.
  intros Hi. split.
  - exists a, (a + Z.of_nat n * i). split_and!.
    + done.
    + by rewrite fmap_last, arith_last.
    + rewrite length_fmap, arith_length.
      replace (a + Z.of_nat n * i - a) with (Z.of_nat n * i) by lia.
      rewrite Z.div_mul by lia. lia.
  - intros k u v Hu Hv.
    assert (S k < S n)%nat as Hk.
    { apply lookup_lt_Some in Hv. by rewrite length_fmap, arith_length in Hv. }
    rewrite list_lookup_fmap in Hu, Hv.
    rewrite arith_lookup in Hu, Hv by lia. simpl in Hu, Hv. simplify_eq.
    eexists. split; [done|]. f_equal. lia.
Qed.

Lemma lastKey_axisKeys x rs b :
  last (axisKeys x rs) = Some (Some b) → lastKey x rs = Some b.
Proof.
  unfold axisKeys, lastKey. rewrite fmap_last.
  destruct (last rs) as [r|]; simpl; by intros [= ?].
Qed.

(** C4, as amended.  When the input rows all carry the axis key and are
    already one interval apart (in particular when there are none), the
    rows returned for [rangeStart <= rangeEnd] and a positive interval are
    dense.  Gaps between input rows are not filled. *)
Theorem density_of_dense_input fuel (d : loc) dimensions t (h : heap) x :
  h !! d = Some t →
  getXAxisId dimensions (columns t) = Returns x →
  0 < x_params_interval dimensions →
  x_params_bounds_min dimensions <= x_params_bounds_max dimensions →
  Forall (λ row : Row, is_Some (row !! x)) (rows t) →
  consecutiveBy (x_params_interval dimensions) (axisKeys x (rows t)) →
  (iterations x dimensions (rows t) ≤ fuel)%nat →
  ∃ l t',
    addMissingRowsToTableBounds fuel d dimensions h = (Returns l, <[l := t']> h) ∧
    density (x_params_interval dimensions) (axisKeys x (rows t')).
Proof.
  intros Hd Hx Hi Hrange Hkeys Hcons Hfuel.
  eexists _, _. split.
  { by apply (addMissingRowsToTableBounds_run fuel d dimensions t h x). }
  cbn [rows]. destruct (rows t) as [|r rs] eqn:Hrows.
  - cbn [extendedRows]. unfold createdRows. rewrite axisKeys_keyRow.
    rewrite (stepsWithin_S _ _ _ Hi Hrange), <- (stepsWithin_S _ _ _ Hi Hrange).
    rewrite (stepsWithin_S _ _ _ Hi Hrange). by apply density_arith.
  - apply Forall_cons_1 in Hkeys as [[a Ha] _].
    set (i := x_params_interval dimensions) in *.
    set (m := length rs).
    assert (axisKeys x (r :: rs) = Some <$> arith a i (S m)) as Hin.
    { rewrite (consecutiveBy_arith i (axisKeys x (r :: rs)) a Hcons).
      - unfold axisKeys. by rewrite length_fmap.
      - simpl. by rewrite Ha. }
    assert (firstKey x (r :: rs) = Some a) as Hfirst by done.
    assert (lastKey x (r :: rs) = Some (a + Z.of_nat m * i)) as Hlast.
    { apply lastKey_axisKeys. by rewrite Hin, fmap_last, arith_last. }
    unfold extendedRows, prependedRows, appendedRows.
    rewrite Hfirst, Hlast. cbn [default from_option id]. fold i.
    rewrite !axisKeys_app, !axisKeys_keyRow, Hin, <- !fmap_app.
    set (n1 := prependCount dimensions (Some a)).
    set (n2 := appendCount dimensions (Some (a + Z.of_nat m * i))).
    replace (arith (a - Z.of_nat n1 * i) i n1 ++ arith a i (S m) ++
             arith (a + Z.of_nat m * i + i) i n2)
      with (arith (a - Z.of_nat n1 * i) i (S (n1 + m + n2))); [by apply density_arith|].
    replace (S (n1 + m + n2)) with (n1 + (S m + n2))%nat by lia.
    rewrite !arith_app. do 3 f_equal; lia.
Qed.

Lemma density_of_dense_input_witness :
  ∃ l t',
    addMissingRowsToTableBounds 5 0%nat (mkDimensions "timestamp" 10 0 60)
      {[0%nat := denseTable]} = (Returns l, <[l := t']> {[0%nat := denseTable]}) ∧
    density 10 (axisKeys "col-0" (rows t')).
Proof.
  apply (density_of_dense_input 5 0%nat (mkDimensions "timestamp" 10 0 60)
           denseTable {[0%nat := denseTable]} "col-0").
  - reflexivity.
  - reflexivity.
  - reflexivity.
  - discriminate.
  - repeat constructor; by eexists.
  - intros [|[|k]] a b Ha Hb; simplify_eq/=. by eexists.
  - vm_compute. lia.
Defined.

(** C4, counterexample.  For the range [0, 30] and the interval 10 the
    rows of [gappedTable] are returned as they are: two rows, 30 apart,
    where density asks for four rows, 10 apart. *)
Lemma density_counterexample :
  0 <= 30 ∧ 0 < 10 ∧
  addMissingRowsToTableBounds 10 0%nat (mkDimensions "timestamp" 10 0 30)
    {[0%nat := gappedTable]} =
    (Returns 1%nat, <[1%nat := gappedTable]> {[0%nat := gappedTable]}) ∧
  ¬ density 10 (axisKeys "col-0" (rows gappedTable)).
Proof.
  split_and!; [lia|lia|by vm_compute|].
  intros [(first & final & Hhead & Hlast & Hlen) _].
  vm_compute in Hhead, Hlast. injection Hhead as <-. injection Hlast as <-.
  vm_compute in Hlen. discriminate.
Qed.

(** * Event binning: the claims *)

(** With two or more rows no event of a layer with a plain id is lost,
    whatever the axis keys are: the sum of a column grows by the number of
    events of the layers that use it. *)
Lemma conservation_two_or_more_rows ty fuel (d : loc) dimensions visLayers
    (h h1 : heap) l t1 x key :
  addMissingRowsToTableBounds fuel d dimensions h = (Returns l, h1) →
  h1 !! l = Some t1 →
  getXAxisId dimensions (columns t1) = Returns x →
  (2 ≤ length (rows t1))%nat →
  (length (rows t1) ≤ fuel)%nat →
  Forall (λ v, plainKey (pluginResource_id v)) visLayers →
  ∃ t2,
    addPointInTimeEventsLayersToTable ty fuel d dimensions visLayers h =
      (Returns l, <[l := t2]> h1) ∧
    columns t2 = columns t1 ++ (layerColumn ty <$> visLayers) ∧
    length (rows t2) = length (rows t1) ∧
    columnSum key (rows t2) = columnSum key (rows t1) + eventsWithId key visLayers.
Proof.
  intros Hext Hl Hx Hlen Hfuel Hplain.
  destruct (every_visLayerCallback_increments ty l x fuel visLayers t1 h1 Hplain Hl Hlen
              Hfuel) as (rs' & Hevery & Hlen' & Hsum & _).
  exists (mkTable (columns t1 ++ (layerColumn ty <$> visLayers)) rs').
  split_and!; [|done..].
  by apply (addPointInTimeEventsLayersToTable_phases ty fuel d dimensions visLayers
              h h1 _ l t1 x true).
Qed.

(** With exactly one row the first layer gets its count and [every] stops:
    the layers after it are not looked at. *)
Lemma single_row_only_first_layer ty fuel (d : loc) dimensions v vs
    (h h1 : heap) l t1 x r :
  addMissingRowsToTableBounds fuel d dimensions h = (Returns l, h1) →
  h1 !! l = Some t1 →
  getXAxisId dimensions (columns t1) = Returns x →
  rows t1 = [r] →
  addPointInTimeEventsLayersToTable ty fuel d dimensions (v :: vs) h =
    (Returns l,
     <[l := mkTable (columns t1 ++ [layerColumn ty v])
              [<[pluginResource_id v := Z.of_nat (length (events v))]> r]]> h1).
Proof.
  intros Hext Hl Hx Hrows.
  apply (addPointInTimeEventsLayersToTable_phases ty fuel d dimensions (v :: vs)
           h h1 _ l t1 x false); [done..|].
  apply every_stops. by apply visLayerCallback_one_row.
Qed.

(** With no row the first layer gets its column descriptor and [every]
    stops. *)
Lemma no_row_only_first_layer ty fuel (d : loc) dimensions v vs
    (h h1 : heap) l t1 x :
  addMissingRowsToTableBounds fuel d dimensions h = (Returns l, h1) →
  h1 !! l = Some t1 →
  getXAxisId dimensions (columns t1) = Returns x →
  rows t1 = [] →
  addPointInTimeEventsLayersToTable ty fuel d dimensions (v :: vs) h =
    (Returns l, <[l := mkTable (columns t1 ++ [layerColumn ty v]) []]> h1).
Proof.
  intros Hext Hl Hx Hrows.
  apply (addPointInTimeEventsLayersToTable_phases ty fuel d dimensions (v :: vs)
           h h1 _ l t1 x false); [done..|].
  apply every_stops. by apply visLayerCallback_no_rows.
Qed.

(** C3, as amended.  On a table of two or more rows that all carry the
    axis key, with non-decreasing keys, and for layers whose id is a plain
    key other than the axis column's id, every event of every layer is
    counted in a row whose key is nearest to its timestamp, the lower key
    winning a tie: the rows returned are the extended rows with one
    increment of the layer's field per event, at such a row. *)
Theorem nearest_bucket_assignment ty fuel (d : loc) dimensions visLayers
    (h h1 : heap) l t1 x ks :
  addMissingRowsToTableBounds fuel d dimensions h = (Returns l, h1) →
  h1 !! l = Some t1 →
  getXAxisId dimensions (columns t1) = Returns x →
  hasKeys x (rows t1) ks →
  nondecreasing ks →
  (2 ≤ length ks)%nat →
  (length ks ≤ fuel)%nat →
  Forall (λ v, x ≠ pluginResource_id v) visLayers →
  Forall (λ v, plainKey (pluginResource_id v)) visLayers →
  ∃ targetss : list (list nat),
    addPointInTimeEventsLayersToTable ty fuel d dimensions visLayers h =
      (Returns l,
       <[l := mkTable (columns t1 ++ (layerColumn ty <$> visLayers))
                (foldl binLayer (rows t1) (zip visLayers targetss))]> h1) ∧
    Forall2
      (λ visLayer targets,
         ∃ timestamps,
           timestamps ≡ₚ timestamp <$> events visLayer ∧
           Forall2
             (λ t (j : nat),
                ∃ k, ks !! j = Some k ∧
                  ∀ (j' : nat) k', ks !! j' = Some k' →
                    Z.abs (t - k) <= Z.abs (t - k') ∧
                    (Z.abs (t - k') = Z.abs (t - k) → k <= k'))
             timestamps targets)
      visLayers targetss.
Proof.
  intros Hext Hl Hx Hks Hsorted Hlen Hfuel Hne Hplain.
  destruct (every_visLayerCallback_rows ty fuel l x ks Hsorted Hlen Hfuel
              visLayers t1 h1 Hl Hks Hne Hplain) as (targetss & Hevery & Hnear).
  exists targetss. split; [|done].
  by apply (addPointInTimeEventsLayersToTable_phases ty fuel d dimensions visLayers
              h h1 _ l t1 x true).
Qed.

(** Events at 14 and at 15 both go to the row with key 10. *)
Lemma nearest_bucket_assignment_witness :
  (addPointInTimeEventsLayersToTable "vis_layer" 3 0%nat
     (mkDimensions "timestamp" 10 0 20)
     [mkLayer "detector" "Detector" [mkEvent 15; mkEvent 14]]
     {[0%nat := threeRows]}).2 !! 1%nat =
  Some (mkTable
          [mkColumn "col-0" "timestamp" None; mkColumn "col-1" "count" None;
           mkColumn "detector" "Detector" (Some "vis_layer")]
          [{["col-0" := 0; "col-1" := 7]};
           {["col-0" := 10; "col-1" := 8; "detector" := 2]};
           {["col-0" := 20; "col-1" := 9]}]).
Proof.
  destruct (nearest_bucket_assignment "vis_layer" 3 0%nat
              (mkDimensions "timestamp" 10 0 20)
              [mkLayer "detector" "Detector" [mkEvent 15; mkEvent 14]]
              {[0%nat := threeRows]} (<[1%nat := threeRows]> {[0%nat := threeRows]})
              1%nat threeRows "col-0" [0; 10; 20])
    as (targetss & Hrun & Hnear).
  - by vm_compute.
  - reflexivity.
  - reflexivity.
  - reflexivity.
  - intros [|[|[|i]]] [|[|[|j]]] a b Hij Ha Hb; simplify_eq/=; lia.
  - simpl. lia.
  - simpl. lia.
  - repeat constructor. discriminate.
  - repeat constructor.
  - rewrite Hrun. cbn [snd]. rewrite lookup_insert_eq.
    inversion Hnear as [|? targets ? ? (timestamps & Hperm & H1) Hrest]; subst.
    inversion Hrest; subst.
    assert (Forall (λ j, j = 1%nat) targets) as Hall.
    { eapply Forall2_Forall_r; [exact H1|]. apply Forall_forall.
      intros t Ht j (k & Hk & Hmin). rewrite Hperm in Ht.
      pose proof (Hmin 1%nat 10 eq_refl).
      apply elem_of_cons in Ht as [->|Ht]; [|apply list_elem_of_singleton in Ht as ->].
      all: destruct j as [|[|[|j]]]; simplify_eq/=; (done || lia). }
    assert (length targets = 2%nat) as Hlen.
    { by rewrite <- (Forall2_length _ _ _ H1), (Permutation_length Hperm). }
    destruct targets as [|j1 [|j2 [|? ?]]]; try discriminate Hlen.
    inversion Hall as [|? ? -> Hall']; subst. inversion Hall' as [|? ? -> _]; subst.
    by vm_compute.
Defined.

(** C3, as stated, fails for a layer whose id is not a plain key other
    than the axis column's id.  Over the keys 0, 10, 20 the event at 14 of
    a layer with the id [__proto__] is counted in no row: the rows come
    back as they were.  Over the keys 0, 1, 1, 10 the three events at 1 of
    a layer with the id of the axis column change the keys while they are
    binned: the first goes to the second row, the other two to the first
    row, whose key becomes 2.  In neither case are the returned rows the
    extended rows with one increment per event at a row with a nearest
    key. *)
Lemma nearest_bucket_counterexample :
  (hasKeys "col-0" (rows threeRows) [0; 10; 20] ∧
   addPointInTimeEventsLayersToTable "vis_layer" 3 0%nat
     (mkDimensions "timestamp" 10 0 20) [protoLayer] {[0%nat := threeRows]} =
     (Returns 1%nat,
      <[1%nat := mkTable (columns threeRows ++ [layerColumn "vis_layer" protoLayer])
                   (rows threeRows)]> {[0%nat := threeRows]}) ∧
   ¬ ∃ targetss : list (list nat),
       addPointInTimeEventsLayersToTable "vis_layer" 3 0%nat
         (mkDimensions "timestamp" 10 0 20) [protoLayer] {[0%nat := threeRows]} =
         (Returns 1%nat,
          <[1%nat := mkTable (columns threeRows ++ (layerColumn "vis_layer" <$> [protoLayer]))
                       (foldl binLayer (rows threeRows) (zip [protoLayer] targetss))]>
            {[0%nat := threeRows]}) ∧
       Forall2 (nearestTargets [0; 10; 20]) [protoLayer] targetss) ∧
  (hasKeys "col-0" (rows repeatedKeys) [0; 1; 1; 10] ∧
   addPointInTimeEventsLayersToTable "vis_layer" 4 0%nat
     (mkDimensions "timestamp" 10 0 10) [axisLayer] {[0%nat := repeatedKeys]} =
     (Returns 1%nat,
      <[1%nat := mkTable (columns repeatedKeys ++ [layerColumn "vis_layer" axisLayer])
                   [{["col-0" := 2]}; {["col-0" := 2]}; {["col-0" := 1]};
                    {["col-0" := 10]}]]> {[0%nat := repeatedKeys]}) ∧
   ¬ ∃ targetss : list (list nat),
       addPointInTimeEventsLayersToTable "vis_layer" 4 0%nat
         (mkDimensions "timestamp" 10 0 10) [axisLayer] {[0%nat := repeatedKeys]} =
         (Returns 1%nat,
          <[1%nat := mkTable (columns repeatedKeys ++ (layerColumn "vis_layer" <$> [axisLayer]))
                       (foldl binLayer (rows repeatedKeys) (zip [axisLayer] targetss))]>
            {[0%nat := repeatedKeys]}) ∧
       Forall2 (nearestTargets [0; 1; 1; 10]) [axisLayer] targetss).
Proof.
  split.
  - assert (addPointInTimeEventsLayersToTable "vis_layer" 3 0%nat
              (mkDimensions "timestamp" 10 0 20) [protoLayer] {[0%nat := threeRows]} =
            (Returns 1%nat,
             <[1%nat := mkTable (columns threeRows ++ [layerColumn "vis_layer" protoLayer])
                          (rows threeRows)]> {[0%nat := threeRows]})) as Hrun
      by (by vm_compute).
    split_and!; [reflexivity|exact Hrun|].
    intros (targetss & Hrun' & Hnear). rewrite Hrun in Hrun'.
    inversion Hnear as [|? targets ? ? (timestamps & Hperm & Htargets) Hrest]; subst.
    inversion Hrest; subst.
    apply Permutation_singleton_r in Hperm as ->.
    inversion Htargets as [|? j ? ? (k & Hk & _) Hnil]; subst. inversion Hnil; subst.
    apply (f_equal (λ run : outcome loc * heap, rows <$> run.2 !! 1%nat)) in Hrun'.
    cbn [snd] in Hrun'. rewrite !lookup_insert_eq in Hrun'.
    cbn [fmap option_fmap option_map rows] in Hrun'. injection Hrun' as Hrows.
    apply (f_equal (λ rs : list Row, length (filter (λ r, is_Some (r !! "__proto__")) rs)))
      in Hrows.
    destruct j as [|[|[|j]]]; [by vm_compute in Hrows..|done].
  - assert (addPointInTimeEventsLayersToTable "vis_layer" 4 0%nat
              (mkDimensions "timestamp" 10 0 10) [axisLayer] {[0%nat := repeatedKeys]} =
            (Returns 1%nat,
             <[1%nat := mkTable (columns repeatedKeys ++ [layerColumn "vis_layer" axisLayer])
                          [{["col-0" := 2]}; {["col-0" := 2]}; {["col-0" := 1]};
                           {["col-0" := 10]}]]> {[0%nat := repeatedKeys]})) as Hrun
      by (by vm_compute).
    split_and!; [reflexivity|exact Hrun|].
    intros (targetss & Hrun' & Hnear). rewrite Hrun in Hrun'.
    inversion Hnear as [|? targets ? ? (timestamps & Hperm & Htargets) Hrest]; subst.
    inversion Hrest; subst.
    assert (Forall (λ j, j = 1%nat ∨ j = 2%nat) targets) as Hall.
    { eapply Forall2_Forall_r; [exact Htargets|]. apply Forall_forall.
      intros t Ht j (k & Hk & Hmin). rewrite Hperm in Ht.
      assert (t = 1) as ->.
      { cbn in Ht. repeat (apply elem_of_cons in Ht as [->|Ht]; [done|]).
        by apply elem_of_nil in Ht. }
      pose proof (Hmin 1%nat 1 eq_refl) as [Hle _].
      destruct j as [|[|[|[|j]]]]; simplify_eq/=; (lia || by auto). }
    assert (length targets = 3%nat) as Hlen.
    { by rewrite <- (Forall2_length _ _ _ Htargets), (Permutation_length Hperm). }
    apply (f_equal (λ run : outcome loc * heap, rows <$> run.2 !! 1%nat)) in Hrun'.
    cbn [snd] in Hrun'. rewrite !lookup_insert_eq in Hrun'.
    cbn [fmap option_fmap option_map rows] in Hrun'. injection Hrun' as Hrows.
    apply (f_equal (λ rs : list Row, rs !! 0%nat ≫= (.!! "col-0"))) in Hrows.
    destruct targets as [|j1 [|j2 [|j3 [|? ?]]]]; try discriminate Hlen.
    inversion Hall as [|? ? [-> | ->] Hall2]; subst;
      inversion Hall2 as [|? ? [-> | ->] Hall3]; subst;
      inversion Hall3 as [|? ? [-> | ->] _]; subst;
      by vm_compute in Hrows.
Qed.

(** ** One row, several layers *)

(** C1, at the failing input.  The table has one row after bounds
    extension and two layers are given: the call returns a table in which
    the column of the second layer sums to 0, although that layer has one
    event. *)
Theorem conservation_single_row_second_layer :
  addPointInTimeEventsLayersToTable "vis_layer" 0 0%nat
    (mkDimensions "timestamp" 10 0 0) [detectorLayer; monitorLayer]
    {[0%nat := singleRowTable]} =
    (Returns 1%nat,
     <[1%nat := mkTable
                  [mkColumn "col-0" "timestamp" None; mkColumn "col-1" "count" None;
                   mkColumn "detector" "Detector" (Some "vis_layer")]
                  [{["col-0" := 0; "col-1" := 7; "detector" := 2]}]]>
       {[0%nat := singleRowTable]}) ∧
  columnSum "detector" [{["col-0" := 0; "col-1" := 7; "detector" := 2]}] = 2 ∧
  columnSum "monitor" [{["col-0" := 0; "col-1" := 7; "detector" := 2]}] = 0 ∧
  length (events monitorLayer) = 1%nat.
Proof. by vm_compute. Qed.

(** C2, at the failing inputs.  With one row after bounds extension, and
    with none, only the first of two layers gets a column descriptor. *)
Theorem descriptors_stop_after_first_layer :
  (∃ t', (addPointInTimeEventsLayersToTable "vis_layer" 0 0%nat
            (mkDimensions "timestamp" 10 0 0) [detectorLayer; monitorLayer]
            {[0%nat := singleRowTable]}).2 !! 1%nat = Some t' ∧
         length (rows t') = 1%nat ∧
         columns t' = columns singleRowTable ++ [layerColumn "vis_layer" detectorLayer]) ∧
  (∃ t', (addPointInTimeEventsLayersToTable "vis_layer" 0 0%nat
            (mkDimensions "timestamp" 10 5 0) [detectorLayer; monitorLayer]
            {[0%nat := emptyTable]}).2 !! 1%nat = Some t' ∧
         rows t' = [] ∧
         columns t' = columns emptyTable ++ [layerColumn "vis_layer" detectorLayer]).
Proof. split; eexists; by vm_compute. Qed.

(** C5, at the failing input.  With one row after bounds extension the
    field of the first layer is set to its number of events, and the
    second layer is not processed: the row has no field for it. *)
Theorem single_row_collapse_stops :
  ∃ t' row,
    (addPointInTimeEventsLayersToTable "vis_layer" 0 0%nat
       (mkDimensions "timestamp" 10 0 0) [detectorLayer; monitorLayer]
       {[0%nat := singleRowTable]}).2 !! 1%nat = Some t' ∧
    rows t' = [row] ∧
    row !! "detector" = Some (Z.of_nat (length (events detectorLayer))) ∧
    row !! "monitor" = None.
Proof. do 2 eexists. by vm_compute. Qed.

(** * getXAxisId: the claims *)

Lemma addPointInTimeEventsLayersToSpec_throws ty color convert (d : loc) dimensions
    spec t (h : heap) e :
  h !! d = Some t →
  getXAxisId dimensions (columns t) = Throws e →
  (addPointInTimeEventsLayersToSpec ty color convert d dimensions spec h).1 =
    Throws TypeError.
Proof.
  intros Hd Hx. unfold addPointInTimeEventsLayersToSpec. rewrite bind_run.
  unfold lift at 1.
  destruct (enableEventsInConfig (lookupField "config" spec)) as [config|[]| |] eqn:Hc.
  - rewrite (bind_returns _ _ _ _ _ (getColumns_run d t h Hd)), Hx.
    rewrite bind_run. simpl. by destruct e.
  - done.
  - unfold enableEventsInConfig in Hc. by repeat case_match.
  - unfold enableEventsInConfig in Hc. by repeat case_match.
Qed.

(** C10. getXAxisId returns exactly when some column is named by the x
    label, and then returns the id of the first such column; when no column
    is, it throws a TypeError, and so do the three helpers that call it on
    the columns of their datatable. *)
Theorem getXAxisId_requires_matching_column ty color convert fuel (d : loc)
    dimensions visLayers spec t (h : heap) :
  h !! d = Some t →
  ((∃ xAxisId, getXAxisId dimensions (columns t) = Returns xAxisId) ↔
   Exists (λ column, column_name column = x_label dimensions) (columns t)) ∧
  (∀ pre column post,
     columns t = pre ++ column :: post →
     Forall (λ column, column_name column ≠ x_label dimensions) pre →
     column_name column = x_label dimensions →
     getXAxisId dimensions (columns t) = Returns (column_id column)) ∧
  (Forall (λ column, column_name column ≠ x_label dimensions) (columns t) →
   getXAxisId dimensions (columns t) = Throws TypeError ∧
   (addMissingRowsToTableBounds fuel d dimensions h).1 = Throws TypeError ∧
   (addPointInTimeEventsLayersToTable ty fuel d dimensions visLayers h).1 =
     Throws TypeError ∧
   (addPointInTimeEventsLayersToSpec ty color convert d dimensions spec h).1 =
     Throws TypeError).
Proof.
  intros Hd. split_and!.
  - unfold getXAxisId. split.
    + intros [xAxisId Hx].
      destruct (filter _ (columns t)) as [|column rest] eqn:Hf; [done|].
      assert (column ∈ filter (λ column, column_name column = x_label dimensions)
                        (columns t)) as Hin by (rewrite Hf; left).
      apply list_elem_of_filter in Hin as [Hname Hin].
      apply Exists_exists. by exists column.
    + intros Hex. apply Exists_exists in Hex as (column & Hin & Hname).
      assert (column ∈ filter (λ column, column_name column = x_label dimensions)
                        (columns t)) as Hf by (by apply list_elem_of_filter).
      destruct (filter _ (columns t)) as [|column' rest]; [by inversion Hf|].
      by eexists.
  - intros pre column post -> Hpre Hname. by apply getXAxisId_first_match.
  - intros Hnone.
    pose proof (getXAxisId_no_match dimensions (columns t) Hnone) as Hx.
    split_and!.
    + done.
    + by rewrite (addMissingRowsToTableBounds_throws fuel d dimensions t h _ Hd Hx).
    + by rewrite (addPointInTimeEventsLayersToTable_throws ty fuel d dimensions
                    visLayers t h _ Hd Hx).
    + by apply (addPointInTimeEventsLayersToSpec_throws ty color convert d dimensions
                  spec t h TypeError).
Qed.

Lemma getXAxisId_requires_matching_column_witness :
  (addPointInTimeEventsLayersToTable "vis_layer" 0 0%nat
     (mkDimensions "time" 10 0 0) [detectorLayer] {[0%nat := singleRowTable]}).1 =
  Throws TypeError.
Proof.
  destruct (getXAxisId_requires_matching_column "vis_layer" "red" (λ _, JNull) 0 0%nat
              (mkDimensions "time" 10 0 0) [detectorLayer] [] singleRowTable
              {[0%nat := singleRowTable]}) as (_ & _ & Hthrows); [reflexivity|].
  destruct Hthrows as (_ & _ & Htable & _); [|exact Htable].
  repeat constructor; discriminate.
Defined.

(** * generateVisLayerFilterString: the claim *)

Lemma string_app_assoc (s1 s2 s3 : string) : (s1 +:+ s2) +:+ s3 = s1 +:+ s2 +:+ s3.
Proof.
  induction s1 as [|c s1 IH]; [done|].
  change (String c ((s1 +:+ s2) +:+ s3) = String c (s1 +:+ s2 +:+ s3)).
  by f_equal.
Qed.

Lemma join_from_concat sep acc (k : nat) element rest :
  (0 < k)%nat →
  join_from sep acc k (element :: rest) =
  acc +:+ sep +:+ String.concat sep (element :: rest).
Proof.
  revert acc k element. induction rest as [|e' rest IH]; intros acc k element Hk.
  - change (join_from sep acc k [element])
      with ((if (0 <? k)%nat then acc +:+ sep else acc) +:+ element).
    destruct k; [lia|]. cbn [Nat.ltb Nat.leb]. apply string_app_assoc.
  - change (join_from sep acc k (element :: e' :: rest))
      with (join_from sep ((if (0 <? k)%nat then acc +:+ sep else acc) +:+ element)
              (S k) (e' :: rest)).
    rewrite IH by lia. destruct k; [lia|]. cbn [Nat.ltb Nat.leb].
    change (String.concat sep (element :: e' :: rest))
      with (element +:+ sep +:+ String.concat sep (e' :: rest)).
    by rewrite !string_app_assoc.
Qed.

Lemma join_concat sep (l : list string) : join sep l = String.concat sep l.
Proof.
  destruct l as [|element [|e' rest]]; [done..|].
  unfold join.
  change (join_from sep EmptyString 0 (element :: e' :: rest))
    with (join_from sep element 1 (e' :: rest)).
  by rewrite join_from_concat by lia.
Qed.

(** C8. generateVisLayerFilterString returns ["false"] for no id, and
    otherwise the predicates [datum['<id>'] > 0], one per id in the order
    given, with [" || "] between them. *)
Theorem filter_string_format (visLayerColumnIds : list string) :
  generateVisLayerFilterString visLayerColumnIds =
  match visLayerColumnIds with
  | [] => "false"
  | _ => String.concat " || "
           ((λ id, "datum['" +:+ id +:+ "'] > 0") <$> visLayerColumnIds)
  end.
Proof.
  destruct visLayerColumnIds as [|id ids]; [done|].
  unfold generateVisLayerFilterString. cbn [isEmpty negb]. apply join_concat.
Qed.

(** * Further properties of the helpers *)

(** ** Properties of JSON objects *)

Lemma lookupField_setField_eq k v fields : lookupField k (setField k v fields) = Some v.
Proof.
  induction fields as [|[k' v'] rest IH]; simpl.
  - by rewrite String.eqb_refl.
  - destruct (String.eqb_spec k k') as [->|Hne]; simpl.
    + by rewrite String.eqb_refl.
    + destruct (String.eqb_spec k k'); [done|]. exact IH.
Qed.

Lemma lookupField_setField_ne k k' v fields :
  k ≠ k' → lookupField k' (setField k v fields) = lookupField k' fields.
Proof.
  intros Hne. induction fields as [|[k0 v0] rest IH]; simpl.
  - destruct (String.eqb_spec k' k); [congruence|done].
  - destruct (String.eqb_spec k k0) as [->|Hk]; simpl.
    + destruct (String.eqb_spec k' k0); [congruence|done].
    + destruct (String.eqb_spec k' k0); [done|]. exact IH.
Qed.

Lemma setField_id k v fields : lookupField k fields = Some v → setField k v fields = fields.
Proof.
  induction fields as [|[k' v'] rest IH]; simpl; [done|].
  destruct (String.eqb_spec k k') as [->|Hne].
  - by intros [= ->].
  - intros H. by rewrite IH.
Qed.

Lemma lookupField_deleteField_eq k fields : lookupField k (deleteField k fields) = None.
Proof.
  unfold deleteField. induction fields as [|[k' v'] rest IH]; [done|].
  destruct (decide (k' = k)) as [->|Hne].
  - rewrite filter_cons_False by (simpl; naive_solver). exact IH.
  - rewrite filter_cons_True by done. simpl.
    destruct (String.eqb_spec k k'); [congruence|]. exact IH.
Qed.

Lemma lookupField_deleteField_ne k k' fields :
  k ≠ k' → lookupField k' (deleteField k fields) = lookupField k' fields.
Proof.
  intros Hne. unfold deleteField. induction fields as [|[k0 v0] rest IH]; [done|].
  destruct (decide (k0 = k)) as [->|Hk].
  - rewrite filter_cons_False by (simpl; naive_solver). simpl.
    destruct (String.eqb_spec k' k); [congruence|]. exact IH.
  - rewrite filter_cons_True by done. simpl.
    destruct (String.eqb_spec k' k0); [done|]. exact IH.
Qed.

(** ** enableEventsInConfig *)

(** X1. For a config object, enableEventsInConfig returns an object whose
    [kibana] property is an object with [showEvents: true]; every other
    property of the config, and every other property of its [kibana]
    object, is kept. *)
Theorem enableEventsInConfig_sets_showEvents (fields : list (string * json)) :
  ∃ fields' kibana',
    enableEventsInConfig (Some (JObj fields)) = Returns (JObj fields') ∧
    lookupField "kibana" fields' = Some (JObj kibana') ∧
    lookupField "showEvents" kibana' = Some (JBool true) ∧
    (∀ key, key ≠ "kibana" → lookupField key fields' = lookupField key fields) ∧
    (∀ key kibana,
       key ≠ "showEvents" →
       lookupField "kibana" fields = Some (JObj kibana) →
       lookupField key kibana' = lookupField key kibana).
Proof.
  eexists _, _. split_and!.
  - reflexivity.
  - apply lookupField_setField_eq.
  - apply lookupField_setField_eq.
  - intros key Hne. by apply lookupField_setField_ne.
  - intros key kibana Hne Hk. cbn [prop spread]. rewrite Hk.
    by apply lookupField_setField_ne.
Qed.

(** X2. enableEventsInConfig is idempotent: applied to a config it has
    returned, it returns that config again. *)
Theorem enableEventsInConfig_idempotent config enabled :
  enableEventsInConfig config = Returns enabled →
  enableEventsInConfig (Some enabled) = Returns enabled.
Proof.
  intros Hen.
  assert (∃ c, enabled =
    JObj (setField "kibana"
            (JObj (setField "showEvents" (JBool true) (spread (prop "kibana" c))))
            (spread (Some c)))) as [c ->].
  { unfold enableEventsInConfig in Hen.
    destruct config as [c|]; [|done]. exists c.
    destruct c; by simplify_eq. }
  unfold enableEventsInConfig. f_equal. cbn [prop spread].
  rewrite lookupField_setField_eq. cbn [spread].
  rewrite (setField_id "showEvents") by apply lookupField_setField_eq.
  by rewrite setField_id by apply lookupField_setField_eq.
Qed.

Lemma enableEventsInConfig_idempotent_witness :
  enableEventsInConfig
    (Some (JObj [("view", JObj [("stroke", JNull)]);
                 ("kibana", JObj [("showEvents", JBool true)])])) =
  Returns (JObj [("view", JObj [("stroke", JNull)]);
                 ("kibana", JObj [("showEvents", JBool true)])]).
Proof.
  apply (enableEventsInConfig_idempotent
           (Some (JObj [("view", JObj [("stroke", JNull)])]))).
  reflexivity.
Defined.

(** ** getXAxisId *)

(** X3. Appending columns does not change the axis column: once getXAxisId
    returns an id for some columns, it returns the same id for these columns
    followed by any others, whatever their names. *)
Theorem getXAxisId_stable_under_append dimensions cols more xAxisId :
  getXAxisId dimensions cols = Returns xAxisId →
  getXAxisId dimensions (cols ++ more) = Returns xAxisId.
Proof.
  unfold getXAxisId. rewrite filter_app.
  by destruct (filter _ cols) as [|column rest].
Qed.

Lemma getXAxisId_stable_under_append_witness :
  getXAxisId (mkDimensions "timestamp" 10 0 20)
    (columns threeRows ++ [mkColumn "detector" "timestamp" (Some "vis_layer")]) =
  Returns "col-0".
Proof.
  by apply (getXAxisId_stable_under_append (mkDimensions "timestamp" 10 0 20)
              (columns threeRows)).
Defined.

(** ** addMissingRowsToTableBounds: coverage, no-op, idempotence, order *)

Lemma stepsBetween_cover i lo hi :
  0 < i →
  hi - Z.of_nat (stepsBetween i lo hi) * i <= Z.min hi lo ∧
  Z.min hi lo - i < hi - Z.of_nat (stepsBetween i lo hi) * i.
Proof.
  intros Hi. destruct (Z_le_gt_dec hi lo).
  - rewrite stepsBetween_0 by lia. lia.
  - unfold stepsBetween.
    assert (0 <= (hi - lo + i - 1) / i) by (apply Z.div_pos; lia).
    pose proof (Z.mul_div_le (hi - lo + i - 1) i Hi).
    pose proof (Z.mul_succ_div_gt (hi - lo + i - 1) i Hi).
    rewrite Z2Nat.id by done. lia.
Qed.

Lemma arith_head a i (n : nat) : head (arith a i (S n)) = Some a.
Proof. reflexivity. Qed.

Lemma firstKey_extendedRows x dimensions rs a :
  firstKey x rs = Some a →
  firstKey x (extendedRows x dimensions rs) =
    Some (a - Z.of_nat (prependCount dimensions (Some a)) * x_params_interval dimensions).
Proof.
  intros Ha. destruct rs as [|r rs]; [done|].
  unfold extendedRows, prependedRows. rewrite Ha. cbn [default from_option id].
  destruct (prependCount dimensions (Some a)) as [|n].
  - unfold firstKey in *. cbn [arith fmap list_fmap app head mbind option_bind] in *.
    rewrite Ha. f_equal. lia.
  - unfold firstKey. cbn [arith fmap list_fmap app head mbind option_bind].
    unfold keyRow. by rewrite lookup_singleton_eq.
Qed.

Lemma lastKey_extendedRows x dimensions rs b :
  rs ≠ [] →
  lastKey x rs = Some b →
  lastKey x (extendedRows x dimensions rs) =
    Some (b + Z.of_nat (appendCount dimensions (Some b)) * x_params_interval dimensions).
Proof.
  intros Hrs Hb. destruct rs as [|r rs]; [done|].
  unfold extendedRows, appendedRows. rewrite Hb. cbn [default from_option id].
  destruct (appendCount dimensions (Some b)) as [|n].
  - cbn [arith fmap list_fmap]. rewrite app_nil_r.
    unfold lastKey in *. rewrite last_app. cbn [mbind].
    destruct (last (r :: rs)) as [rl|] eqn:Hl; [|by apply last_None in Hl].
    simpl in *. rewrite Hb. f_equal. lia.
  - unfold lastKey. rewrite !app_assoc, arith_snoc, fmap_app, app_assoc.
    cbn [fmap list_fmap]. rewrite last_snoc. cbn [mbind option_bind].
    unfold keyRow. rewrite lookup_singleton_eq. f_equal. lia.
Qed.

(** X4. For a positive interval and input rows whose first and last row
    carry the axis key, the returned rows cover the chart bounds: the first
    key is the first input key moved down by whole intervals to at most the
    bounds' minimum, the last key is the last input key moved up to at least
    the maximum, and neither overshoots by a whole interval. *)
Theorem bounds_extension_covers fuel (d : loc) dimensions t (h : heap) x a b :
  h !! d = Some t →
  getXAxisId dimensions (columns t) = Returns x →
  0 < x_params_interval dimensions →
  firstKey x (rows t) = Some a →
  lastKey x (rows t) = Some b →
  (iterations x dimensions (rows t) ≤ fuel)%nat →
  ∃ l t' (n m : nat),
    addMissingRowsToTableBounds fuel d dimensions h = (Returns l, <[l := t']> h) ∧
    firstKey x (rows t') = Some (a - Z.of_nat n * x_params_interval dimensions) ∧
    lastKey x (rows t') = Some (b + Z.of_nat m * x_params_interval dimensions) ∧
    a - Z.of_nat n * x_params_interval dimensions
      <= Z.min a (x_params_bounds_min dimensions) ∧
    Z.min a (x_params_bounds_min dimensions) - x_params_interval dimensions
      < a - Z.of_nat n * x_params_interval dimensions ∧
    Z.max b (x_params_bounds_max dimensions)
      <= b + Z.of_nat m * x_params_interval dimensions ∧
    b + Z.of_nat m * x_params_interval dimensions
      < Z.max b (x_params_bounds_max dimensions) + x_params_interval dimensions.
Proof.
  intros Hd Hx Hi Ha Hb Hfuel.
  assert (rows t ≠ []) as Hrs by (intros E; by rewrite E in Ha).
  exists (fresh (dom h)), (mkTable (columns t) (extendedRows x dimensions (rows t))),
    (prependCount dimensions (Some a)), (appendCount dimensions (Some b)).
  pose proof (stepsBetween_cover _ (x_params_bounds_min dimensions) a Hi).
  pose proof (stepsBetween_cover _ (- x_params_bounds_max dimensions) (- b) Hi) as Hup.
  assert (stepsBetween (x_params_interval dimensions)
            (- x_params_bounds_max dimensions) (- b) =
          stepsBetween (x_params_interval dimensions) b
            (x_params_bounds_max dimensions)) as Heq.
  { unfold stepsBetween. do 3 f_equal. lia. }
  rewrite Heq in Hup. cbn [prependCount appendCount].
  split_and!.
  - by apply addMissingRowsToTableBounds_run.
  - by apply firstKey_extendedRows.
  - by apply lastKey_extendedRows.
  - lia.
  - lia.
  - lia.
  - lia.
Qed.

Lemma bounds_extension_covers_witness :
  ∃ l t' (n m : nat),
    addMissingRowsToTableBounds 3 0%nat (mkDimensions "timestamp" 10 5 55)
      {[0%nat := sparseTable]} = (Returns l, <[l := t']> {[0%nat := sparseTable]}) ∧
    firstKey "col-0" (rows t') = Some (20 - Z.of_nat n * 10) ∧
    lastKey "col-0" (rows t') = Some (50 + Z.of_nat m * 10) ∧
    20 - Z.of_nat n * 10 <= 5 ∧ 50 + Z.of_nat m * 10 >= 55.
Proof.
  destruct (bounds_extension_covers 3 0%nat (mkDimensions "timestamp" 10 5 55)
              sparseTable {[0%nat := sparseTable]} "col-0" 20 50)
    as (l & t' & n & m & Hrun & Hfirst & Hlast & Hlo & _ & Hhi & _);
    [reflexivity|reflexivity|reflexivity|reflexivity|reflexivity|vm_compute; lia|].
  exists l, t', n, m. cbn [x_params_interval x_params_bounds_min x_params_bounds_max] in *.
  split_and!; [done|done|done|lia|lia].
Defined.

Lemma extendEnd_not_entered l x i bound fuel cur (h : heap) :
  bound <= cur → extendEnd fuel l x i bound cur h = (Returns (), h).
Proof.
  intros Hle. destruct fuel; simpl;
    destruct (Z.ltb_spec cur bound); (lia || reflexivity).
Qed.

Lemma addMissingRowsToTableBounds_covered fuel (d : loc) dimensions t (h : heap) x :
  h !! d = Some t →
  getXAxisId dimensions (columns t) = Returns x →
  rows t ≠ [] →
  (∀ a, firstKey x (rows t) = Some a → a <= x_params_bounds_min dimensions) →
  (∀ b, lastKey x (rows t) = Some b → x_params_bounds_max dimensions <= b) →
  addMissingRowsToTableBounds fuel d dimensions h =
    (Returns (fresh (dom h)), <[fresh (dom h) := t]> h).
Proof.
  intros Hd Hx Hrs Hfirst Hlast. unfold addMissingRowsToTableBounds.
  rewrite (bind_returns _ _ _ _ _ (cloneDeep_run d t h Hd)).
  set (l := fresh (dom h)). set (h1 := <[l := t]> h).
  assert (h1 !! l = Some t) as Hl by apply lookup_insert_eq.
  rewrite (bind_returns _ _ _ _ _ (getColumns_run l t h1 Hl)), Hx.
  rewrite (bind_returns (lift (Returns x)) _ h1 x h1) by done.
  rewrite (bind_returns _ _ _ _ _ (getRows_run l t h1 Hl)).
  destruct (rows t) as [|r rs] eqn:Hrows; [done|]. cbn [isEmpty negb].
  assert (rows t !! 0%nat = Some r) as H0 by (by rewrite Hrows).
  assert (rows t !! (length (r :: rs) - 1)%nat = last (r :: rs)) as Hlst.
  { rewrite Hrows, last_lookup. f_equal. simpl. lia. }
  destruct (last (r :: rs)) as [rl|] eqn:Hrl; [|by apply last_None in Hrl].
  rewrite bind_run.
  rewrite (bind_returns _ _ _ _ _ (getRow_run l t h1 Hl _ _ H0)).
  rewrite (bind_returns _ _ _ _ _ (getRow_run l t h1 Hl _ _ Hlst)).
  unfold firstKey, lastKey in *. rewrite Hrl in Hlast.
  cbn [head mbind option_bind] in *.
  rewrite bind_run.
  destruct (r !! x) as [a|]; destruct (rl !! x) as [b|];
    rewrite ?extendStart_not_entered by auto; rewrite ?ret_run;
    rewrite ?extendEnd_not_entered by auto; by rewrite ?ret_run.
Qed.

(** X5. When the input rows already reach the chart bounds (the first key
    is at most the minimum, the last key at least the maximum, or a key is
    absent), the call returns a copy of the table with the same rows, for
    every fuel and every interval, positive or not. *)
Theorem bounds_extension_covered_is_copy fuel (d : loc) dimensions t (h : heap) x :
  h !! d = Some t →
  getXAxisId dimensions (columns t) = Returns x →
  rows t ≠ [] →
  (∀ a, firstKey x (rows t) = Some a → a <= x_params_bounds_min dimensions) →
  (∀ b, lastKey x (rows t) = Some b → x_params_bounds_max dimensions <= b) →
  ∃ l,
    addMissingRowsToTableBounds fuel d dimensions h = (Returns l, <[l := t]> h) ∧
    h !! l = None.
Proof.
  intros. eexists. split; [by apply (addMissingRowsToTableBounds_covered _ _ _ _ _ x)|].
  apply fresh_loc_unused.
Qed.

Lemma bounds_extension_covered_is_copy_witness :
  ∃ l,
    addMissingRowsToTableBounds 0 0%nat (mkDimensions "timestamp" (-10) 0 30)
      {[0%nat := gappedTable]} = (Returns l, <[l := gappedTable]> {[0%nat := gappedTable]}) ∧
    ({[0%nat := gappedTable]} : heap) !! l = None.
Proof.
  apply (bounds_extension_covered_is_copy 0 0%nat (mkDimensions "timestamp" (-10) 0 30)
           gappedTable {[0%nat := gappedTable]} "col-0").
  - reflexivity.
  - reflexivity.
  - discriminate.
  - intros a [= <-]. reflexivity.
  - intros b [= <-]. reflexivity.
Defined.

(** X6. Bounds extension is idempotent on input rows whose first and last
    row carry the axis key: extending the returned table again, with any
    fuel, returns a copy of it with the same rows. *)
Theorem bounds_extension_idempotent fuel fuel' (d : loc) dimensions t (h : heap) x a b :
  h !! d = Some t →
  getXAxisId dimensions (columns t) = Returns x →
  0 < x_params_interval dimensions →
  firstKey x (rows t) = Some a →
  lastKey x (rows t) = Some b →
  (iterations x dimensions (rows t) ≤ fuel)%nat →
  ∃ l t' l',
    addMissingRowsToTableBounds fuel d dimensions h = (Returns l, <[l := t']> h) ∧
    addMissingRowsToTableBounds fuel' l dimensions (<[l := t']> h) =
      (Returns l', <[l' := t']> (<[l := t']> h)) ∧
    l' ≠ l.
Proof.
  intros Hd Hx Hi Ha Hb Hfuel.
  assert (rows t ≠ []) as Hrs by (intros E; by rewrite E in Ha).
  set (t' := mkTable (columns t) (extendedRows x dimensions (rows t))).
  exists (fresh (dom h)), t', (fresh (dom (<[fresh (dom h) := t']> h))).
  pose proof (stepsBetween_cover _ (x_params_bounds_min dimensions) a Hi).
  pose proof (stepsBetween_cover _ (- x_params_bounds_max dimensions) (- b) Hi) as Hup.
  assert (stepsBetween (x_params_interval dimensions)
            (- x_params_bounds_max dimensions) (- b) =
          stepsBetween (x_params_interval dimensions) b
            (x_params_bounds_max dimensions)) as Heq.
  { unfold stepsBetween. do 3 f_equal. lia. }
  rewrite Heq in Hup.
  split_and!.
  - by apply addMissingRowsToTableBounds_run.
  - apply (addMissingRowsToTableBounds_covered _ _ _ _ _ x).
    + apply lookup_insert_eq.
    + done.
    + cbn [rows t']. unfold extendedRows. destruct (rows t); [done|].
      intros E. apply (f_equal length) in E. rewrite !length_app in E. simpl in E. lia.
    + intros a'. cbn [rows t']. rewrite (firstKey_extendedRows _ _ _ a) by done.
      intros [= <-]. cbn [prependCount]. lia.
    + intros b'. cbn [rows t']. rewrite (lastKey_extendedRows _ _ _ b) by done.
      intros [= <-]. cbn [appendCount]. lia.
  - intros E. pose proof (fresh_loc_unused (<[fresh (dom h) := t']> h)) as Hfresh.
    rewrite E, lookup_insert_eq in Hfresh. discriminate.
Qed.

Lemma bounds_extension_idempotent_witness :
  ∃ l t' l',
    addMissingRowsToTableBounds 3 0%nat (mkDimensions "timestamp" 10 5 55)
      {[0%nat := sparseTable]} = (Returns l, <[l := t']> {[0%nat := sparseTable]}) ∧
    addMissingRowsToTableBounds 0 l (mkDimensions "timestamp" 10 5 55)
      (<[l := t']> {[0%nat := sparseTable]}) =
      (Returns l', <[l' := t']> (<[l := t']> {[0%nat := sparseTable]})) ∧
    l' ≠ l.
Proof.
  apply (bounds_extension_idempotent 3 0 0%nat (mkDimensions "timestamp" 10 5 55)
           sparseTable {[0%nat := sparseTable]} "col-0" 20 50);
    [reflexivity|reflexivity|reflexivity|reflexivity|reflexivity|vm_compute; lia].
Defined.

(** *** Order of the keys *)

Lemma nondecreasing_app (l1 l2 : list Z) :
  nondecreasing l1 →
  nondecreasing l2 →
  (∀ (i j : nat) a b, l1 !! i = Some a → l2 !! j = Some b → a <= b) →
  nondecreasing (l1 ++ l2).
Proof.
  intros H1 H2 H12 i j a b Hij Ha Hb.
  apply lookup_app_Some in Ha as [Ha|[Hi Ha]];
    apply lookup_app_Some in Hb as [Hb|[Hj Hb]].
  - by eapply H1.
  - by eapply H12.
  - apply lookup_lt_Some in Hb. lia.
  - eapply (H2 (i - length l1)%nat (j - length l1)%nat); [lia|done..].
Qed.

Lemma nondecreasing_arith a i (n : nat) : 0 < i → nondecreasing (arith a i n).
Proof.
  intros Hi j k u v Hjk Hu Hv.
  assert (j < n ∧ k < n)%nat as [? ?].
  { apply lookup_lt_Some in Hu, Hv. rewrite arith_length in Hu, Hv. lia. }
  rewrite arith_lookup in Hu, Hv by done. simplify_eq. nia.
Qed.

Lemma nondecreasing_extendedKeys dimensions ks :
  0 < x_params_interval dimensions →
  nondecreasing ks → nondecreasing (extendedKeys dimensions ks).
Proof.
  intros Hi Hks. destruct ks as [|a ks']; [by apply nondecreasing_arith|].
  unfold extendedKeys.
  set (ks := a :: ks') in *.
  assert (∃ b, last ks = Some b) as [b Hb].
  { destruct (last ks) eqn:E; [by eexists|by apply last_None in E]. }
  rewrite Hb. cbn [default from_option id].
  assert (∀ (j : nat) k, ks !! j = Some k → a <= k ∧ k <= b) as Hrange.
  { intros j k Hk. split.
    - by eapply (Hks 0%nat j); [lia| |].
    - rewrite last_lookup in Hb. eapply (Hks j _ k b); [|done..].
      apply lookup_lt_Some in Hk. lia. }
  apply nondecreasing_app; [by apply nondecreasing_arith| |].
  - apply nondecreasing_app; [done|by apply nondecreasing_arith|].
    intros j k u v Hu Hv. apply Hrange in Hu.
    assert (k < appendCount dimensions (Some b))%nat.
    { apply lookup_lt_Some in Hv. by rewrite arith_length in Hv. }
    rewrite arith_lookup in Hv by done. simplify_eq. nia.
  - intros j k u v Hu Hv.
    assert (j < prependCount dimensions (Some a))%nat.
    { apply lookup_lt_Some in Hu. by rewrite arith_length in Hu. }
    rewrite arith_lookup in Hu by done. simplify_eq.
    assert (a <= v); [|nia].
    apply lookup_app_Some in Hv as [Hv|[_ Hv]]; [apply Hrange in Hv; lia|].
    assert (k - length ks < appendCount dimensions (Some b))%nat.
    { apply lookup_lt_Some in Hv. by rewrite arith_length in Hv. }
    rewrite arith_lookup in Hv by done. simplify_eq.
    assert (a <= b) by (by eapply (Hrange 0%nat a)). nia.
Qed.

Lemma hasKeys_firstKey x rs a ks : hasKeys x rs (a :: ks) → firstKey x rs = Some a.
Proof.
  unfold hasKeys, firstKey. destruct rs as [|r rs]; [done|].
  simpl. by intros [= -> _].
Qed.

Lemma hasKeys_lastKey x rs ks b : hasKeys x rs ks → last ks = Some b → lastKey x rs = Some b.
Proof.
  intros Hks Hb. apply lastKey_axisKeys. unfold axisKeys. rewrite Hks.
  by rewrite fmap_last, Hb.
Qed.

Lemma hasKeys_extendedRows x dimensions rs ks :
  hasKeys x rs ks → hasKeys x (extendedRows x dimensions rs) (extendedKeys dimensions ks).
Proof.
  intros Hks. pose proof (hasKeys_length _ _ _ Hks) as Hlen.
  destruct ks as [|a ks'].
  - destruct rs; [|done]. unfold hasKeys. apply axisKeys_keyRow.
  - destruct rs as [|r rs']; [done|].
    set (ks := a :: ks') in *. set (rs := r :: rs') in *.
    assert (∃ b, last ks = Some b) as [b Hb].
    { destruct (last ks) eqn:E; [by eexists|by apply last_None in E]. }
    unfold extendedRows, extendedKeys, prependedRows, appendedRows. fold rs. fold ks.
    rewrite (hasKeys_firstKey x rs a ks'), (hasKeys_lastKey x rs ks b), Hb by done.
    cbn [default from_option id]. subst rs ks. cbv iota. unfold hasKeys.
    rewrite !fmap_app. f_equal; [apply axisKeys_keyRow|].
    f_equal; [done|apply axisKeys_keyRow].
Qed.

Lemma extendedKeys_length x dimensions rs ks :
  hasKeys x rs ks →
  length (extendedKeys dimensions ks) = length (extendedRows x dimensions rs).
Proof.
  intros Hks. symmetry. by apply (hasKeys_length x), hasKeys_extendedRows.
Qed.

(** X7. Bounds extension keeps the rows ordered: when every input row
    carries the axis key and the keys are non-decreasing, then for a
    positive interval every returned row carries the axis key and the keys
    are again non-decreasing, the input keys being a contiguous part of
    them. *)
Theorem bounds_extension_keeps_order fuel (d : loc) dimensions t (h : heap) x ks :
  h !! d = Some t →
  getXAxisId dimensions (columns t) = Returns x →
  0 < x_params_interval dimensions →
  hasKeys x (rows t) ks →
  nondecreasing ks →
  (iterations x dimensions (rows t) ≤ fuel)%nat →
  ∃ l t' ks',
    addMissingRowsToTableBounds fuel d dimensions h = (Returns l, <[l := t']> h) ∧
    hasKeys x (rows t') ks' ∧
    nondecreasing ks' ∧
    (ks = [] ∨ ∃ pre post, ks' = pre ++ ks ++ post).
Proof.
  intros Hd Hx Hi Hks Hsorted Hfuel.
  exists (fresh (dom h)), (mkTable (columns t) (extendedRows x dimensions (rows t))),
    (extendedKeys dimensions ks).
  split_and!.
  - by apply addMissingRowsToTableBounds_run.
  - by apply hasKeys_extendedRows.
  - by apply nondecreasing_extendedKeys.
  - destruct ks as [|a ks']; [by left|right]. by eexists _, _.
Qed.

Lemma bounds_extension_keeps_order_witness :
  ∃ l t' ks',
    addMissingRowsToTableBounds 3 0%nat (mkDimensions "timestamp" 10 5 55)
      {[0%nat := sparseTable]} = (Returns l, <[l := t']> {[0%nat := sparseTable]}) ∧
    hasKeys "col-0" (rows t') ks' ∧
    nondecreasing ks'.
Proof.
  destruct (bounds_extension_keeps_order 3 0%nat (mkDimensions "timestamp" 10 5 55)
              sparseTable {[0%nat := sparseTable]} "col-0" [20; 50])
    as (l & t' & ks' & Hrun & Hks & Hsorted & _).
  - reflexivity.
  - reflexivity.
  - reflexivity.
  - reflexivity.
  - intros [|[|i]] [|[|j]] a b Hij Ha Hb; simplify_eq/=; lia.
  - vm_compute. lia.
  - by exists l, t', ks'.
Defined.

(** ** addPointInTimeEventsLayersToTable: frame and edge cases *)

Lemma touchesOnly_incrementCell l j id : touchesOnly l (incrementCell l j id).
Proof. unfold incrementCell. touches. Qed.

Lemma touchesOnly_binTimestamp l x id fuel :
  ∀ t c, touchesOnly l (binTimestamp fuel l x id t c).
Proof.
  induction fuel as [|fuel IH]; intros t c; cbn [binTimestamp]; unfold diverge;
    apply touchesOnly_bind; auto with touches; intros rs;
    repeat match goal with
    | |- touchesOnly _ (if ?b then _ else _) => destruct b
    | |- touchesOnly _ (_ ≫= _) => apply touchesOnly_bind; [|intros ?]
    end; auto using touchesOnly_incrementCell with touches.
Qed.

Lemma touchesOnly_forEachTimestamp l x id fuel ts :
  ∀ c, touchesOnly l (forEachTimestamp fuel l x id ts c).
Proof.
  induction ts as [|t ts IH]; intros c; simpl; [auto with touches|].
  apply touchesOnly_bind; [apply touchesOnly_binTimestamp|done].
Qed.

Lemma touchesOnly_visLayerCallback ty fuel l x v :
  touchesOnly l (visLayerCallback ty fuel l x v).
Proof.
  unfold visLayerCallback.
  repeat match goal with
  | |- touchesOnly _ (if ?b then _ else _) => destruct b
  | |- touchesOnly _ (_ ≫= _) => apply touchesOnly_bind; [|intros ?]
  end; auto using touchesOnly_forEachTimestamp with touches.
Qed.

Lemma touchesOnly_every {A} l (callback : A → M bool) vs :
  (∀ v, touchesOnly l (callback v)) → touchesOnly l (every callback vs).
Proof.
  intros Hcb. induction vs as [|v vs IH]; simpl; [auto with touches|].
  apply touchesOnly_bind; [done|]. intros []; auto with touches.
Qed.

Lemma addMissingRowsToTableBounds_returns_fresh fuel (d : loc) dimensions (h : heap) l :
  (addMissingRowsToTableBounds fuel d dimensions h).1 = Returns l →
  l = fresh (dom h).
Proof.
  intros Hret. destruct (h !! d) as [t|] eqn:Hd.
  - destruct (getXAxisId dimensions (columns t)) as [x|e| |] eqn:Hx.
    + destruct (addMissingRowsToTableBounds_shape fuel d dimensions t h x Hd Hx)
        as (_ & _ & _ & _ & [Hfin|Hfin]); congruence.
    + rewrite (addMissingRowsToTableBounds_throws fuel d dimensions t h e Hd Hx) in Hret.
      discriminate.
    + unfold getXAxisId in Hx. by destruct (filter _ _).
    + unfold getXAxisId in Hx. by destruct (filter _ _).
  - unfold addMissingRowsToTableBounds, cloneDeep, getColumns, readTable in Hret.
    rewrite !bind_run, Hd in Hret. rewrite !bind_run, Hd in Hret. discriminate.
Qed.

(** X8. addPointInTimeEventsLayersToTable changes no object that existed
    before the call, whatever its outcome: the caller's datatable keeps its
    columns and rows, all writes go to the copy. *)
Theorem event_binning_frame ty fuel (d : loc) dimensions visLayers (h : heap) (l0 : loc) :
  is_Some (h !! l0) →
  (addPointInTimeEventsLayersToTable ty fuel d dimensions visLayers h).2 !! l0 = h !! l0.
Proof.
  intros Hl0. unfold addPointInTimeEventsLayersToTable. rewrite bind_run.
  pose proof (addMissingRowsToTableBounds_frame fuel d dimensions h l0 Hl0) as Hframe.
  pose proof (addMissingRowsToTableBounds_returns_fresh fuel d dimensions h) as Hfresh.
  destruct (addMissingRowsToTableBounds fuel d dimensions h) as [[l|e| |] h1];
    cbn [fst snd] in *; [|done..].
  rewrite <- Hframe.
  match goal with |- (?m _).2 !! _ = _ => assert (touchesOnly l m) as Ht end.
  { repeat match goal with
    | |- touchesOnly _ (if ?b then _ else _) => destruct b
    | |- touchesOnly _ (_ ≫= _) => apply touchesOnly_bind; [|intros ?]
    end; auto using touchesOnly_visLayerCallback, touchesOnly_every with touches. }
  apply Ht. intros ->. rewrite (Hfresh _ eq_refl), fresh_loc_unused in Hl0.
  by destruct Hl0.
Qed.

Lemma event_binning_frame_witness :
  (addPointInTimeEventsLayersToTable "vis_layer" 3 0%nat
     (mkDimensions "timestamp" 10 0 20) [detectorLayer; monitorLayer]
     {[0%nat := threeRows]}).2 !! 0%nat = Some threeRows.
Proof.
  rewrite (event_binning_frame "vis_layer" 3 0%nat (mkDimensions "timestamp" 10 0 20)
             [detectorLayer; monitorLayer] {[0%nat := threeRows]} 0%nat);
    [reflexivity|by eexists].
Defined.

(** X9. Without layers addPointInTimeEventsLayersToTable is
    addMissingRowsToTableBounds: the same outcome and the same heap, for
    every input and every fuel. *)
Theorem event_binning_without_layers ty fuel (d : loc) dimensions (h : heap) :
  addPointInTimeEventsLayersToTable ty fuel d dimensions [] h =
  addMissingRowsToTableBounds fuel d dimensions h.
Proof.
  unfold addPointInTimeEventsLayersToTable. rewrite bind_run.
  destruct (h !! d) as [t|] eqn:Hd.
  - destruct (getXAxisId dimensions (columns t)) as [x|e| |] eqn:Hx.
    + destruct (addMissingRowsToTableBounds_shape fuel d dimensions t h x Hd Hx)
        as (pre & post & Hlook & _ & Hfin).
      destruct (addMissingRowsToTableBounds fuel d dimensions h) as [[l|e| |] h1];
        cbn [fst snd] in *; [|done..].
      destruct Hfin as [[= ->]|]; [|done].
      rewrite (bind_returns _ _ _ _ _ (getColumns_run _ _ h1 Hlook)).
      cbn [columns]. rewrite Hx. reflexivity.
    + by rewrite (addMissingRowsToTableBounds_throws fuel d dimensions t h e Hd Hx).
    + unfold getXAxisId in Hx. by destruct (filter _ _).
    + unfold getXAxisId in Hx. by destruct (filter _ _).
  - unfold addMissingRowsToTableBounds, cloneDeep, getColumns, readTable.
    rewrite !bind_run, Hd. by rewrite !bind_run, Hd.
Qed.

(** X10. On a table of two or more rows, whatever its axis keys are,
    binning handles every layer and loses no event, provided the ids of the
    layers are plain keys: a descriptor is appended for each layer, the
    number of rows is unchanged, the sum of every column grows by the
    number of events of the layers that use it, and a column that is not
    the id of a layer has the same value, or none, in every row as
    before. *)
Theorem event_binning_two_or_more_rows ty fuel (d : loc) dimensions visLayers
    (h h1 : heap) l t1 x :
  addMissingRowsToTableBounds fuel d dimensions h = (Returns l, h1) →
  h1 !! l = Some t1 →
  getXAxisId dimensions (columns t1) = Returns x →
  (2 ≤ length (rows t1))%nat →
  (length (rows t1) ≤ fuel)%nat →
  Forall (λ v, plainKey (pluginResource_id v)) visLayers →
  ∃ t2,
    addPointInTimeEventsLayersToTable ty fuel d dimensions visLayers h =
      (Returns l, <[l := t2]> h1) ∧
    columns t2 = columns t1 ++ (layerColumn ty <$> visLayers) ∧
    length (rows t2) = length (rows t1) ∧
    (∀ key, columnSum key (rows t2) =
            columnSum key (rows t1) + eventsWithId key visLayers) ∧
    (∀ key, Forall (λ v, key ≠ pluginResource_id v) visLayers →
            (.!! key) <$> rows t2 = (.!! key) <$> rows t1).
Proof.
  intros Hext Hl Hx Hlen Hfuel Hplain.
  destruct (every_visLayerCallback_increments ty l x fuel visLayers t1 h1 Hplain Hl Hlen
              Hfuel) as (rs' & Hevery & Hlen' & Hsum & Hother).
  exists (mkTable (columns t1 ++ (layerColumn ty <$> visLayers)) rs').
  split_and!; [|done..].
  by apply (addPointInTimeEventsLayersToTable_phases ty fuel d dimensions visLayers
              h h1 _ l t1 x true).
Qed.

Lemma event_binning_two_or_more_rows_witness :
  ∃ t2,
    addPointInTimeEventsLayersToTable "vis_layer" 3 0%nat
      (mkDimensions "timestamp" 10 0 20) [detectorLayer; monitorLayer]
      {[0%nat := threeRows]} =
      (Returns 1%nat, <[1%nat := t2]> (<[1%nat := threeRows]> {[0%nat := threeRows]})) ∧
    columnSum "monitor" (rows t2) = 1 ∧
    (.!! "col-1") <$> rows t2 = [Some 7; Some 8; Some 9].
Proof.
  destruct (event_binning_two_or_more_rows "vis_layer" 3 0%nat
              (mkDimensions "timestamp" 10 0 20) [detectorLayer; monitorLayer]
              {[0%nat := threeRows]} (<[1%nat := threeRows]> {[0%nat := threeRows]})
              1%nat threeRows "col-0")
    as (t2 & Hrun & _ & _ & Hsum & Hother);
    [by vm_compute|reflexivity|reflexivity|simpl; lia|simpl; lia|repeat constructor|].
  exists t2. split_and!; [exact Hrun|by rewrite Hsum|].
  rewrite Hother; [reflexivity|]. repeat constructor; discriminate.
Defined.

(** Bounds extension followed by binning, from the input alone. *)
Lemma addPointInTimeEventsLayersToTable_pipeline ty fuel (d : loc) dimensions visLayers t (h : heap) x ks :
  h !! d = Some t →
  getXAxisId dimensions (columns t) = Returns x →
  0 < x_params_interval dimensions →
  hasKeys x (rows t) ks →
  nondecreasing ks →
  (2 ≤ length (extendedKeys dimensions ks))%nat →
  (length (extendedKeys dimensions ks) ≤ fuel)%nat →
  Forall (λ v, x ≠ pluginResource_id v) visLayers →
  Forall (λ v, plainKey (pluginResource_id v)) visLayers →
  ∃ targetss : list (list nat),
    addPointInTimeEventsLayersToTable ty fuel d dimensions visLayers h =
      (Returns (fresh (dom h)),
       <[fresh (dom h) :=
           mkTable (columns t ++ (layerColumn ty <$> visLayers))
             (foldl binLayer (extendedRows x dimensions (rows t))
                (zip visLayers targetss))]> h) ∧
    Forall2 (nearestTargets (extendedKeys dimensions ks)) visLayers targetss.
Proof.
  intros Hd Hx Hi Hks Hsorted Hlen Hfuel Hne Hplain.
  pose proof (extendedKeys_length x dimensions (rows t) ks Hks) as Hlen'.
  assert (addMissingRowsToTableBounds fuel d dimensions h =
            (Returns (fresh (dom h)),
             <[fresh (dom h) := mkTable (columns t) (extendedRows x dimensions (rows t))]> h))
    as Hext.
  { apply addMissingRowsToTableBounds_run; [done..|]. unfold iterations. lia. }
  set (l := fresh (dom h)) in *.
  set (t1 := mkTable (columns t) (extendedRows x dimensions (rows t))) in *.
  destruct (every_visLayerCallback_rows ty fuel l x (extendedKeys dimensions ks)
              (nondecreasing_extendedKeys dimensions ks Hi Hsorted) Hlen Hfuel
              visLayers t1 (<[l := t1]> h))
    as (targetss & Hevery & Hnear);
    [apply lookup_insert_eq|by apply hasKeys_extendedRows|done|done|].
  exists targetss. split; [|done].
  rewrite insert_insert_eq in Hevery.
  apply (addPointInTimeEventsLayersToTable_phases ty fuel d dimensions visLayers
           h (<[l := t1]> h) _ l t1 x true); [done|apply lookup_insert_eq|done|done].
Qed.

Lemma hasKeys_foldl_binLayer x ks visLayers :
  Forall (λ v, x ≠ pluginResource_id v) visLayers →
  ∀ targetss rs,
    hasKeys x rs ks → hasKeys x (foldl binLayer rs (zip visLayers targetss)) ks.
Proof.
  induction 1 as [|v vs Hv _ IH]; intros targetss rs Hks; [done|].
  destruct targetss as [|targets targetss]; [done|].
  cbn [zip zip_with foldl]. apply IH. unfold binLayer. cbn [fst snd].
  by apply hasKeys_foldl_bump.
Qed.

(** X11. The axis keys of the input decide where every event is counted.
    When every input row carries the axis key, the keys are non-decreasing,
    the interval is positive, the extended table has two or more rows and
    the ids of the layers are plain keys other than the axis column's id,
    the call returns a fresh copy whose rows are the extended rows with one
    increment of the layer's field per event, at a row whose key is nearest
    to the event's timestamp among the keys of the extended rows; the
    returned rows carry the keys of the extended rows. *)
Theorem event_binning_end_to_end ty fuel (d : loc) dimensions visLayers t (h : heap) x ks :
  h !! d = Some t →
  getXAxisId dimensions (columns t) = Returns x →
  0 < x_params_interval dimensions →
  hasKeys x (rows t) ks →
  nondecreasing ks →
  (2 ≤ length (extendedKeys dimensions ks))%nat →
  (length (extendedKeys dimensions ks) ≤ fuel)%nat →
  Forall (λ v, x ≠ pluginResource_id v) visLayers →
  Forall (λ v, plainKey (pluginResource_id v)) visLayers →
  ∃ (targetss : list (list nat)) rs',
    addPointInTimeEventsLayersToTable ty fuel d dimensions visLayers h =
      (Returns (fresh (dom h)),
       <[fresh (dom h) :=
           mkTable (columns t ++ (layerColumn ty <$> visLayers)) rs']> h) ∧
    h !! fresh (dom h) = None ∧
    rs' = foldl binLayer (extendedRows x dimensions (rows t)) (zip visLayers targetss) ∧
    hasKeys x rs' (extendedKeys dimensions ks) ∧
    Forall2 (nearestTargets (extendedKeys dimensions ks)) visLayers targetss.
Proof.
  intros Hd Hx Hi Hks Hsorted Hlen Hfuel Hne Hplain.
  destruct (addPointInTimeEventsLayersToTable_pipeline ty fuel d dimensions visLayers
              t h x ks Hd Hx Hi Hks Hsorted Hlen Hfuel Hne Hplain)
    as (targetss & Hrun & Hnear).
  exists targetss, (foldl binLayer (extendedRows x dimensions (rows t))
                      (zip visLayers targetss)).
  split_and!; [done|apply fresh_loc_unused|done| |done].
  apply hasKeys_foldl_binLayer; [done|]. by apply hasKeys_extendedRows.
Qed.

Lemma event_binning_end_to_end_witness :
  ∃ (targetss : list (list nat)) rs',
    addPointInTimeEventsLayersToTable "vis_layer" 5 0%nat
      (mkDimensions "timestamp" 10 5 55) [detectorLayer] {[0%nat := sparseTable]} =
      (Returns 1%nat,
       <[1%nat := mkTable (columns sparseTable ++ [layerColumn "vis_layer" detectorLayer])
                    rs']> {[0%nat := sparseTable]}) ∧
    hasKeys "col-0" rs' [0; 10; 20; 50; 60] ∧
    Forall2 (nearestTargets [0; 10; 20; 50; 60]) [detectorLayer] targetss.
Proof.
  destruct (event_binning_end_to_end "vis_layer" 5 0%nat (mkDimensions "timestamp" 10 5 55)
              [detectorLayer] sparseTable {[0%nat := sparseTable]} "col-0" [20; 50])
    as (targetss & rs' & Hrun & _ & _ & Hks & Hnear).
  - reflexivity.
  - reflexivity.
  - reflexivity.
  - reflexivity.
  - intros [|[|i]] [|[|j]] a b Hij Ha Hb; simplify_eq/=; lia.
  - vm_compute. lia.
  - vm_compute. lia.
  - repeat constructor. discriminate.
  - repeat constructor.
  - by exists targetss, rs'.
Defined.

(** ** Order of the events, and layers without events *)

Lemma sortAscending_Permutation (l l' : list Z) :
  l ≡ₚ l' → sortAscending l = sortAscending l'.
Proof.
  intros Hperm. unfold sortAscending.
  apply (StronglySorted_unique Z.le); [apply StronglySorted_merge_sort; apply _..|].
  by rewrite !merge_sort_Permutation.
Qed.

Lemma visLayerCallback_sameEvents ty fuel l x v v' (h : heap) :
  sameEvents v v' →
  visLayerCallback ty fuel l x v h = visLayerCallback ty fuel l x v' h.
Proof.
  intros (Hid & Hname & Hev). unfold visLayerCallback.
  rewrite Hid, Hname, (Permutation_length Hev).
  rewrite (sortAscending_Permutation (timestamp <$> events v) (timestamp <$> events v'))
    by (by apply fmap_Permutation).
  reflexivity.
Qed.

Lemma every_sameEvents ty fuel l x vs vs' :
  Forall2 sameEvents vs vs' →
  ∀ h : heap, every (visLayerCallback ty fuel l x) vs h =
              every (visLayerCallback ty fuel l x) vs' h.
Proof.
  induction 1 as [|v v' vs vs' Hv _ IH]; intros h; [done|].
  simpl. rewrite !bind_run, (visLayerCallback_sameEvents ty fuel l x v v' h Hv).
  destruct (visLayerCallback ty fuel l x v' h) as [[[]|e| |] h']; auto.
Qed.

(** X12. The order in which a layer lists its events does not matter:
    layers that agree in id and name and hold the same events, in whatever
    order, give the same outcome and the same tables, on every input and
    for every fuel. *)
Theorem event_order_is_irrelevant ty fuel (d : loc) dimensions visLayers visLayers'
    (h : heap) :
  Forall2 sameEvents visLayers visLayers' →
  addPointInTimeEventsLayersToTable ty fuel d dimensions visLayers h =
  addPointInTimeEventsLayersToTable ty fuel d dimensions visLayers' h.
Proof.
  intros Hsame. unfold addPointInTimeEventsLayersToTable. rewrite !bind_run.
  destruct (addMissingRowsToTableBounds fuel d dimensions h) as [[l|e| |] h1]; [|done..].
  rewrite !bind_run. destruct (getColumns l h1) as [[cols|e| |] h2]; [|done..].
  rewrite !bind_run. destruct (lift (getXAxisId dimensions cols) h2) as [[x|e| |] h3]; [|done..].
  pose proof (every_sameEvents ty fuel l x visLayers visLayers' Hsame h3) as Hevery.
  destruct Hsame as [|v v' vs vs' Hv Hvs]; [done|]. cbn [isEmpty negb].
  rewrite !bind_run. by rewrite Hevery.
Qed.

Lemma event_order_is_irrelevant_witness :
  addPointInTimeEventsLayersToTable "vis_layer" 3 0%nat
    (mkDimensions "timestamp" 10 0 20)
    [mkLayer "detector" "Detector" [mkEvent 14; mkEvent 15; mkEvent 2]]
    {[0%nat := threeRows]} =
  addPointInTimeEventsLayersToTable "vis_layer" 3 0%nat
    (mkDimensions "timestamp" 10 0 20)
    [mkLayer "detector" "Detector" [mkEvent 2; mkEvent 15; mkEvent 14]]
    {[0%nat := threeRows]}.
Proof.
  apply (event_order_is_irrelevant "vis_layer" 3 0%nat (mkDimensions "timestamp" 10 0 20)
           [mkLayer "detector" "Detector" [mkEvent 14; mkEvent 15; mkEvent 2]]
           [mkLayer "detector" "Detector" [mkEvent 2; mkEvent 15; mkEvent 14]]).
  repeat constructor. simpl.
  apply (Permutation_trans (l' := [mkEvent 2; mkEvent 14; mkEvent 15])).
  - symmetry. apply (Permutation_cons_append [mkEvent 14; mkEvent 15] (mkEvent 2)).
  - apply perm_skip, perm_swap.
Defined.

Lemma visLayerCallback_no_events ty fuel l x v t0 (h : heap) :
  h !! l = Some t0 →
  (2 ≤ length (rows t0))%nat →
  events v = [] →
  visLayerCallback ty fuel l x v h =
    (Returns true, <[l := mkTable (columns t0 ++ [layerColumn ty v]) (rows t0)]> h).
Proof.
  intros Hl Hlen Hev. unfold visLayerCallback.
  rewrite (bind_returns _ _ _ _ _ (pushColumn_run l t0 h Hl _)).
  rewrite (bind_returns _ _ _ _ _ (getRows_run l _ _ (lookup_insert_eq _ _ _))).
  cbn [rows]. destruct (rows t0) as [|r0 [|r1 rs]] eqn:Hrows; [simpl in *; lia..|].
  cbn [length Nat.eqb]. rewrite Hev. reflexivity.
Qed.

(** X13. Layers without events leave the rows of a table of two or more
    rows as they are: each layer gets its column descriptor, no field is
    written to any row, and no fuel is used. *)
Theorem layers_without_events ty fuel (d : loc) dimensions visLayers
    (h h1 : heap) l t1 x :
  addMissingRowsToTableBounds fuel d dimensions h = (Returns l, h1) →
  h1 !! l = Some t1 →
  getXAxisId dimensions (columns t1) = Returns x →
  (2 ≤ length (rows t1))%nat →
  Forall (λ v, events v = []) visLayers →
  addPointInTimeEventsLayersToTable ty fuel d dimensions visLayers h =
    (Returns l, <[l := mkTable (columns t1 ++ (layerColumn ty <$> visLayers)) (rows t1)]> h1).
Proof.
  intros Hext Hl Hx Hlen Hev.
  apply (addPointInTimeEventsLayersToTable_phases ty fuel d dimensions visLayers
           h h1 _ l t1 x true); [done..|].
  clear Hext Hx. revert t1 h1 Hl Hlen.
  induction Hev as [|v vs Hv _ IH]; intros t1 h1 Hl Hlen.
  - simpl. by rewrite app_nil_r, table_eta, insert_id.
  - rewrite (every_continues _ _ _ _ _
               (visLayerCallback_no_events ty fuel l x v t1 h1 Hl Hlen Hv)).
    rewrite (IH (mkTable (columns t1 ++ [layerColumn ty v]) (rows t1)))
      by (done || apply lookup_insert_eq).
    cbn [rows columns fmap list_fmap]. by rewrite insert_insert_eq, <- app_assoc.
Qed.

Lemma layers_without_events_witness :
  addPointInTimeEventsLayersToTable "vis_layer" 0 0%nat
    (mkDimensions "timestamp" 10 0 20) [mkLayer "detector" "Detector" []]
    {[0%nat := threeRows]} =
  (Returns 1%nat,
   <[1%nat := mkTable (columns threeRows ++ [mkColumn "detector" "Detector" (Some "vis_layer")])
                (rows threeRows)]> (<[1%nat := threeRows]> {[0%nat := threeRows]})).
Proof.
  apply (layers_without_events "vis_layer" 0 0%nat (mkDimensions "timestamp" 10 0 20)
           [mkLayer "detector" "Detector" []] {[0%nat := threeRows]}
           (<[1%nat := threeRows]> {[0%nat := threeRows]}) 1%nat threeRows "col-0").
  - by vm_compute.
  - reflexivity.
  - reflexivity.
  - simpl. lia.
  - repeat constructor.
Defined.

(** ** addPointInTimeEventsLayersToSpec *)

Lemma enableEventsInConfig_returns_iff config :
  (∃ enabled, enableEventsInConfig config = Returns enabled) ↔
  (∃ c, config = Some c ∧ c ≠ JNull).
Proof.
  split.
  - intros [enabled Hen]. destruct config as [c|]; [|done].
    exists c. split; [done|]. by intros ->.
  - intros (c & -> & Hc). destruct c; by eauto.
Qed.

Lemma bind_lift {A B} (o : outcome A) (f : A → M B) (h : heap) :
  (lift o ≫= f) h =
  match o with
  | Returns a => f a h
  | Throws e => (Throws e, h)
  | OutOfFuel => (OutOfFuel, h)
  | Unrepresentable => (Unrepresentable, h)
  end.
Proof. by destruct o. Qed.

Lemma hideXAxis_finishes dataSeries : hideXAxis dataSeries ≠ OutOfFuel.
Proof. unfold hideXAxis. by repeat case_match. Qed.

Lemma forEach_finishes layer : forEach hideXAxis layer ≠ OutOfFuel.
Proof.
  induction layer as [|dataSeries layer IH]; [done|]. simpl.
  pose proof (hideXAxis_finishes dataSeries).
  destruct (hideXAxis dataSeries); [|done..|];
    by destruct (forEach hideXAxis layer).
Qed.

Lemma forEach_throws_iff layer :
  forEach hideXAxis layer = Throws TypeError ↔
  Exists (λ dataSeries, hideXAxis dataSeries = Throws TypeError) layer.
Proof.
  induction layer as [|dataSeries layer IH]; simpl.
  - split; [done|by inversion 1].
  - rewrite Exists_cons, <- IH. pose proof (hideXAxis_finishes dataSeries).
    destruct (hideXAxis dataSeries) as [dataSeries'|[]| |] eqn:Hs; [| |done|];
      destruct (forEach hideXAxis layer) as [rest|[]| |]; intuition congruence.
Qed.

Lemma forEach_Forall2 layer : ∀ hidden,
  forEach hideXAxis layer = Returns hidden ↔
  Forall2 (λ dataSeries dataSeries', hideXAxis dataSeries = Returns dataSeries')
    layer hidden.
Proof.
  induction layer as [|dataSeries layer IH]; intros hidden; simpl.
  - split; [by intros [= <-]|by inversion 1].
  - split.
    + intros Hret. destruct (hideXAxis dataSeries) as [dataSeries'| | |] eqn:Hs;
        [|try done; by destruct (forEach hideXAxis layer)..].
      destruct (forEach hideXAxis layer) as [rest| | |] eqn:Hrest; [|done..].
      injection Hret as <-. constructor; [done|]. by apply IH.
    + inversion 1 as [|? dataSeries' ? rest Hs Hrest]; subst.
      apply IH in Hrest. by rewrite Hs, Hrest.
Qed.

Lemma forEach_returns_iff layer :
  (∃ hidden, forEach hideXAxis layer = Returns hidden) ↔ Forall hides layer.
Proof.
  induction layer as [|dataSeries layer IH]; simpl.
  - split; [done|by eexists].
  - split.
    + intros [hidden Hret].
      destruct (hideXAxis dataSeries) as [dataSeries'| | |] eqn:Hs;
        [|try done; by destruct (forEach hideXAxis layer)..].
      destruct (forEach hideXAxis layer) as [rest| | |] eqn:Hrest; [|done..].
      constructor; [by eexists|]. apply IH. by eexists.
    + intros Hall. apply Forall_cons_1 in Hall as [[dataSeries' Hs] Hrest].
      apply IH in Hrest as [rest Hrest]. rewrite Hs, Hrest. by eexists.
Qed.

(** Every way the call can go.  It throws a TypeError unless the config,
    the axis column, a row and the layer array are there and the [forEach]
    body throws for no series.  Then it returns the augmented
    specification when the body returns for every series, and has no
    representable result when the body has none for some series.  The heap
    is never written. *)
Lemma addPointInTimeEventsLayersToSpec_cases ty color convert (d : loc) dimensions
    spec (h : heap) :
  ∃ o,
    addPointInTimeEventsLayersToSpec ty color convert d dimensions spec h = (o, h) ∧
    ((o = Throws TypeError ∧
      ¬ (∃ t config x first layer,
           h !! d = Some t ∧
           enableEventsInConfig (lookupField "config" spec) = Returns config ∧
           getXAxisId dimensions (columns t) = Returns x ∧
           rows t !! 0%nat = Some first ∧
           lookupField "layer" spec = Some (JArr layer) ∧
           forEach hideXAxis layer ≠ Throws TypeError)) ∨
     (o = Unrepresentable ∧
      ∃ t config x first layer,
        h !! d = Some t ∧
        enableEventsInConfig (lookupField "config" spec) = Returns config ∧
        getXAxisId dimensions (columns t) = Returns x ∧
        rows t !! 0%nat = Some first ∧
        lookupField "layer" spec = Some (JArr layer) ∧
        forEach hideXAxis layer = Unrepresentable) ∨
     (∃ t config x first final layer hidden rule timeline,
        h !! d = Some t ∧
        enableEventsInConfig (lookupField "config" spec) = Returns config ∧
        getXAxisId dimensions (columns t) = Returns x ∧
        rows t !! 0%nat = Some first ∧
        last (rows t) = Some final ∧
        lookupField "layer" spec = Some (JArr layer) ∧
        forEach hideXAxis layer = Returns hidden ∧
        o = Returns (JObj (deleteField "layer"
                     (setField "vconcat"
                        (JArr [JObj [("layer", JArr (hidden ++ [rule]))]; timeline])
                        (setField "config" config spec)))) ∧
        prop "transform" rule =
          Some (JArr [JObj [("filter",
                  JStr (generateVisLayerFilterString
                          (column_id <$> filter (λ column, isVisLayerColumn ty column)
                                           (columns t))))]]) ∧
        prop "transform" timeline = prop "transform" rule ∧
        getPath ["encoding"; "x"; "field"] (Some rule) = Some (JStr x) ∧
        getPath ["encoding"; "x"; "field"] (Some timeline) = Some (JStr x) ∧
        getPath ["encoding"; "x"; "axis"; "title"] (Some timeline) =
          Some (JStr (removeDoubleQuotes (x_label dimensions))) ∧
        getPath ["encoding"; "x"; "scale"; "domain"] (Some timeline) =
          Some (JArr [convert (readProperty first x); convert (readProperty final x)]))).
Proof.
  unfold addPointInTimeEventsLayersToSpec. rewrite bind_lift.
  destruct (enableEventsInConfig (lookupField "config" spec)) as [config|[]| |] eqn:Hc.
  2: { eexists. split; [reflexivity|left]. split; [done|].
       intros (? & ? & ? & ? & ? & ? & ? & ? & ? & ? & ?); simplify_eq; congruence. }
  2, 3: unfold enableEventsInConfig in Hc; by repeat case_match.
  destruct (h !! d) as [t|] eqn:Hd.
  2: { unfold getColumns, readTable. rewrite !bind_run, Hd.
       eexists. split; [reflexivity|left]. split; [done|].
       intros (? & ? & ? & ? & ? & ? & ? & ? & ? & ? & ?); simplify_eq; congruence. }
  rewrite (bind_returns _ _ _ _ _ (getColumns_run d t h Hd)), bind_lift.
  destruct (getXAxisId dimensions (columns t)) as [x|[]| |] eqn:Hx.
  2: { eexists. split; [reflexivity|left]. split; [done|].
       intros (? & ? & ? & ? & ? & ? & ? & ? & ? & ? & ?); simplify_eq; congruence. }
  2, 3: unfold getXAxisId in Hx; by destruct (filter _ _).
  rewrite (bind_returns _ _ _ _ _ (getRows_run d t h Hd)).
  destruct (rows t !! 0%nat) as [first|] eqn:H0.
  2: { assert (getRow d 0 h = (Throws TypeError, h)) as Hrow.
       { unfold getRow. by rewrite (bind_returns _ _ _ _ _ (getRows_run d t h Hd)), H0. }
       rewrite (bind_throws _ _ _ _ _ Hrow).
       eexists. split; [reflexivity|left]. split; [done|].
       intros (? & ? & ? & ? & ? & ? & ? & ? & ? & ? & ?); simplify_eq; congruence. }
  rewrite (bind_returns _ _ _ _ _ (getRow_run d t h Hd _ _ H0)).
  assert (∃ final, last (rows t) = Some final) as [final Hlast].
  { destruct (last (rows t)) eqn:E; [by eexists|].
    apply last_None in E. by rewrite E in H0. }
  assert (rows t !! (length (rows t) - 1)%nat = Some final) as Hfinal.
  { rewrite <- Hlast, last_lookup. f_equal. lia. }
  rewrite (bind_returns _ _ _ _ _ (getRow_run d t h Hd _ _ Hfinal)).
  rewrite (lookupField_setField_ne "config" "layer") by done.
  destruct (lookupField "layer" spec) as [layer|] eqn:Hlayer.
  2: { eexists. split; [reflexivity|left]. split; [done|].
       intros (? & ? & ? & ? & ? & ? & ? & ? & ? & ? & ?); simplify_eq; congruence. }
  destruct layer as [| | | |layer|];
    try (eexists; split; [reflexivity|left]; split; [done|];
         intros (? & ? & ? & ? & ? & ? & ? & ? & ? & ? & ?); simplify_eq; congruence).
  rewrite bind_lift. pose proof (forEach_finishes layer) as Hfinishes.
  destruct (forEach hideXAxis layer) as [hidden|[]| |] eqn:Hhidden; [| |done|].
  - eexists. split; [reflexivity|right; right].
    eexists t, config, x, first, final, layer, hidden, _, _.
    split_and!; try done; reflexivity.
  - eexists. split; [reflexivity|left]. split; [done|].
    intros (? & ? & ? & ? & ? & ? & ? & ? & ? & ? & ?); simplify_eq; congruence.
  - eexists. split; [reflexivity|right; left]. split; [done|].
    by exists t, config, x, first, layer.
Qed.

Lemma forEach_goes_on_iff layer :
  forEach hideXAxis layer ≠ Throws TypeError ↔
  Forall (λ dataSeries, hideXAxis dataSeries ≠ Throws TypeError) layer.
Proof.
  rewrite forEach_throws_iff. induction layer as [|dataSeries layer IH].
  - split; [done|by inversion 2].
  - rewrite Exists_cons, Forall_cons. intuition.
Qed.

(** X14. addPointInTimeEventsLayersToSpec only reads the datatable and
    needs no fuel.  It goes on to its end, and does not throw, exactly when
    the specification has a config that is not null and a layer array with
    no series for which the [forEach] body throws, the datatable has a
    column named by the x label, and the datatable has a row.  What it
    returns is a specification of the model exactly when, moreover, the
    [forEach] body returns for every series, that is, gives no array a
    named property. *)
Theorem spec_augmentation_returns_iff ty color convert (d : loc) dimensions spec t
    (h : heap) :
  h !! d = Some t →
  (addPointInTimeEventsLayersToSpec ty color convert d dimensions spec h).2 = h ∧
  (addPointInTimeEventsLayersToSpec ty color convert d dimensions spec h).1 ≠ OutOfFuel ∧
  ((addPointInTimeEventsLayersToSpec ty color convert d dimensions spec h).1 ≠
     Throws TypeError ↔
   (∃ c, lookupField "config" spec = Some c ∧ c ≠ JNull) ∧
   (∃ layer, lookupField "layer" spec = Some (JArr layer) ∧
             Forall (λ dataSeries, hideXAxis dataSeries ≠ Throws TypeError) layer) ∧
   (∃ x, getXAxisId dimensions (columns t) = Returns x) ∧
   rows t ≠ []) ∧
  ((∃ newSpec,
      (addPointInTimeEventsLayersToSpec ty color convert d dimensions spec h).1 =
        Returns newSpec) ↔
   (∃ c, lookupField "config" spec = Some c ∧ c ≠ JNull) ∧
   (∃ layer, lookupField "layer" spec = Some (JArr layer) ∧ Forall hides layer) ∧
   (∃ x, getXAxisId dimensions (columns t) = Returns x) ∧
   rows t ≠ []).
Proof.
  intros Hd.
  destruct (addPointInTimeEventsLayersToSpec_cases ty color convert d dimensions spec h)
    as (o & -> & [[-> Hnot]|[[-> Hun]|Hret]]); cbn [fst snd].
  - split_and!; [done|done| |].
    + split; [done|].
      intros (Hconfig & (layer & Hlayer & Hgoes) & [x Hx] & Hrows).
      destruct Hnot.
      apply enableEventsInConfig_returns_iff in Hconfig as [config Hconfig].
      apply forEach_goes_on_iff in Hgoes.
      destruct (rows t) as [|first rs] eqn:Hrs; [done|].
      exists t, config, x, first, layer. by rewrite Hrs.
    + split; [by intros [newSpec Hret]|].
      intros (Hconfig & (layer & Hlayer & Hhides) & [x Hx] & Hrows).
      destruct Hnot.
      apply enableEventsInConfig_returns_iff in Hconfig as [config Hconfig].
      apply forEach_returns_iff in Hhides as [hidden Hhidden].
      destruct (rows t) as [|first rs] eqn:Hrs; [done|].
      exists t, config, x, first, layer. rewrite Hrs, Hhidden. by split_and!.
  - destruct Hun as (t' & config & x & first & layer & Hd' & Hconfig & Hx & H0 &
                     Hlayer & Hun).
    simplify_eq. split_and!; [done|done| |].
    + split; [|done]. intros _. split_and!.
      * apply enableEventsInConfig_returns_iff. by eauto.
      * exists layer. split; [done|]. apply forEach_goes_on_iff. by rewrite Hun.
      * by eauto.
      * intros Hrs. by rewrite Hrs in H0.
    + split; [by intros [newSpec Hret]|].
      intros (_ & (layer' & Hlayer' & Hhides) & _). simplify_eq.
      apply forEach_returns_iff in Hhides as [hidden Hhidden]. congruence.
  - destruct Hret as (t' & config & x & first & final & layer & hidden & rule &
                      timeline & Hd' & Hconfig & Hx & H0 & Hlast & Hlayer &
                      Hhidden & -> & _).
    simplify_eq. split_and!; [done|done| |].
    + split; [|done]. intros _. split_and!.
      * apply enableEventsInConfig_returns_iff. by eauto.
      * exists layer. split; [done|]. apply forEach_goes_on_iff. by rewrite Hhidden.
      * by eauto.
      * intros Hrs. by rewrite Hrs in H0.
    + split; [|by eauto]. intros _. split_and!.
      * apply enableEventsInConfig_returns_iff. by eauto.
      * exists layer. split; [done|]. apply forEach_returns_iff. by eauto.
      * by eauto.
      * intros Hrs. by rewrite Hrs in H0.
Qed.

Lemma spec_augmentation_returns_iff_witness :
  ∃ newSpec,
    (addPointInTimeEventsLayersToSpec "vis_layer" "red" (λ _, JNull) 0%nat
       (mkDimensions "timestamp" 10 0 20)
       [("layer", JArr [JObj [("mark", JStr "line")]]); ("config", JObj [])]
       {[0%nat := threeRows]}).1 = Returns newSpec.
Proof.
  destruct (spec_augmentation_returns_iff "vis_layer" "red" (λ _, JNull) 0%nat
              (mkDimensions "timestamp" 10 0 20)
              [("layer", JArr [JObj [("mark", JStr "line")]]); ("config", JObj [])]
              threeRows {[0%nat := threeRows]}) as (_ & _ & _ & Hiff); [reflexivity|].
  apply Hiff. split_and!.
  - by exists (JObj []).
  - eexists. split; [reflexivity|]. repeat constructor. by eexists.
  - by exists "col-0".
  - done.
Defined.

(** X15. What addPointInTimeEventsLayersToSpec returns.  The result has no
    [layer] property any more; its [vconcat] holds two charts, the first
    with the layers of the input in their order, each as the [forEach]
    body returned it, followed by one rule layer, the second the event
    timeline; its [config] is the input config with events enabled; all
    other properties of the input are kept.  Rule and timeline filter on
    the ids of the vis layer columns of the datatable and are drawn over
    its axis column. *)
Theorem spec_augmentation_result ty color convert (d : loc) dimensions spec (h : heap)
    newSpec :
  (addPointInTimeEventsLayersToSpec ty color convert d dimensions spec h).1 =
    Returns newSpec →
  ∃ t x fields layer hidden rule timeline config,
    h !! d = Some t ∧
    getXAxisId dimensions (columns t) = Returns x ∧
    newSpec = JObj fields ∧
    lookupField "layer" spec = Some (JArr layer) ∧
    Forall2 (λ dataSeries dataSeries', hideXAxis dataSeries = Returns dataSeries')
      layer hidden ∧
    lookupField "layer" fields = None ∧
    lookupField "vconcat" fields =
      Some (JArr [JObj [("layer", JArr (hidden ++ [rule]))]; timeline]) ∧
    enableEventsInConfig (lookupField "config" spec) = Returns config ∧
    lookupField "config" fields = Some config ∧
    (∀ key, key ≠ "layer" → key ≠ "vconcat" → key ≠ "config" →
            lookupField key fields = lookupField key spec) ∧
    prop "transform" rule =
      Some (JArr [JObj [("filter",
              JStr (generateVisLayerFilterString
                      (column_id <$> filter (λ column, isVisLayerColumn ty column)
                                       (columns t))))]]) ∧
    prop "transform" timeline = prop "transform" rule ∧
    getPath ["encoding"; "x"; "field"] (Some rule) = Some (JStr x) ∧
    getPath ["encoding"; "x"; "field"] (Some timeline) = Some (JStr x) ∧
    getPath ["encoding"; "x"; "axis"; "title"] (Some timeline) =
      Some (JStr (removeDoubleQuotes (x_label dimensions))).
Proof.
  intros Hnew.
  destruct (addPointInTimeEventsLayersToSpec_cases ty color convert d dimensions spec h)
    as (o & Hrun & [[-> _]|[[-> _]|Hret]]); rewrite Hrun in Hnew; cbn [fst] in Hnew;
    [done..|].
  destruct Hret as (t & config & x & first & final & layer & hidden & rule &
                    timeline & Hd & Hconfig & Hx & _ & _ & Hlayer & Hhidden & -> &
                    Hrule & Htime & Hfr & Hft & Htitle & _).
  injection Hnew as <-.
  eexists t, x, _, layer, hidden, rule, timeline, config.
  split_and!; try done.
  - by apply forEach_Forall2.
  - apply lookupField_deleteField_eq.
  - rewrite lookupField_deleteField_ne by done. apply lookupField_setField_eq.
  - rewrite lookupField_deleteField_ne, lookupField_setField_ne by done.
    apply lookupField_setField_eq.
  - intros key H1 H2 H3.
    by rewrite lookupField_deleteField_ne, !lookupField_setField_ne.
Qed.

Lemma spec_augmentation_result_witness :
  ∃ fields rule timeline,
    (addPointInTimeEventsLayersToSpec "vis_layer" "red" (λ _, JNull) 0%nat
       (mkDimensions "timestamp" 10 0 20)
       [("layer", JArr [JObj [("mark", JStr "line")]]); ("config", JObj []);
        ("title", JStr "Count")]
       {[0%nat := threeRows]}).1 = Returns (JObj fields) ∧
    lookupField "layer" fields = None ∧
    lookupField "vconcat" fields =
      Some (JArr [JObj [("layer", JArr [JObj [("mark", JStr "line")]; rule])]; timeline]) ∧
    lookupField "title" fields = Some (JStr "Count") ∧
    prop "transform" rule = Some (JArr [JObj [("filter", JStr "false")]]).
Proof.
  edestruct (spec_augmentation_result "vis_layer" "red" (λ _, JNull) 0%nat
               (mkDimensions "timestamp" 10 0 20)
               [("layer", JArr [JObj [("mark", JStr "line")]]); ("config", JObj []);
                ("title", JStr "Count")]
               {[0%nat := threeRows]})
    as (t & x & fields & layer & hidden & rule & timeline & config & Hd & _ & Hnew &
        Hlayer & Hhidden & Hnone & Hvconcat & _ & _ & Hother & Hrule & _);
    [by vm_compute|].
  exists fields, rule, timeline.
  injection Hd as <-. injection Hlayer as <-.
  inversion Hhidden as [|? dataSeries' ? rest Hs Hrest]; subst.
  inversion Hrest; subst. injection Hs as <-.
  split_and!; [by rewrite <- Hnew|done|done|by rewrite Hother|exact Hrule].
Defined.

(** X16. addPointInTimeEventsLayersToSpec cannot be applied to its own
    result: the result has no [layer] property, so a second call on it
    throws a TypeError, for every datatable and every dimensions. *)
Theorem spec_augmentation_not_repeatable ty color convert (d d' : loc)
    dimensions dimensions' spec (h h' : heap) fields :
  (addPointInTimeEventsLayersToSpec ty color convert d dimensions spec h).1 =
    Returns (JObj fields) →
  (addPointInTimeEventsLayersToSpec ty color convert d' dimensions' fields h').1 =
    Throws TypeError.
Proof.
  intros Hnew.
  destruct (addPointInTimeEventsLayersToSpec_cases ty color convert d dimensions spec h)
    as (o & Hrun & [[-> _]|[[-> _]|Hret]]); rewrite Hrun in Hnew; cbn [fst] in Hnew;
    [done..|].
  destruct Hret as (t & config & x & first & final & layer & hidden & rule &
                    timeline & _ & _ & _ & _ & _ & _ & _ & -> & _).
  injection Hnew as <-.
  destruct (addPointInTimeEventsLayersToSpec_cases ty color convert d' dimensions'
              (deleteField "layer"
                 (setField "vconcat"
                    (JArr [JObj [("layer", JArr (hidden ++ [rule]))]; timeline])
                    (setField "config" config spec))) h')
    as (o' & -> & [[-> _]|[[_ Hun]|Hret']]); [done| |].
  - destruct Hun as (? & ? & ? & ? & ? & _ & _ & _ & _ & Hlayer & _).
    by rewrite lookupField_deleteField_eq in Hlayer.
  - destruct Hret' as (? & ? & ? & ? & ? & ? & ? & ? & ? & _ & _ & _ & _ & _ & Hlayer & _).
    by rewrite lookupField_deleteField_eq in Hlayer.
Qed.

Lemma spec_augmentation_not_repeatable_witness :
  ∃ fields,
    (addPointInTimeEventsLayersToSpec "vis_layer" "red" (λ _, JNull) 0%nat
       (mkDimensions "timestamp" 10 0 20)
       [("layer", JArr []); ("config", JObj [])] {[0%nat := threeRows]}).1 =
      Returns (JObj fields) ∧
    (addPointInTimeEventsLayersToSpec "vis_layer" "red" (λ _, JNull) 0%nat
       (mkDimensions "timestamp" 10 0 20) fields {[0%nat := threeRows]}).1 =
      Throws TypeError.
Proof.
  eexists. split; [reflexivity|].
  eapply (spec_augmentation_not_repeatable "vis_layer" "red" (λ _, JNull) 0%nat 0%nat
            (mkDimensions "timestamp" 10 0 20) (mkDimensions "timestamp" 10 0 20)
            [("layer", JArr []); ("config", JObj [])]
            {[0%nat := threeRows]} {[0%nat := threeRows]}).
  reflexivity.
Defined.

(** ** From the binned table to the specification *)

Lemma filter_isVisLayerColumn_layerColumn ty cols visLayers :
  filter (λ column, isVisLayerColumn ty column) (cols ++ (layerColumn ty <$> visLayers)) =
  filter (λ column, isVisLayerColumn ty column) cols ++ (layerColumn ty <$> visLayers).
Proof.
  rewrite filter_app. f_equal.
  induction visLayers as [|v vs IH]; [done|].
  rewrite fmap_cons, filter_cons_True; [by f_equal|].
  unfold isVisLayerColumn. by apply bool_decide_pack.
Qed.

(** X17. The two helpers compose.  The table that
    addPointInTimeEventsLayersToTable returns for a table of two or more
    rows and layers with plain ids is accepted by
    addPointInTimeEventsLayersToSpec, for a specification with a config
    and a layer array for every series of which the [forEach] body
    returns: the axis column is still found behind the columns of the
    layers, each layer's column is recognised as a vis layer column, and
    rule and timeline filter on the ids of the earlier vis layer columns
    followed by the ids of the layers, in their order. *)
Theorem binned_table_feeds_the_specification ty color convert fuel (d : loc) dimensions
    visLayers spec layer (h h1 : heap) l t1 x :
  addMissingRowsToTableBounds fuel d dimensions h = (Returns l, h1) →
  h1 !! l = Some t1 →
  getXAxisId dimensions (columns t1) = Returns x →
  (2 ≤ length (rows t1))%nat →
  (length (rows t1) ≤ fuel)%nat →
  Forall (λ v, plainKey (pluginResource_id v)) visLayers →
  (∃ c, lookupField "config" spec = Some c ∧ c ≠ JNull) →
  lookupField "layer" spec = Some (JArr layer) →
  Forall hides layer →
  ∃ (h2 : heap) fields hidden rule timeline,
    addPointInTimeEventsLayersToTable ty fuel d dimensions visLayers h = (Returns l, h2) ∧
    addPointInTimeEventsLayersToSpec ty color convert l dimensions spec h2 =
      (Returns (JObj fields), h2) ∧
    Forall2 (λ dataSeries dataSeries', hideXAxis dataSeries = Returns dataSeries')
      layer hidden ∧
    lookupField "vconcat" fields =
      Some (JArr [JObj [("layer", JArr (hidden ++ [rule]))]; timeline]) ∧
    prop "transform" rule =
      Some (JArr [JObj [("filter",
              JStr (generateVisLayerFilterString
                      ((column_id <$> filter (λ column, isVisLayerColumn ty column)
                                        (columns t1)) ++
                       (pluginResource_id <$> visLayers))))]]) ∧
    prop "transform" timeline = prop "transform" rule ∧
    getPath ["encoding"; "x"; "field"] (Some rule) = Some (JStr x) ∧
    getPath ["encoding"; "x"; "field"] (Some timeline) = Some (JStr x).
Proof.
  intros Hext Hl Hx Hlen Hfuel Hplain Hconfig Hlayer Hhides.
  destruct (every_visLayerCallback_increments ty l x fuel visLayers t1 h1 Hplain Hl Hlen
              Hfuel) as (rs' & Hevery & Hlen' & _ & _).
  set (t2 := mkTable (columns t1 ++ (layerColumn ty <$> visLayers)) rs') in *.
  assert (getXAxisId dimensions (columns t2) = Returns x) as Hx2.
  { cbn [columns t2]. unfold getXAxisId in *. rewrite filter_app.
    by destruct (filter _ (columns t1)). }
  apply enableEventsInConfig_returns_iff in Hconfig as [config Hconfig].
  apply forEach_returns_iff in Hhides as [hidden Hhidden].
  destruct (addPointInTimeEventsLayersToSpec_cases ty color convert l dimensions spec
              (<[l := t2]> h1)) as (o & Hrun & [[_ Hnot]|[[_ Hun]|Hret]]).
  { destruct Hnot. destruct rs' as [|first rs'']; [simpl in *; lia|].
    exists t2, config, x, first, layer. rewrite lookup_insert_eq, Hhidden.
    by split_and!. }
  { destruct Hun as (? & ? & ? & ? & layer' & _ & _ & _ & _ & Hlayer' & Hun).
    congruence. }
  destruct Hret as (t & config' & x' & first & final & layer' & hidden' & rule &
                    timeline & Hd & Hconfig' & Hx' & _ & _ & Hlayer' & Hhidden' & -> &
                    Hrule & Htime & Hfr & Hft & _).
  rewrite lookup_insert_eq in Hd. injection Hd as <-.
  rewrite Hx2 in Hx'. injection Hx' as <-.
  rewrite Hlayer in Hlayer'. injection Hlayer' as <-.
  rewrite Hhidden in Hhidden'. injection Hhidden' as <-.
  eexists (<[l := t2]> h1), _, hidden, rule, timeline. split_and!.
  - by apply (addPointInTimeEventsLayersToTable_phases ty fuel d dimensions visLayers
                h h1 _ l t1 x true).
  - exact Hrun.
  - by apply forEach_Forall2.
  - rewrite lookupField_deleteField_ne by done. apply lookupField_setField_eq.
  - rewrite Hrule. cbn [columns t2].
    rewrite filter_isVisLayerColumn_layerColumn, fmap_app, <- list_fmap_compose.
    reflexivity.
  - done.
  - done.
  - done.
Qed.

Lemma binned_table_feeds_the_specification_witness :
  ∃ (h2 : heap) fields rule timeline,
    addPointInTimeEventsLayersToTable "vis_layer" 3 0%nat
      (mkDimensions "timestamp" 10 0 20) [detectorLayer; monitorLayer]
      {[0%nat := threeRows]} = (Returns 1%nat, h2) ∧
    addPointInTimeEventsLayersToSpec "vis_layer" "red" (λ _, JNull) 1%nat
      (mkDimensions "timestamp" 10 0 20)
      [("layer", JArr []); ("config", JObj [])] h2 = (Returns (JObj fields), h2) ∧
    lookupField "vconcat" fields = Some (JArr [JObj [("layer", JArr [rule])]; timeline]) ∧
    prop "transform" rule =
      Some (JArr [JObj [("filter",
                         JStr "datum['detector'] > 0 || datum['monitor'] > 0")]]).
Proof.
  destruct (binned_table_feeds_the_specification "vis_layer" "red" (λ _, JNull) 3 0%nat
              (mkDimensions "timestamp" 10 0 20) [detectorLayer; monitorLayer]
              [("layer", JArr []); ("config", JObj [])] []
              {[0%nat := threeRows]} (<[1%nat := threeRows]> {[0%nat := threeRows]})
              1%nat threeRows "col-0")
    as (h2 & fields & hidden & rule & timeline & Htable & Hspec & Hhidden & Hvconcat &
        Hrule & _).
  - by vm_compute.
  - reflexivity.
  - reflexivity.
  - simpl. lia.
  - simpl. lia.
  - repeat constructor.
  - by exists (JObj []).
  - reflexivity.
  - constructor.
  - inversion Hhidden; subst. by exists h2, fields, rule, timeline.
Defined.

(** ** hideXAxis *)

Lemma stringToPath_axis : stringToPath "encoding.x.axis" = ["encoding"; "x"; "axis"].
Proof. reflexivity. Qed.

Lemma hideXAxis_run fs es xs :
  isNull (lodash_get (JObj fs) "encoding.x.axis" JNull) = false →
  lookupField "encoding" fs = Some (JObj es) →
  lookupField "x" es = Some (JObj xs) →
  hideXAxis (JObj fs) =
    Returns
      (JObj (setField "encoding"
               (JObj (setField "x"
                        (JObj (setField "axis"
                                 (JObj (setField "title" JNull
                                          (setField "labels" (JBool false)
                                             (spread (lookupField "axis" xs)))))
                                 xs))
                        es))
               fs)).
Proof.
  intros Hnull He Hx. unfold hideXAxis. rewrite Hnull. cbn [negb prop].
  rewrite He. cbn [prop]. by rewrite Hx.
Qed.

Lemma hideXAxis_shape dataSeries dataSeries' :
  isNull (lodash_get dataSeries "encoding.x.axis" JNull) = false →
  hideXAxis dataSeries = Returns dataSeries' →
  ∃ fs es xs, dataSeries = JObj fs ∧ lookupField "encoding" fs = Some (JObj es) ∧
              lookupField "x" es = Some (JObj xs).
Proof.
  intros Hnull Hret. unfold hideXAxis in Hret. rewrite Hnull in Hret. cbn [negb] in Hret.
  destruct dataSeries as [| | | | |fs]; try discriminate. cbn [prop] in Hret.
  destruct (lookupField "encoding" fs) as [[| | | | |es]|] eqn:He; try discriminate.
  cbn [prop] in Hret.
  destruct (lookupField "x" es) as [[| | | | |xs]|] eqn:Hx; try discriminate.
  by exists fs, es, xs.
Qed.

(** X18. Hiding the x axis text of a data series is idempotent: when the
    [forEach] body returns for a series, it returns for the result too and
    leaves it as it is. *)
Theorem hideXAxis_idempotent (dataSeries dataSeries' : json) :
  hideXAxis dataSeries = Returns dataSeries' →
  hideXAxis dataSeries' = Returns dataSeries'.
Proof.
  intros Hret.
  destruct (isNull (lodash_get dataSeries "encoding.x.axis" JNull)) eqn:Hnull.
  { assert (dataSeries' = dataSeries) as ->.
    { unfold hideXAxis in Hret. rewrite Hnull in Hret. by simplify_eq/=. }
    unfold hideXAxis. by rewrite Hnull. }
  assert (∃ fs es xs, dataSeries = JObj fs ∧ lookupField "encoding" fs = Some (JObj es) ∧
                      lookupField "x" es = Some (JObj xs)) as (fs & es & xs & -> & He & Hx).
  { unfold hideXAxis in Hret. rewrite Hnull in Hret. cbn [negb] in Hret.
    destruct dataSeries as [| | | | |fs]; try discriminate. cbn [prop] in Hret.
    destruct (lookupField "encoding" fs) as [[| | | | |es]|] eqn:He; try discriminate.
    cbn [prop] in Hret.
    destruct (lookupField "x" es) as [[| | | | |xs]|] eqn:Hx; try discriminate.
    by exists fs, es, xs. }
  rewrite (hideXAxis_run fs es xs Hnull He Hx) in Hret. injection Hret as <-.
  erewrite hideXAxis_run;
    [|..|apply lookupField_setField_eq|apply lookupField_setField_eq].
  - rewrite !lookupField_setField_eq. cbn [spread].
    rewrite (setField_id "labels" (JBool false))
      by (rewrite lookupField_setField_ne by done; apply lookupField_setField_eq).
    rewrite (setField_id "title" JNull) by apply lookupField_setField_eq.
    rewrite (setField_id "axis") by apply lookupField_setField_eq.
    rewrite (setField_id "x") by apply lookupField_setField_eq.
    by rewrite (setField_id "encoding") by apply lookupField_setField_eq.
  - unfold lodash_get in *. cbn [prop] in *.
    rewrite (lookupField_setField_ne "encoding" "encoding.x.axis") by done.
    destruct (lookupField "encoding.x.axis" fs) as [v|]; [done|].
    rewrite stringToPath_axis. cbn [getPath prop].
    rewrite lookupField_setField_eq. cbn [prop].
    rewrite lookupField_setField_eq. cbn [prop].
    by rewrite lookupField_setField_eq.
Qed.

Lemma hideXAxis_idempotent_witness :
  hideXAxis
    (JObj [("encoding",
            JObj [("x", JObj [("axis", JObj [("labels", JBool false);
                                             ("title", JNull)])])])]) =
  Returns
    (JObj [("encoding",
            JObj [("x", JObj [("axis", JObj [("labels", JBool false);
                                             ("title", JNull)])])])]).
Proof.
  apply (hideXAxis_idempotent
           (JObj [("encoding", JObj [("x", JObj [("axis", JObj [])])])])).
  reflexivity.
Defined.

(** X21. The [forEach] body throws exactly when the series has a property
    that is named by the whole path string and is not null, while there is
    neither an object nor an array at [encoding.x], so that the axis cannot
    be assigned; it never needs fuel. *)
Theorem hideXAxis_throws_iff (dataSeries : json) :
  hideXAxis dataSeries = Throws TypeError ↔
  (∃ v, prop "encoding.x.axis" dataSeries = Some v ∧ v ≠ JNull) ∧
  (∀ xFields, getPath ["encoding"; "x"] (Some dataSeries) ≠ Some (JObj xFields)) ∧
  (∀ items, getPath ["encoding"; "x"] (Some dataSeries) ≠ Some (JArr items)).
Proof.
  unfold hideXAxis, lodash_get. rewrite stringToPath_axis. cbn [getPath].
  destruct dataSeries as [| | | | |fs]; cbn [prop];
    try (cbn; split; [done|by intros [(? & ? & _) _]]).
  repeat case_match; simplify_eq; cbn [prop isNull negb default from_option id] in *;
    (split;
     [intros Hthrows;
      first [discriminate Hthrows
            |split_and!; [eexists; split; [done|]; intros ->; cbn in *; done
                         |by intros ? ?|by intros ? ?]]
     |intros ((v' & Hv & Hne) & Hobj & Harr); simplify_eq; try done;
      first [by destruct (Hobj _ eq_refl)|by destruct (Harr _ eq_refl)
            |by destruct v']]).
Qed.

(** X22. The [forEach] body returns for a series exactly when lodash [get]
    finds no axis, or [null], or there is an object at [encoding.x]. *)
Theorem hideXAxis_returns_iff (dataSeries : json) :
  hides dataSeries ↔
  isNull (lodash_get dataSeries "encoding.x.axis" JNull) = true ∨
  ∃ xFields, getPath ["encoding"; "x"] (Some dataSeries) = Some (JObj xFields).
Proof.
  unfold hides. split.
  - intros [dataSeries' Hret].
    destruct (isNull (lodash_get dataSeries "encoding.x.axis" JNull)) eqn:Hnull;
      [by left|right].
    destruct (hideXAxis_shape _ _ Hnull Hret) as (fs & es & xs & -> & He & Hx).
    exists xs. cbn [getPath prop]. rewrite He. cbn [prop]. exact Hx.
  - destruct (isNull (lodash_get dataSeries "encoding.x.axis" JNull)) eqn:Hnull.
    + intros _. exists dataSeries. unfold hideXAxis. by rewrite Hnull.
    + intros [Hnone|[xs Hxs]]; [done|].
      destruct dataSeries as [| | | | |fs]; try discriminate. cbn [getPath prop] in Hxs.
      destruct (lookupField "encoding" fs) as [[| | | | |es]|] eqn:He; try discriminate.
      cbn [prop] in Hxs.
      eexists. by apply (hideXAxis_run fs es xs).
Qed.

(** X23. What the [forEach] body returns.  A series for which lodash [get]
    finds no axis, or [null], is returned as it is.  Otherwise the axis at
    [encoding.x.axis] becomes an object with [labels: false] and
    [title: null] that keeps every other property the axis had, and
    nothing else in the series changes: not its other properties, not the
    other properties of [encoding], not the other properties of
    [encoding.x]. *)
Theorem hideXAxis_result (dataSeries dataSeries' : json) :
  hideXAxis dataSeries = Returns dataSeries' →
  if isNull (lodash_get dataSeries "encoding.x.axis" JNull) then dataSeries' = dataSeries
  else
    ∃ axis,
      getPath ["encoding"; "x"; "axis"] (Some dataSeries') = Some (JObj axis) ∧
      lookupField "labels" axis = Some (JBool false) ∧
      lookupField "title" axis = Some JNull ∧
      (∀ key, key ≠ "labels" → key ≠ "title" →
              lookupField key axis =
              lookupField key (spread (getPath ["encoding"; "x"; "axis"] (Some dataSeries)))) ∧
      (∀ key, key ≠ "encoding" → prop key dataSeries' = prop key dataSeries) ∧
      (∀ key, key ≠ "x" →
              getPath ["encoding"; key] (Some dataSeries') =
              getPath ["encoding"; key] (Some dataSeries)) ∧
      (∀ key, key ≠ "axis" →
              getPath ["encoding"; "x"; key] (Some dataSeries') =
              getPath ["encoding"; "x"; key] (Some dataSeries)).
Proof.
  intros Hret.
  destruct (isNull (lodash_get dataSeries "encoding.x.axis" JNull)) eqn:Hnull.
  { unfold hideXAxis in Hret. rewrite Hnull in Hret. by simplify_eq/=. }
  destruct (hideXAxis_shape _ _ Hnull Hret) as (fs & es & xs & -> & He & Hx).
  rewrite (hideXAxis_run fs es xs Hnull He Hx) in Hret. injection Hret as <-.
  eexists. cbn [getPath prop]. rewrite He. cbn [prop]. rewrite Hx. cbn [prop].
  split_and!.
  - rewrite lookupField_setField_eq. cbn [prop].
    rewrite lookupField_setField_eq. cbn [prop].
    by rewrite lookupField_setField_eq.
  - rewrite lookupField_setField_ne by done. apply lookupField_setField_eq.
  - apply lookupField_setField_eq.
  - intros key Hl Ht. by rewrite !lookupField_setField_ne by done.
  - intros key Hkey. by rewrite lookupField_setField_ne by done.
  - intros key Hkey. rewrite lookupField_setField_eq. cbn [prop].
    by rewrite lookupField_setField_ne by done.
  - intros key Hkey. rewrite lookupField_setField_eq. cbn [prop].
    rewrite lookupField_setField_eq. cbn [prop].
    by rewrite lookupField_setField_ne by done.
Qed.

Lemma hideXAxis_result_witness :
  ∃ axis,
    getPath ["encoding"; "x"; "axis"]
      (Some (JObj [("mark", JStr "line");
                   ("encoding",
                    JObj [("x", JObj [("axis", JObj [("title", JStr "t");
                                                     ("grid", JBool true)])])])]))
      = Some (JObj [("title", JStr "t"); ("grid", JBool true)]) ∧
    hideXAxis
      (JObj [("mark", JStr "line");
             ("encoding",
              JObj [("x", JObj [("axis", JObj [("title", JStr "t");
                                               ("grid", JBool true)])])])]) =
    Returns
      (JObj [("mark", JStr "line");
             ("encoding", JObj [("x", JObj [("axis", JObj axis)])])]) ∧
    lookupField "labels" axis = Some (JBool false) ∧
    lookupField "title" axis = Some JNull ∧
    lookupField "grid" axis = Some (JBool true).
Proof.
  pose proof (hideXAxis_result
                (JObj [("mark", JStr "line");
                       ("encoding",
                        JObj [("x", JObj [("axis", JObj [("title", JStr "t");
                                                         ("grid", JBool true)])])])])
                _ eq_refl) as Hres.
  cbn [isNull lodash_get] in Hres.
  destruct Hres as (axis & Haxis & Hlabels & Htitle & Hother & _).
  injection Haxis as <-.
  eexists. split_and!; [reflexivity|reflexivity|exact Hlabels|exact Htitle|].
  by rewrite Hother.
Defined.

(** ** Dense input: how far an event is from its bucket *)

Lemma extendedKeys_arith dimensions a (n : nat) :
  extendedKeys dimensions (arith a (x_params_interval dimensions) (S n)) =
  arith (a - Z.of_nat (prependCount dimensions (Some a)) * x_params_interval dimensions)
    (x_params_interval dimensions)
    (prependCount dimensions (Some a) +
     (S n + appendCount dimensions
              (Some (a + Z.of_nat n * x_params_interval dimensions)))).
Proof.
  set (i := x_params_interval dimensions).
  unfold extendedKeys.
  change (arith a i (S n)) with (a :: arith (a + i) i n) at 1.
  cbv iota. rewrite arith_last. cbn [default from_option id]. fold i.
  rewrite !arith_app. f_equal. f_equal; f_equal; lia.
Qed.

Lemma nearest_arith_half a i (n : nat) t (j : nat) :
  0 < i →
  a <= t <= a + Z.of_nat n * i →
  nearest (arith a i (S n)) t j →
  ∃ k, arith a i (S n) !! j = Some k ∧ 2 * Z.abs (t - k) <= i.
Proof.
  intros Hi Ht (k & Hk & Hall). exists k. split; [done|].
  set (q := (2 * (t - a) + i) / (2 * i)).
  assert (0 <= q) as Hq0 by (apply Z.div_pos; lia).
  assert (q < Z.of_nat (S n)) as Hqn by (apply Z.div_lt_upper_bound; nia).
  pose proof (Z.mul_div_le (2 * (t - a) + i) (2 * i) ltac:(lia)) as Hlo.
  pose proof (Z.mul_succ_div_gt (2 * (t - a) + i) (2 * i) ltac:(lia)) as Hhi.
  fold q in Hlo, Hhi.
  destruct (Hall (Z.to_nat q) (a + q * i)) as [Hnear _].
  { rewrite arith_lookup by lia. f_equal. lia. }
  nia.
Qed.

(** X19. On dense input binning is accurate to half an interval.  When
    the input rows carry keys one positive interval apart and the ids of
    the layers are plain keys other than the axis column's id, every event
    whose timestamp lies within the chart bounds is counted in a row whose
    key is at most half an interval away from the timestamp. *)
Theorem dense_input_half_interval ty fuel (d : loc) dimensions visLayers t (h : heap) x
    a (n : nat) :
  h !! d = Some t →
  getXAxisId dimensions (columns t) = Returns x →
  0 < x_params_interval dimensions →
  hasKeys x (rows t) (arith a (x_params_interval dimensions) (S n)) →
  (2 ≤ length (extendedRows x dimensions (rows t)))%nat →
  (length (extendedRows x dimensions (rows t)) ≤ fuel)%nat →
  Forall (λ v, x ≠ pluginResource_id v) visLayers →
  Forall (λ v, plainKey (pluginResource_id v)) visLayers →
  ∃ targetss : list (list nat),
    addPointInTimeEventsLayersToTable ty fuel d dimensions visLayers h =
      (Returns (fresh (dom h)),
       <[fresh (dom h) :=
           mkTable (columns t ++ (layerColumn ty <$> visLayers))
             (foldl binLayer (extendedRows x dimensions (rows t))
                (zip visLayers targetss))]> h) ∧
    Forall2
      (λ visLayer targets,
         ∃ timestamps,
           timestamps ≡ₚ timestamp <$> events visLayer ∧
           Forall2
             (λ timestamp (j : nat),
                x_params_bounds_min dimensions <= timestamp
                  <= x_params_bounds_max dimensions →
                ∃ row k,
                  extendedRows x dimensions (rows t) !! j = Some row ∧
                  row !! x = Some k ∧
                  2 * Z.abs (timestamp - k) <= x_params_interval dimensions)
             timestamps targets)
      visLayers targetss.
Proof.
  intros Hd Hx Hi Hks Hlen Hfuel Hne Hplain.
  set (i := x_params_interval dimensions) in *.
  pose proof (extendedKeys_length x dimensions (rows t) _ Hks) as Hlen'.
  pose proof (hasKeys_extendedRows x dimensions (rows t) _ Hks) as Hks'.
  destruct (addPointInTimeEventsLayersToTable_pipeline ty fuel d dimensions visLayers
              t h x (arith a i (S n)) Hd Hx Hi Hks)
    as (targetss & Hrun & Hnear); [by apply nondecreasing_arith|lia|lia|done|done|].
  exists targetss. split; [done|].
  eapply Forall2_impl; [exact Hnear|]. intros v targets (timestamps & Hperm & Htargets).
  exists timestamps. split; [done|].
  eapply Forall2_impl; [exact Htargets|]. intros ts j Hj Hts. cbv beta in Hj.
  pose proof (extendedKeys_arith dimensions a n) as Hkeys. fold i in Hkeys.
  rewrite Hkeys in Hj, Hks'.
  set (p := prependCount dimensions (Some a)) in *.
  set (q := appendCount dimensions (Some (a + Z.of_nat n * i))) in *.
  pose proof (stepsBetween_cover i (x_params_bounds_min dimensions) a Hi) as [Hlo _].
  pose proof (stepsBetween_cover i (a + Z.of_nat n * i)
                (x_params_bounds_max dimensions) Hi) as [_ Hhi].
  assert (x_params_bounds_max dimensions <= a + Z.of_nat n * i + Z.of_nat q * i) as Hmax.
  { subst q. unfold appendCount. fold i.
    destruct (Z_le_gt_dec (x_params_bounds_max dimensions) (a + Z.of_nat n * i)).
    - rewrite stepsBetween_0 by lia. lia.
    - unfold stepsBetween.
      assert (0 <= (x_params_bounds_max dimensions - (a + Z.of_nat n * i) + i - 1) / i)
        by (apply Z.div_pos; lia).
      pose proof (Z.mul_succ_div_gt
                    (x_params_bounds_max dimensions - (a + Z.of_nat n * i) + i - 1) i Hi).
      rewrite Z2Nat.id by done. lia. }
  change (stepsBetween i (x_params_bounds_min dimensions) a) with p in Hlo.
  replace (p + (S n + q))%nat with (S (p + n + q)) in Hj, Hks' by lia.
  destruct (nearest_arith_half (a - Z.of_nat p * i) i (p + n + q) ts j Hi) as (k & Hk & Hhalf);
    [lia|done|].
  destruct (hasKeys_lookup x _ _ j Hks') as (row & k' & Hrow & Hk' & Hrowx).
  { apply lookup_lt_Some in Hk. done. }
  exists row, k. split_and!; [done| |done]. congruence.
Qed.

Lemma dense_input_half_interval_witness :
  ∃ targetss : list (list nat),
    addPointInTimeEventsLayersToTable "vis_layer" 7 0%nat
      (mkDimensions "timestamp" 10 5 55) [detectorLayer] {[0%nat := denseTable]} =
      (Returns (fresh (dom ({[0%nat := denseTable]} : heap))),
       <[fresh (dom ({[0%nat := denseTable]} : heap)) :=
           mkTable (columns denseTable ++ [layerColumn "vis_layer" detectorLayer])
             (foldl binLayer
                (extendedRows "col-0" (mkDimensions "timestamp" 10 5 55) (rows denseTable))
                (zip [detectorLayer] targetss))]> {[0%nat := denseTable]}).
Proof.
  destruct (dense_input_half_interval "vis_layer" 7 0%nat (mkDimensions "timestamp" 10 5 55)
              [detectorLayer] denseTable {[0%nat := denseTable]} "col-0" 20 1)
    as (targetss & Hrun & _).
  - reflexivity.
  - reflexivity.
  - reflexivity.
  - reflexivity.
  - vm_compute. lia.
  - vm_compute. lia.
  - repeat constructor. discriminate.
  - repeat constructor.
  - by exists targetss.
Defined.

(** ** generateVisLayerFilterString *)

(** X20. The filter that excludes every datum is returned for no id only:
    for one or more ids the filter string is never ["false"]. *)
Theorem filter_string_false_iff (visLayerColumnIds : list string) :
  generateVisLayerFilterString visLayerColumnIds = "false" ↔ visLayerColumnIds = [].
Proof.
  split; [|by intros ->].
  destruct visLayerColumnIds as [|id ids]; [done|]. intros Hfalse. exfalso.
  unfold generateVisLayerFilterString in Hfalse. cbn [isEmpty negb] in Hfalse.
  rewrite join_concat in Hfalse.
  destruct ids as [|id' ids]; vm_compute in Hfalse; discriminate.
Qed.
